(** * terraform-trail: the diff engine's action derivation, the test-file
      runner's scheduling loop, and the state round trip

    The development follows the Go sources:

    - [internal/command/jsonformat/differ/change.go], package [differ]:
      [Change], [calculateChange], [getDefaultActionForIteration],
      [compareActions], [asDiff];
    - the second document of the same file, package [local]:
      [TestFileRunner.Test], [run], [wait], [cleanup],
      [AddVariablesToConfig], [TestSuiteRunner.Test];
    - the Azure remote-state client test [TestPutMaintainsMetaData].

    Values of Go's [interface{}] produced by [encoding/json] are an inductive
    type; Go maps that are mutated in place live in an explicit heap of
    locations; the interrupt flags of the suite are booleans threaded through
    the loops together with an oracle for what the environment does. *)

From Stdlib Require Import ZArith Bool SpecFloat Sorted.
From stdpp Require Import gmap strings list fin_maps.

Set Default Proof Using "Type".

(** ** Package [plans] *)

Module plans.

(** Modelled from the spec: the declaration of [plans.Action] is not among
    the sources; the data model lists its values as NoOp, Create, Update,
    Delete, Replace and Read. *)
Inductive Action := NoOp | Create | Read | Update | Delete | Replace.

Definition eqb (a b : Action) : bool :=
  match a, b with
  | NoOp, NoOp | Create, Create | Read, Read
  | Update, Update | Delete, Delete | Replace, Replace => true
  | _, _ => false
  end.

End plans.

(** ** Values decoded by [encoding/json] into [interface{}] *)

(** [unmarshalGeneric] returns the untyped nil for a nil message and otherwise
    what [json.Unmarshal] stores into an [interface{}]: nil, bool, float64,
    string, [[]interface{}] or [map[string]interface{}].  A Go map is kept as
    the list of its entries; [decoded] below says that keys are unique. *)
#[local] Unset Elimination Schemes.
Inductive value :=
| JNil
| JBool (b : bool)
| JNumber (f : spec_float)
| JString (s : string)
| JSlice (l : list value)
| JMap (m : list (string * value)).
#[local] Set Elimination Schemes.

(** [v.MapIndex(k)]: the entry stored under key [k], if any. *)
Fixpoint MapIndex (m : list (string * value)) (k : string) : option value :=
  match m with
  | [] => None
  | (k', v) :: m' => if String.eqb k' k then Some v else MapIndex m' k
  end.

(** [reflect.DeepEqual] on such values.  Two interface values are deeply equal
    when both are nil or when they hold the same dynamic type and deeply equal
    contents: [==] on bool, float64 (IEEE equality, so NaN differs from
    itself) and string; equal length and pairwise deeply equal elements for
    slices; equal length and, for every key of the first map, a deeply equal
    entry in the second for maps. *)
Fixpoint DeepEqual (x y : value) {struct x} : bool :=
  match x, y with
  | JNil, JNil => true
  | JBool a, JBool b => Bool.eqb a b
  | JNumber a, JNumber b => SFeqb a b
  | JString a, JString b => String.eqb a b
  | JSlice l1, JSlice l2 =>
      (fix elems (l1 l2 : list value) {struct l1} : bool :=
         match l1, l2 with
         | [], [] => true
         | a :: l1', b :: l2' => DeepEqual a b && elems l1' l2'
         | _, _ => false
         end) l1 l2
  | JMap m1, JMap m2 =>
      Nat.eqb (length m1) (length m2) &&
      (fix keys (m : list (string * value)) {struct m} : bool :=
         match m with
         | [] => true
         | (k, v1) :: m' =>
             match MapIndex m2 k with
             | Some v2 => DeepEqual v1 v2
             | None => false
             end && keys m'
         end) m1
  | _, _ => false
  end.

(** The two inner loops of [DeepEqual], named. *)
Fixpoint DeepEqual_elems (l1 l2 : list value) : bool :=
  match l1, l2 with
  | [], [] => true
  | a :: l1', b :: l2' => DeepEqual a b && DeepEqual_elems l1' l2'
  | _, _ => false
  end.

Fixpoint DeepEqual_keys (m2 m : list (string * value)) : bool :=
  match m with
  | [] => true
  | (k, v1) :: m' =>
      match MapIndex m2 k with
      | Some v2 => DeepEqual v1 v2
      | None => false
      end && DeepEqual_keys m2 m'
  end.

Definition is_nil (v : value) : bool :=
  match v with JNil => true | _ => false end.

Definition SFis_nan (f : spec_float) : bool :=
  match f with S754_nan => true | _ => false end.

Fixpoint uniq (ks : list string) : bool :=
  match ks with
  | [] => true
  | k :: r => negb (existsb (String.eqb k) r) && uniq r
  end.

(** What [json.Unmarshal] can produce: JSON has no NaN literal and a decoded
    object holds each key once. *)
Fixpoint decoded (v : value) : bool :=
  match v with
  | JNumber f => negb (SFis_nan f)
  | JSlice l => forallb decoded l
  | JMap m => uniq (map fst m) && forallb (fun kv => decoded (snd kv)) m
  | _ => true
  end.

(** The induction principle of [value], through its slices and maps. *)
Section value_induction.

Variable P : value -> Prop.
Hypothesis HNil : P JNil.
Hypothesis HBool : forall b, P (JBool b).
Hypothesis HNumber : forall f, P (JNumber f).
Hypothesis HString : forall s, P (JString s).
Hypothesis HSlice : forall l, Forall P l -> P (JSlice l).
Hypothesis HMap : forall m, Forall (fun kv => P kv.2) m -> P (JMap m).

Fixpoint value_ind (v : value) : P v :=
  match v with
  | JNil => HNil
  | JBool b => HBool b
  | JNumber f => HNumber f
  | JString s => HString s
  | JSlice l =>
      HSlice l
        ((fix go (l : list value) : Forall P l :=
            match l with
            | [] => Forall_nil_2 P
            | x :: l' => Forall_cons_2 P x l' (value_ind x) (go l')
            end) l)
  | JMap m =>
      HMap m
        ((fix go (m : list (string * value)) : Forall (fun kv => P kv.2) m :=
            match m with
            | [] => Forall_nil_2 _
            | (k, x) :: m' =>
                Forall_cons_2 (fun kv => P kv.2) (k, x) m' (value_ind x) (go m')
            end) m)
  end.

End value_induction.

(** ** Package [differ]: [Change] and the derivation of its action *)

Section Differ.

(** [replace.ForcesReplacement] and its method [ForcesReplacement()],
    [computed.DiffRenderer], [computed.Diff] and [computed.NewDiff] belong
    to packages that are not among the sources: they are parameters. *)
Context {ForcesReplacementT DiffRenderer Diff : Type}.
Variable ForcesReplacement : ForcesReplacementT -> bool.
Variable NewDiff : DiffRenderer -> plans.Action -> bool -> Diff.

Record Change := {
  BeforeExplicit : bool;
  AfterExplicit : bool;
  Before : value;
  After : value;
  Unknown : value;
  BeforeSensitive : value;
  AfterSensitive : value;
  ReplacePaths : ForcesReplacementT
}.

(** The methods [isBeforeSensitive] and [isAfterSensitive] are declared in
    another file of the package, which is not among the sources. *)
Variable isBeforeSensitive isAfterSensitive : Change -> bool.

Definition calculateChange (change : Change) : plans.Action :=
  if (is_nil (Before change) && negb (BeforeExplicit change))
     && (negb (is_nil (After change)) || AfterExplicit change)
  then plans.Create
  else if (is_nil (After change) && negb (AfterExplicit change))
          && (negb (is_nil (Before change)) || BeforeExplicit change)
  then plans.Delete
  else if DeepEqual (Before change) (After change)
          && Bool.eqb (AfterExplicit change) (BeforeExplicit change)
          && Bool.eqb (isAfterSensitive change) (isBeforeSensitive change)
  then plans.NoOp
  else plans.Update.

Definition asDiff (change : Change) (renderer : DiffRenderer) : Diff :=
  NewDiff renderer (calculateChange change)
          (ForcesReplacement (ReplacePaths change)).

Definition getDefaultActionForIteration (change : Change) : plans.Action :=
  if is_nil (Before change) && is_nil (After change) then plans.NoOp
  else if is_nil (Before change) then plans.Create
  else if is_nil (After change) then plans.Delete
  else plans.NoOp.

End Differ.

Definition compareActions (current next : plans.Action) : plans.Action :=
  if plans.eqb next plans.NoOp then current
  else if negb (plans.eqb current next) then plans.Update
  else current.

Arguments Change : clear implicits.

(** Modelled from the spec: the bodies of [isBeforeSensitive] and
    [isAfterSensitive] are not among the sources.  The data model keeps a
    sensitive mark per attribute path, and the comments on the fields of
    [Change] say that the mark is a boolean for the whole value, or a list or
    a map for its parts: the whole value is sensitive when its mark is the
    boolean true.  The general results below hold for any two such methods;
    these are used where a statement has to be evaluated. *)
Definition isSensitive (mark : value) : bool :=
  match mark with JBool b => b | _ => false end.

Definition isBeforeSensitive {R} (change : Change R) : bool :=
  isSensitive (BeforeSensitive change).

Definition isAfterSensitive {R} (change : Change R) : bool :=
  isSensitive (AfterSensitive change).

(** The value found by following an attribute path (object keys and array
    indices) from a value, used to say that a path of [ReplacePaths] differs
    between the two sides of a change. *)
Fixpoint at_path (v : value) (path : list (string + nat)) : option value :=
  match path with
  | [] => Some v
  | inl k :: path' =>
      match v with
      | JMap m => match MapIndex m k with
                  | Some v' => at_path v' path'
                  | None => None
                  end
      | _ => None
      end
  | inr i :: path' =>
      match v with
      | JSlice l => match l !! i with
                    | Some v' => at_path v' path'
                    | None => None
                    end
      | _ => None
      end
  end.

(** ** Package [moduletest] *)

Module moduletest.

(** Modelled from the spec: the declarations of [moduletest.Status] and of
    its method [Merge] are not among the sources.  The runner uses the
    values Skip, Pass and Error and its comments name the pending status a
    run block starts in; Fail is the remaining outcome of a run block.  The
    aggregate of two results is the more severe one, a success only if
    nothing errored.  The runner below takes [Merge] as a parameter; this
    one is used where a statement has to be evaluated. *)
Inductive Status := Pending | Skip | Pass | Fail | Error.

Definition eqb (a b : Status) : bool :=
  match a, b with
  | Pending, Pending | Skip, Skip | Pass, Pass | Fail, Fail
  | Error, Error => true
  | _, _ => false
  end.

Definition rank (s : Status) : nat :=
  match s with
  | Pending => 0 | Skip => 1 | Pass => 2 | Fail => 3 | Error => 4
  end.

Definition Merge (status next : Status) : Status :=
  if rank status <? rank next then next else status.

(** The phases announced to the view. *)
Inductive Progress := Starting | Running | TearDown | Complete.

(** A run block: its position and name, its status, and the source of the
    module under test when the block loads an alternate module
    ([run.Config.ConfigUnderTest != nil], keyed by
    [run.Config.Module.Source.String()]). *)
Record Run := {
  Run_Index : nat;
  Run_Name : string;
  Run_Status : Status;
  Run_ConfigUnderTest : option string
}.

Record File := {
  File_Name : string;
  File_Runs : list Run;
  File_Status : Status
}.

End moduletest.

Definition with_Status (s : moduletest.Status) (run : moduletest.Run)
  : moduletest.Run :=
  {| moduletest.Run_Index := moduletest.Run_Index run;
     moduletest.Run_Name := moduletest.Run_Name run;
     moduletest.Run_Status := s;
     moduletest.Run_ConfigUnderTest := moduletest.Run_ConfigUnderTest run |}.

Definition with_File (runs : list moduletest.Run) (s : moduletest.Status)
    (file : moduletest.File) : moduletest.File :=
  {| moduletest.File_Name := moduletest.File_Name file;
     moduletest.File_Runs := runs;
     moduletest.File_Status := s |}.

(** ** Package [local]: the test runner *)

Definition MainStateIdentifier : string := "".

(** What the user did during some stretch of the execution: the first
    interrupt calls [TestSuiteRunner.Stop], the second [Cancel]. *)
Record Interrupts := { stop : bool; cancel : bool }.

Definition quiet : Interrupts := {| stop := false; cancel := false |}.

(** The calls the runner makes on its collaborators, in order. *)
Inductive Event :=
| ViewRun (run : string) (progress : moduletest.Progress)
| ViewFile (file : string) (progress : moduletest.Progress)
| ViewDestroySummary (run : option string)
| ViewFatalInterruptSummary
| ViewConclusion
| Operation (run : string)
| DestroyOperation (run : string)
| ContextStop.

Definition is_Operation (e : Event) : bool :=
  match e with Operation _ => true | _ => false end.

Definition is_DestroyOperation (e : Event) : bool :=
  match e with DestroyOperation _ => true | _ => false end.

(** No operation of a run block among the calls. *)
Definition no_Operation (es : list Event) : Prop :=
  Forall (fun e => is_Operation e = false) es.

(** The two flags of [TestSuiteRunner] that the loops consult. *)
Record TestSuiteRunner := { Stopped : bool; Cancelled : bool }.

Definition Stop (runner : TestSuiteRunner) : TestSuiteRunner :=
  {| Stopped := true; Cancelled := Cancelled runner |}.

Definition Cancel (runner : TestSuiteRunner) : TestSuiteRunner :=
  {| Stopped := Stopped runner; Cancelled := true |}.

Definition deliver (i : Interrupts) (runner : TestSuiteRunner)
  : TestSuiteRunner :=
  let runner := if stop i then Stop runner else runner in
  if cancel i then Cancel runner else runner.

Section Runner.

(** [states.State] with [states.NewState()] and [state.Empty()], and
    [Status.Merge], come from packages that are not among the sources. *)
Context {State : Type}.
Variable NewState : State.
Variable Empty : State -> bool.
Variable Merge : moduletest.Status -> moduletest.Status -> moduletest.Status.

(** [TestFileState]: a run block and the state its execution produced. *)
Record TestFileState := {
  TestFileState_Run : option moduletest.Run;
  TestFileState_State : State
}.

(** [TestFileRunner]: the suite it belongs to (shared, so the flags travel
    with it), the states to clean up, and the calls made so far.  The
    variable and prior-state caches play no part in the scheduling. *)
Record TestFileRunner := {
  Suite : TestSuiteRunner;
  RelevantStates : gmap string TestFileState;
  Trace : list Event
}.

Definition interrupt (i : Interrupts) (runner : TestFileRunner)
  : TestFileRunner :=
  {| Suite := deliver i (Suite runner);
     RelevantStates := RelevantStates runner;
     Trace := Trace runner |}.

Definition emit (es : list Event) (runner : TestFileRunner)
  : TestFileRunner :=
  {| Suite := Suite runner;
     RelevantStates := RelevantStates runner;
     Trace := Trace runner ++ es |}.

Definition set_RelevantState (key : string) (s : TestFileState)
    (runner : TestFileRunner) : TestFileRunner :=
  {| Suite := Suite runner;
     RelevantStates := <[key := s]> (RelevantStates runner);
     Trace := Trace runner |}.

(** The environment.  [arrive run] are the interrupts delivered before the
    loop reaches [run]; [execute run state] is what validating, planning,
    applying and evaluating the block comes to (lines 534-721 of [run]):
    the status left on the block, the state returned with its "updated"
    flag, and the interrupts delivered meanwhile. *)
Record Outcome := {
  status : moduletest.Status;
  state : State;
  updatedState : bool;
  during : Interrupts
}.

Variable arrive : moduletest.Run -> Interrupts.
Variable execute : moduletest.Run -> State -> Outcome.

(** [TestFileRunner.run]. *)
Definition run (runner : TestFileRunner) (r : moduletest.Run) (st : State)
  : TestFileRunner * moduletest.Run * State * bool :=
  if Cancelled (Suite runner) then (runner, r, st, false)
  else if Stopped (Suite runner) then
    (runner, with_Status moduletest.Skip r, st, false)
  else
    let o := execute r st in
    (interrupt (during o)
       (emit [ViewRun (moduletest.Run_Name r) moduletest.Starting;
              Operation (moduletest.Run_Name r)] runner),
     with_Status (status o) r, state o, updatedState o).

(** The part of the loop body of [Test] after the three guards, for the
    state stored under [key].  A missing entry is a nil dereference. *)
Definition Test_execute (runner : TestFileRunner)
    (fileStatus : moduletest.Status) (r : moduletest.Run) (key : string)
  : option (TestFileRunner * moduletest.Status * moduletest.Run * bool) :=
  relevant ← RelevantStates runner !! key;
  let '(runner, r, st, updated) :=
    run runner r (TestFileState_State relevant) in
  let runner :=
    if updated
    then set_RelevantState key
           {| TestFileState_Run := Some r; TestFileState_State := st |}
           runner
    else runner in
  Some (emit [ViewRun (moduletest.Run_Name r) moduletest.Complete] runner,
        Merge fileStatus (moduletest.Run_Status r), r, false).

(** One iteration of the loop over [file.Runs] in [Test]: the runner, the
    file status and the run block after it, and whether the iteration left
    the function through [return]. *)
Definition Test_iteration (runner : TestFileRunner)
    (fileStatus : moduletest.Status) (r : moduletest.Run)
  : option (TestFileRunner * moduletest.Status * moduletest.Run * bool) :=
  let runner := interrupt (arrive r) runner in
  if Cancelled (Suite runner) then
    Some (runner, Merge fileStatus moduletest.Error, r, true)
  else if Stopped (Suite runner) then
    Some (emit [ViewRun (moduletest.Run_Name r) moduletest.Complete] runner,
          fileStatus, with_Status moduletest.Skip r, false)
  else if moduletest.eqb fileStatus moduletest.Error then
    Some (emit [ViewRun (moduletest.Run_Name r) moduletest.Complete] runner,
          fileStatus, with_Status moduletest.Skip r, false)
  else
    match moduletest.Run_ConfigUnderTest r with
    | Some key =>
        if String.eqb key MainStateIdentifier then
          Some (runner, moduletest.Error,
                with_Status moduletest.Error r, false)
        else
          let runner :=
            match RelevantStates runner !! key with
            | Some _ => runner
            | None =>
                set_RelevantState key
                  {| TestFileState_Run := None;
                     TestFileState_State := NewState |} runner
            end in
          Test_execute runner fileStatus r key
    | None => Test_execute runner fileStatus r MainStateIdentifier
    end.

(** The loop over [file.Runs]: the run blocks come back with the statuses
    the loop left on them; the last component says whether the loop was
    left through [return]. *)
Fixpoint Test_loop (runner : TestFileRunner)
    (fileStatus : moduletest.Status) (runs : list moduletest.Run)
  : option (TestFileRunner * moduletest.Status * list moduletest.Run * bool)
  :=
  match runs with
  | [] => Some (runner, fileStatus, [], false)
  | r :: rest =>
      '(runner, fileStatus, r, returned) ←
        Test_iteration runner fileStatus r;
      if (returned : bool) then Some (runner, fileStatus, r :: rest, true)
      else
        '(runner, fileStatus, rest, returned) ←
          Test_loop runner fileStatus rest;
        Some (runner, fileStatus, r :: rest, returned)
  end.

(** [TestFileRunner.Test]. *)
Definition Test (runner : TestFileRunner) (file : moduletest.File)
  : option (TestFileRunner * moduletest.File) :=
  let fileStatus := Merge (moduletest.File_Status file) moduletest.Skip in
  let fileStatus :=
    if Nat.eqb (length (moduletest.File_Runs file)) 0
    then Merge fileStatus moduletest.Pass
    else fileStatus in
  '(runner, fileStatus, runs, _) ←
    Test_loop runner fileStatus (moduletest.File_Runs file);
  Some (runner, with_File runs fileStatus file).

(** What tearing a state down comes to once [destroy] is past its
    empty-state check (lines 766-823): the state left behind and the
    interrupts delivered meanwhile.  [transform_fails run] says that
    [TransformConfigForTest] reports errors for the run block. *)
Record Destroyed := {
  remaining : State;
  meanwhile : Interrupts
}.

Variable teardown : moduletest.Run -> State -> Destroyed.
Variable transform_fails : moduletest.Run -> bool.

(** [TestFileRunner.destroy]. *)
Definition destroy (runner : TestFileRunner) (r : moduletest.Run)
    (st : State) : TestFileRunner * State :=
  if Empty st then (runner, st)
  else
    let d := teardown r st in
    (interrupt (meanwhile d)
       (emit [ViewRun (moduletest.Run_Name r) moduletest.TearDown;
              DestroyOperation (moduletest.Run_Name r)] runner),
     remaining d).

(** The first loop over [runner.RelevantStates] in [cleanup], which picks
    the states of the alternate modules. *)
Fixpoint cleanup_collect (runner : TestFileRunner)
    (fileStatus : moduletest.Status)
    (entries : list (string * TestFileState))
  : TestFileRunner * moduletest.Status * list (moduletest.Run * State) :=
  match entries with
  | [] => (runner, fileStatus, [])
  | (key, s) :: rest =>
      if String.eqb key MainStateIdentifier
      then cleanup_collect runner fileStatus rest
      else
        match TestFileState_Run s with
        | None =>
            if Empty (TestFileState_State s)
            then cleanup_collect runner fileStatus rest
            else cleanup_collect (emit [ViewDestroySummary None] runner)
                   moduletest.Error rest
        | Some r =>
            let '(runner, fileStatus, states) :=
              cleanup_collect runner fileStatus rest in
            (runner, fileStatus, (r, TestFileState_State s) :: states)
        end
  end.

(** [slices.SortFunc] with [b.Run.Index - a.Run.Index]: later run blocks
    first. *)
Fixpoint insert_later_first (x : moduletest.Run * State)
    (l : list (moduletest.Run * State)) : list (moduletest.Run * State) :=
  match l with
  | [] => [x]
  | y :: l' =>
      if moduletest.Run_Index y.1 <=? moduletest.Run_Index x.1
      then x :: y :: l'
      else y :: insert_later_first x l'
  end.

Definition sort_later_first (l : list (moduletest.Run * State))
  : list (moduletest.Run * State) :=
  foldr insert_later_first [] l.

(** The second loop of [cleanup], over the sorted states. *)
Fixpoint cleanup_states (runner : TestFileRunner)
    (fileStatus : moduletest.Status)
    (states : list (moduletest.Run * State))
  : TestFileRunner * moduletest.Status :=
  match states with
  | [] => (runner, fileStatus)
  | (r, st) :: rest =>
      if Cancelled (Suite runner) then (runner, fileStatus)
      else
        let '(runner, updated) :=
          if transform_fails r then (runner, st) else destroy runner r st in
        let fileStatus :=
          if negb (Empty updated) then moduletest.Error else fileStatus in
        cleanup_states
          (emit [ViewDestroySummary (Some (moduletest.Run_Name r))] runner)
          fileStatus rest
  end.

(** [TestFileRunner.cleanup]. *)
Definition cleanup (runner : TestFileRunner) (file : moduletest.File)
  : option (TestFileRunner * moduletest.File) :=
  if Cancelled (Suite runner) then Some (runner, file)
  else
    main ← RelevantStates runner !! MainStateIdentifier;
    let '(runner, updated) :=
      match TestFileState_Run main with
      | None => (runner, TestFileState_State main)
      | Some r =>
          if transform_fails r then (runner, TestFileState_State main)
          else destroy runner r (TestFileState_State main)
      end in
    let fileStatus :=
      if negb (Empty updated) then moduletest.Error
      else moduletest.File_Status file in
    let runner :=
      emit [ViewDestroySummary
              (moduletest.Run_Name <$> TestFileState_Run main)] runner in
    if Cancelled (Suite runner)
    then Some (runner, with_File (moduletest.File_Runs file) fileStatus file)
    else
      let '(runner, fileStatus, states) :=
        cleanup_collect runner fileStatus
          (map_to_list (RelevantStates runner)) in
      let '(runner, fileStatus) :=
        cleanup_states runner fileStatus (sort_later_first states) in
      Some (runner, with_File (moduletest.File_Runs file) fileStatus file).

(** The loop over the files in [TestSuiteRunner.Test]; the files come in
    the alphabetical order of their names. *)
Fixpoint TestSuiteRunner_Test_loop (suite : TestSuiteRunner)
    (trace : list Event) (suiteStatus : moduletest.Status)
    (files : list moduletest.File)
  : option (TestSuiteRunner * list Event * moduletest.Status
            * list moduletest.File) :=
  match files with
  | [] => Some (suite, trace ++ [ViewConclusion], suiteStatus, [])
  | file :: rest =>
      if Cancelled suite then Some (suite, trace, suiteStatus, file :: rest)
      else
        let name := moduletest.File_Name file in
        let fileRunner :=
          {| Suite := suite;
             RelevantStates :=
               {[ MainStateIdentifier :=
                    {| TestFileState_Run := None;
                       TestFileState_State := NewState |} ]};
             Trace := trace ++ [ViewFile name moduletest.Starting] |} in
        '(fileRunner, file) ← Test fileRunner file;
        let fileRunner :=
          emit [ViewFile name moduletest.TearDown] fileRunner in
        '(fileRunner, file) ← cleanup fileRunner file;
        let fileRunner :=
          emit [ViewFile name moduletest.Complete] fileRunner in
        '(suite, trace, suiteStatus, rest) ←
          TestSuiteRunner_Test_loop (Suite fileRunner) (Trace fileRunner)
            (Merge suiteStatus (moduletest.File_Status file)) rest;
        Some (suite, trace, suiteStatus, file :: rest)
  end.

Definition TestSuiteRunner_Test (suite : TestSuiteRunner)
    (files : list moduletest.File) :=
  TestSuiteRunner_Test_loop suite [] moduletest.Pass files.

End Runner.

(** ** [TestFileRunner.wait] *)

(** The case a [select] of [wait] takes: the two-second timer, the suite's
    stopped or cancelled context, or the context of the running operation. *)
Inductive Select := After2s | StoppedCtxDone | CancelledCtxDone | RunningCtxDone.

(** [wait] against a list of the cases its successive selects take: it
    returns its [cancelled] result, or is still blocked in a select when the
    list ends, or the list names a case that the select reached does not
    have.  Each carries the calls made so far. *)
Inductive Waited :=
| Returned (cancelled : bool) (calls : list Event)
| Blocked (cancelled : bool) (calls : list Event)
| NotOffered.

Section Wait.

Variable run : string.
Variable progress : moduletest.Progress.

(** The loop of the closure [handleCancelled]. *)
Fixpoint handleCancelled_loop (calls : list Event) (choices : list Select)
  : Waited :=
  match choices with
  | [] => Blocked true calls
  | After2s :: rest =>
      handleCancelled_loop (calls ++ [ViewRun run progress]) rest
  | RunningCtxDone :: _ => Returned true calls
  | _ :: _ => NotOffered
  end.

(** [handleCancelled]: print the summary, set [cancelled], start
    [ctx.Stop()], then wait for the operation. *)
Definition handleCancelled (calls : list Event) (choices : list Select)
  : Waited :=
  handleCancelled_loop (calls ++ [ViewFatalInterruptSummary; ContextStop])
    choices.

(** [handleStopped]. *)
Fixpoint handleStopped (calls : list Event) (choices : list Select)
  : Waited :=
  match choices with
  | [] => Blocked false calls
  | After2s :: rest => handleStopped (calls ++ [ViewRun run progress]) rest
  | CancelledCtxDone :: rest => handleCancelled calls rest
  | RunningCtxDone :: _ => Returned false calls
  | StoppedCtxDone :: _ => NotOffered
  end.

(** The outer loop of [wait]. *)
Fixpoint wait_loop (calls : list Event) (choices : list Select) : Waited :=
  match choices with
  | [] => Blocked false calls
  | After2s :: rest => wait_loop (calls ++ [ViewRun run progress]) rest
  | StoppedCtxDone :: rest => handleStopped calls rest
  | CancelledCtxDone :: rest => handleCancelled calls rest
  | RunningCtxDone :: _ => Returned false calls
  end.

Definition wait (choices : list Select) : Waited := wait_loop [] choices.

End Wait.

(** ** [TestFileRunner.AddVariablesToConfig] *)

(** Go maps are objects that the function mutates in place and hands around
    by reference: they live in a heap of locations, and the field
    [config.Module.Variables] holds a reference (or nil). *)
Section AddVariables.

(** [configs.Variable] and [terraform.InputValue] are declared in packages
    that are not among the sources; [newVariable name value] is the
    composite literal [&configs.Variable{Name: name, Type:
    value.Value.Type(), ConstraintType: value.Value.Type(), DeclRange:
    value.SourceRange.ToHCL()}]. *)
Context {ConfigVariable InputValue : Type}.
Variable newVariable : string -> InputValue -> ConfigVariable.

Record Memory := {
  maps : gmap positive (gmap string ConfigVariable);
  Module_Variables : option positive
}.

(** Reading through a reference; a nil map reads as empty. *)
Definition deref (m : Memory) (ref : option positive)
  : gmap string ConfigVariable :=
  match ref with
  | Some l => default ∅ (maps m !! l)
  | None => ∅
  end.

(** [make(map[string]*configs.Variable)]. *)
Definition make_map (m : Memory) : positive * Memory :=
  let l := fresh (dom (maps m)) in
  (l, {| maps := <[l := ∅]> (maps m);
         Module_Variables := Module_Variables m |}).

(** [ref[name] = variable]; assigning into a nil map panics. *)
Definition assign (ref : option positive) (name : string)
    (variable : ConfigVariable) (m : Memory) : option Memory :=
  l ← ref;
  vars ← maps m !! l;
  Some {| maps := <[l := <[name := variable]> vars]> (maps m);
          Module_Variables := Module_Variables m |}.

(** The backup loop: [currentVars[name] = variable] for every entry. *)
Fixpoint backup (currentVars : positive)
    (entries : list (string * ConfigVariable)) (m : Memory)
  : option Memory :=
  match entries with
  | [] => Some m
  | (name, variable) :: rest =>
      m ← assign (Some currentVars) name variable m;
      backup currentVars rest m
  end.

(** The loop over [variables], in the order [range] yields them. *)
Fixpoint extend (variables : list (string * InputValue)) (m : Memory)
  : option Memory :=
  match variables with
  | [] => Some m
  | (name, value) :: rest =>
      match deref m (Module_Variables m) !! name with
      | Some _ => extend rest m
      | None =>
          m ← assign (Module_Variables m) name (newVariable name value) m;
          extend rest m
      end
  end.

(** What the loop over [variables] does to the map it extends. *)
Definition extended (variables : list (string * InputValue))
    (vars : gmap string ConfigVariable) : gmap string ConfigVariable :=
  foldl (fun vars '(name, value) =>
           match vars !! name with
           | Some _ => vars
           | None => <[name := newVariable name value]> vars
           end) vars variables.

(** The closure returned: [config.Module.Variables = currentVars]. *)
Definition reset (currentVars : positive) (m : Memory) : Memory :=
  {| maps := maps m; Module_Variables := Some currentVars |}.

Definition AddVariablesToConfig (variables : list (string * InputValue))
    (m : Memory) : option (Memory * (Memory -> Memory)) :=
  let '(currentVars, m1) := make_map m in
  m2 ← backup currentVars
         (map_to_list (deref m1 (Module_Variables m1))) m1;
  m3 ← extend variables m2;
  Some (m3, reset currentVars).

(** The variable definitions the configuration holds. *)
Definition Variables (m : Memory) : gmap string ConfigVariable :=
  deref m (Module_Variables m).

(** A reference held by the configuration points to an allocated map. *)
Definition well_formed (m : Memory) : Prop :=
  forall l, Module_Variables m = Some l -> is_Some (maps m !! l).

End AddVariables.

Arguments Memory : clear implicits.

(** ** State persistence *)

Module StatePersistence.

(** Modelled from the spec: the state manager and the remote client it
    writes through ([RemoteClient.Put]) are not among the sources, only
    the test [TestPutMaintainsMetaData] that calls them.  A recorded
    attribute is a known value, an explicit null or the unknown marker; an
    instance carries its schema version, its attributes, the sensitive
    marks and the provider's private data. *)
Inductive AttributeValue :=
| Known (encoded : string)
| Null
| UnknownAfterApply.

(** Modelled from the spec: a resource instance as the state records it. *)
Record InstanceState := {
  SchemaVersion : nat;
  Attributes : gmap string AttributeValue;
  SensitivePaths : gset string;
  ProviderMetadata : string
}.

(** Modelled from the spec: the working state maps each address to its
    instance; the persisted snapshot is a format version, the serial and
    that map. *)
Definition StateModel : Type := gmap string InstanceState.

(** Modelled from the spec: the persisted snapshot. *)
Record Snapshot := {
  Version : nat;
  Serial : nat;
  Resources : StateModel
}.

(** Modelled from the spec: the blob of the backend, as the test sees it:
    its content and the metadata headers kept beside it. *)
Record Blob (C : Type) := {
  Content : C;
  MetaData : gmap string string
}.
Arguments Content {C} _.
Arguments MetaData {C} _.

(** Modelled from the spec: the blob calls of the test, which creates the
    blob, reads its metadata and sets it. *)
Definition PutBlockBlob {C} (empty : C) : Blob C :=
  {| Content := empty; MetaData := ∅ |}.

(** Modelled from the spec: see [PutBlockBlob]. *)
Definition GetProperties {C} (blob : Blob C) : gmap string string :=
  MetaData blob.

(** Modelled from the spec: see [PutBlockBlob]. *)
Definition SetMetaData {C} (metadata : gmap string string) (blob : Blob C)
  : Blob C :=
  {| Content := Content blob; MetaData := metadata |}.

(** Modelled from the spec: [RemoteClient.Put] replaces the content of the
    blob and maintains its metadata, which is what the test asserts. *)
Definition Put {C} (data : C) (blob : Blob C) : Blob C :=
  {| Content := data; MetaData := MetaData blob |}.

(** Modelled from the spec: [RemoteClient.Get] returns the content. *)
Definition Get {C} (blob : Blob C) : C := Content blob.

#[global] Instance AttributeValue_eq_dec : EqDecision AttributeValue.
Proof. solve_decision. Defined.

#[global] Instance InstanceState_eq_dec : EqDecision InstanceState.
Proof. solve_decision. Defined.

(** Modelled from the spec: [Read() -> StateModel] returns the recorded
    state. *)
Definition ReadState (backend : Blob Snapshot) : StateModel :=
  Resources (Get backend).

(** Modelled from the spec: [Write(StateModel)] persists a new snapshot whose
    serial is one more than the persisted one, and is a no-op when the state
    handed in is the one persisted (nothing was applied in between). *)
Definition WriteState (new : StateModel) (backend : Blob Snapshot)
  : Blob Snapshot :=
  let persisted := Get backend in
  if decide (new = Resources persisted) then backend
  else Put {| Version := Version persisted;
              Serial := S (Serial persisted);
              Resources := new |} backend.

End StatePersistence.


(** * Worked inputs *)

Module Examples.

(** Attribute paths as [ReplacePaths] holds them. *)
Definition Paths : Type := list (list (string + nat)).

Definition ami (id : string) : value :=
  JMap [("ami", JString id);
        ("count", JNumber (S754_finite false 3 0));
        ("tags", JSlice [JString "a"; JString "b"])]%string.

(** Nothing changes. *)
Definition unchanged : Change Paths :=
  {| BeforeExplicit := false; AfterExplicit := false;
     Before := ami "ami-1"; After := ami "ami-1";
     Unknown := JBool false;
     BeforeSensitive := JBool false; AfterSensitive := JBool false;
     ReplacePaths := [] |}.

(** A new element: nothing before, a value after. *)
Definition created : Change Paths :=
  {| BeforeExplicit := false; AfterExplicit := false;
     Before := JNil; After := JString "x";
     Unknown := JBool false;
     BeforeSensitive := JBool false; AfterSensitive := JBool false;
     ReplacePaths := [] |}.

Definition deleted : Change Paths :=
  {| BeforeExplicit := false; AfterExplicit := false;
     Before := JString "x"; After := JNil;
     Unknown := JBool false;
     BeforeSensitive := JBool false; AfterSensitive := JBool false;
     ReplacePaths := [] |}.

(** The after value is unknown at plan time, the recorded values are equal. *)
Definition unknown_same : Change Paths :=
  {| BeforeExplicit := false; AfterExplicit := false;
     Before := JString "10.0.0.1"; After := JString "10.0.0.1";
     Unknown := JBool true;
     BeforeSensitive := JBool false; AfterSensitive := JBool false;
     ReplacePaths := [] |}.

(** The after value is unknown at plan time and recorded as absent. *)
Definition unknown_absent : Change Paths :=
  {| BeforeExplicit := false; AfterExplicit := true;
     Before := JString "10.0.0.1"; After := JNil;
     Unknown := JBool true;
     BeforeSensitive := JBool false; AfterSensitive := JBool false;
     ReplacePaths := [] |}.

(** A set-typed attribute whose elements come back in another order. *)
Definition reordered : Change Paths :=
  {| BeforeExplicit := false; AfterExplicit := false;
     Before := JSlice [JString "a"; JString "b"];
     After := JSlice [JString "b"; JString "a"];
     Unknown := JBool false;
     BeforeSensitive := JBool false; AfterSensitive := JBool false;
     ReplacePaths := [] |}.

Definition same_order : Change Paths :=
  {| BeforeExplicit := false; AfterExplicit := false;
     Before := JSlice [JString "a"; JString "b"];
     After := JSlice [JString "a"; JString "b"];
     Unknown := JBool false;
     BeforeSensitive := JBool false; AfterSensitive := JBool false;
     ReplacePaths := [] |}.

(** The attribute [ami] forces replacement and changes. *)
Definition forced : Change Paths :=
  {| BeforeExplicit := false; AfterExplicit := false;
     Before := ami "ami-1"; After := ami "ami-2";
     Unknown := JBool false;
     BeforeSensitive := JBool false; AfterSensitive := JBool false;
     ReplacePaths := [[inl "ami"%string]] |}.

(** A file with two run blocks, run against the main configuration. *)
Definition setup : moduletest.Run :=
  {| moduletest.Run_Index := 0; moduletest.Run_Name := "setup";
     moduletest.Run_Status := moduletest.Pending;
     moduletest.Run_ConfigUnderTest := None |}.

Definition verify : moduletest.Run :=
  {| moduletest.Run_Index := 1; moduletest.Run_Name := "verify";
     moduletest.Run_Status := moduletest.Pending;
     moduletest.Run_ConfigUnderTest := None |}.

Definition file : moduletest.File :=
  {| moduletest.File_Name := "main.tftest.hcl";
     moduletest.File_Runs := [setup; verify];
     moduletest.File_Status := moduletest.Pending |}.

(** States are counted by the resources they hold. *)
Definition NewState : nat := 0.
Definition Empty (s : nat) : bool := Nat.eqb s 0.

Definition fresh_runner (suite : TestSuiteRunner) : TestFileRunner :=
  {| Suite := suite;
     RelevantStates :=
       {[ MainStateIdentifier :=
            {| TestFileState_Run := None; TestFileState_State := NewState |} ]};
     Trace := [] |}.

Definition running : TestSuiteRunner :=
  {| Stopped := false; Cancelled := false |}.

Definition no_arrival (r : moduletest.Run) : Interrupts := quiet.

(** The apply of [setup] fails; nobody interrupts. *)
Definition setup_fails (r : moduletest.Run) (st : nat) : Outcome :=
  if String.eqb (moduletest.Run_Name r) "setup"
  then {| status := moduletest.Error; state := st;
          updatedState := false; during := quiet |}
  else {| status := moduletest.Pass; state := S st;
          updatedState := true; during := quiet |}.

(** The user interrupts twice while [setup] applies: the operation is
    cancelled and comes back with the "Test interrupted" error. *)
Definition setup_interrupted (r : moduletest.Run) (st : nat) : Outcome :=
  if String.eqb (moduletest.Run_Name r) "setup"
  then {| status := moduletest.Error; state := S st;
          updatedState := true;
          during := {| stop := true; cancel := true |} |}
  else {| status := moduletest.Pass; state := S st;
          updatedState := true; during := quiet |}.

Definition teardown (r : moduletest.Run) (st : nat) : Destroyed :=
  {| remaining := 0; meanwhile := quiet |}.

Definition transform_fails (r : moduletest.Run) : bool := false.

(** A configuration that declares [region], and values for [region] and
    [zone]. *)
Definition newVariable (name : string) (value : nat) : string :=
  ("generated " ++ name)%string.

Definition config : Memory string :=
  {| maps := {[ 1%positive := {[ "region"%string := "declared"%string ]} ]};
     Module_Variables := Some 1%positive |}.

Definition values : list (string * nat) :=
  [("region", 1); ("zone", 2)]%string.

End Examples.


(** * The rest of the cited code

    What the file [change.go] holds beside the functions above: the decoding
    of a change ([ValueFromJsonChange], [unmarshalGeneric]), and in package
    [local] the variables of a run block ([FilterVariablesToConfig],
    [initVariables]), the provider cache ([gatherProviders]), the files of
    the suite ([collectTests]) and the steps inside [run] and [destroy]
    ([validate], [plan], [apply]).  [GetVariables] is left out: it reads a
    variable [file] that the function does not declare. *)

(** ** Package [differ]: decoding a change of the JSON plan *)

Section DifferDecoding.

(** [json.Unmarshal] into an [interface{}] (no result: an error) and
    [replace.Parse] are library and package code that is not among the
    sources; a [json.RawMessage] is a byte string or nil. *)
Context {ForcesReplacementT : Type}.
Variable Unmarshal : string -> option value.
Variable Parse : option string -> ForcesReplacementT.

(** The fields of [jsonplan.Change] that [ValueFromJsonChange] reads. *)
Record jsonplan_Change := {
  jsonplan_Before : option string;
  jsonplan_After : option string;
  jsonplan_AfterUnknown : option string;
  jsonplan_BeforeSensitive : option string;
  jsonplan_AfterSensitive : option string;
  jsonplan_ReplacePaths : option string
}.

(** [unmarshalGeneric]; no result stands for the panic. *)
Definition unmarshalGeneric (raw : option string) : option value :=
  match raw with
  | None => Some JNil
  | Some bytes => Unmarshal bytes
  end.

(** [ValueFromJsonChange]: the two explicit flags are left at their zero
    value. *)
Definition ValueFromJsonChange (change : jsonplan_Change)
  : option (Change ForcesReplacementT) :=
  before ← unmarshalGeneric (jsonplan_Before change);
  after ← unmarshalGeneric (jsonplan_After change);
  unknown ← unmarshalGeneric (jsonplan_AfterUnknown change);
  beforeSensitive ← unmarshalGeneric (jsonplan_BeforeSensitive change);
  afterSensitive ← unmarshalGeneric (jsonplan_AfterSensitive change);
  Some {| BeforeExplicit := false;
          AfterExplicit := false;
          Before := before;
          After := after;
          Unknown := unknown;
          BeforeSensitive := beforeSensitive;
          AfterSensitive := afterSensitive;
          ReplacePaths := Parse (jsonplan_ReplacePaths change) |}.

End DifferDecoding.

(** A change read backwards: what was before is after. *)
Definition swap_sides {R} (c : Change R) : Change R :=
  {| BeforeExplicit := AfterExplicit c;
     AfterExplicit := BeforeExplicit c;
     Before := After c;
     After := Before c;
     Unknown := Unknown c;
     BeforeSensitive := AfterSensitive c;
     AfterSensitive := BeforeSensitive c;
     ReplacePaths := ReplacePaths c |}.

Definition mirror (a : plans.Action) : plans.Action :=
  match a with
  | plans.Create => plans.Delete
  | plans.Delete => plans.Create
  | a => a
  end.

(** The action of a collection or block: the default of the value, refined
    by the actions of its children in turn, as the comments of
    [getDefaultActionForIteration] and [compareActions] prescribe. *)
Definition refine (current : plans.Action) (children : list plans.Action)
  : plans.Action :=
  foldl compareActions current children.


(** ** What the loops of the runner leave alone *)

(** A run block after the loop is the run block before it, up to its
    status. *)
Definition same_block (r r' : moduletest.Run) : Prop :=
  r' = with_Status (moduletest.Run_Status r') r.

Section Frames.

Context {State : Type}.

(** What one iteration may change. *)
Record step_frame (runner runner' : TestFileRunner (State := State))
    (r r' : moduletest.Run) (evs : list Event) : Prop := {
  frame_block : same_block r r';
  frame_trace : Trace runner' = Trace runner ++ evs;
  frame_operations :
    List.filter is_Operation evs = []
    \/ List.filter is_Operation evs = [Operation (moduletest.Run_Name r)];
  frame_keys :
    forall key, is_Some (RelevantStates runner !! key) ->
                is_Some (RelevantStates runner' !! key);
  frame_Stopped :
    Stopped (Suite runner) = true -> Stopped (Suite runner') = true;
  frame_Cancelled :
    Cancelled (Suite runner) = true -> Cancelled (Suite runner') = true
}.

End Frames.


(** The operations of a list of run blocks, in order, as they show in the
    trace. *)
Definition operations_of (runs : list moduletest.Run) : list Event :=
  (fun r => Operation (moduletest.Run_Name r)) <$> runs.

(** The summary [cleanup] prints for the state of an alternate module (the
    main state's summary may carry no run). *)
Definition is_module_summary (e : Event) : bool :=
  match e with ViewDestroySummary (Some _) => true | _ => false end.

(** The order of the [sort.Slice] call in [cleanup]: later run blocks
    first. *)
Definition later_first {State : Type} (a b : moduletest.Run * State) : Prop :=
  moduletest.Run_Index b.1 <= moduletest.Run_Index a.1.

(** ** The selects of [wait] without the first interrupt *)

(** The cases taken by the selects when the suite's stopped context never
    fires. *)
Definition without_stop (choices : list Select) : list Select :=
  List.filter
    (fun c => match c with StoppedCtxDone => false | _ => true end) choices.


(** ** Diagnostics *)

(** [tfdiags.Diagnostics] as far as the runner looks into it: the severity,
    and the texts the runner itself writes; source ranges are left out. *)
Module tfdiags.

Inductive Severity := Error | Warning.

Record Diagnostic := {
  Diagnostic_Severity : Severity;
  Diagnostic_Summary : string;
  Diagnostic_Detail : string
}.

Definition is_Error (d : Diagnostic) : bool :=
  match Diagnostic_Severity d with Error => true | Warning => false end.

Definition HasErrors (diags : list Diagnostic) : bool := existsb is_Error diags.

End tfdiags.

(** ** [TestFileRunner.FilterVariablesToConfig] *)

Section FilterVariables.

(** [has_Sensitive value] is [marks.Has(value.Value, marks.Sensitive)], and
    [unmarked value] the input value built around [value.Value.Unmark()] with
    the source type and range of [value]; [Sensitive] and [Name] are the
    fields of [configs.Variable]. *)
Context {ConfigVariable InputValue : Type}.
Variable has_Sensitive : InputValue -> bool.
Variable unmarked : InputValue -> InputValue.
Variable Sensitive : ConfigVariable -> bool.
Variable Name : ConfigVariable -> string.

Definition metadata_lost (variableConfig : ConfigVariable)
  : tfdiags.Diagnostic :=
  {| tfdiags.Diagnostic_Severity := tfdiags.Warning;
     tfdiags.Diagnostic_Summary := "Sensitive metadata on variable lost";
     tfdiags.Diagnostic_Detail :=
       String.append
         "The input variable is marked as sensitive, while the receiving configuration is not. The underlying sensitive information may be exposed when var."
         (String.append (Name variableConfig)
            " is referenced. Mark the variable block in the configuration as sensitive to resolve this warning.") |}.

(** The body of the loop over [values]; [config] is
    [config.Module.Variables], where a nil map reads as empty. *)
Definition FilterVariablesToConfig_body (config : gmap string ConfigVariable)
    (acc : gmap string InputValue * list tfdiags.Diagnostic)
    (entry : string * InputValue)
  : gmap string InputValue * list tfdiags.Diagnostic :=
  let '(filtered, diags) := acc in
  let '(name, value) := entry in
  match config !! name with
  | None => (filtered, diags)
  | Some variableConfig =>
      if has_Sensitive value then
        let diags :=
          if negb (Sensitive variableConfig)
          then diags ++ [metadata_lost variableConfig]
          else diags in
        (<[name := unmarked value]> filtered, diags)
      else (<[name := value]> filtered, diags)
  end.

(** [values] in the order [range] yields them. *)
Definition FilterVariablesToConfig (config : gmap string ConfigVariable)
    (values : list (string * InputValue))
  : gmap string InputValue * list tfdiags.Diagnostic :=
  foldl (FilterVariablesToConfig_body config) (∅, []) values.

(** What the function does to one value that it keeps. *)
Definition passed_on (value : InputValue) : InputValue :=
  if has_Sensitive value then unmarked value else value.

End FilterVariables.

(** ** [TestFileRunner.initVariables] *)

Section InitVariables.

(** [backend.UnparsedVariableValue] and the expressions of the test file;
    [unparsedTestVariableValue] is the wrapper type of the package. *)
Context {UnparsedVariableValue Expression : Type}.
Variable unparsedTestVariableValue : Expression -> UnparsedVariableValue.

(** The two maps in the order [range] yields their entries; the result is
    the new [runner.globalVariables]. *)
Definition initVariables
    (GlobalVariables : list (string * UnparsedVariableValue))
    (Variables : list (string * Expression))
  : gmap string UnparsedVariableValue :=
  let globalVariables :=
    foldl (fun g '(name, value) => <[name := value]> g) ∅ GlobalVariables in
  foldl (fun g '(name, expr) => <[name := unparsedTestVariableValue expr]> g)
    globalVariables Variables.

End InitVariables.

(** ** [TestFileRunner.gatherProviders] *)

(** The parts of [configs.Module] the function reads, with the strings its
    calls to [StringCompact] and [String] give. *)
Record RequiredProvider := {
  RequiredProvider_Name : string;
  RequiredProvider_Aliases : list string
}.

Record Resource := {
  ProviderConfigRef : option string;
  Provider_Type : string
}.

Record Module_ := {
  RequiredProviders : list RequiredProvider;
  ProviderConfigs : list string;
  ManagedResources : list Resource;
  DataResources : list Resource;
  ModuleCalls : list (list string)
}.

(** [providers[...] = true] for a resource or a data source. *)
Definition resource_provider (resource : Resource) : string :=
  match ProviderConfigRef resource with
  | Some ref => ref
  | None => Provider_Type resource
  end.

(** The five loops that fill [providers]; every value stored is [true], so
    the map is the set of its keys. *)
Definition providers_of (config : Module_) : gset string :=
  let providers : gset string := ∅ in
  let providers :=
    foldl (fun providers provider =>
             foldl (fun providers alias => {[alias]} ∪ providers)
               ({[RequiredProvider_Name provider]} ∪ providers)
               (RequiredProvider_Aliases provider))
      providers (RequiredProviders config) in
  let providers :=
    foldl (fun providers provider => {[provider]} ∪ providers)
      providers (ProviderConfigs config) in
  let providers :=
    foldl (fun providers resource => {[resource_provider resource]} ∪ providers)
      providers (ManagedResources config) in
  let providers :=
    foldl (fun providers datasource =>
             {[resource_provider datasource]} ∪ providers)
      providers (DataResources config) in
  foldl (fun providers module =>
           foldl (fun providers provider => {[provider]} ∪ providers)
             providers module)
    providers (ModuleCalls config).

(** [configProviders] is [runner.Suite.configProviders], which
    [TestSuiteRunner.Test] allocates before anything else. *)
Definition gatherProviders (key : string) (config : Module_)
    (configProviders : gmap string (gset string))
  : gmap string (gset string) :=
  match configProviders !! key with
  | Some _ => configProviders
  | None => <[key := providers_of config]> configProviders
  end.

(** The key [run] passes to [gatherProviders]. *)
Definition providers_key (r : moduletest.Run) : string :=
  match moduletest.Run_ConfigUnderTest r with
  | Some source => source
  | None => MainStateIdentifier
  end.


(** ** What [RelevantStates] records *)

Section Recorded.

Context {State : Type}.
Variable NewState : State.
Variable execute : moduletest.Run -> State -> Outcome (State := State).

(** The entry a run block leaves in [RelevantStates] when its execution,
    started from [st], updated the state. *)
Definition applied (r : moduletest.Run) (st : State) : TestFileState :=
  {| TestFileState_Run := Some (with_Status (status (execute r st)) r);
     TestFileState_State := state (execute r st) |}.

(** An entry found after the run blocks [runs], where [before] was the entry
    under the same key: the entry as it was, a fresh entry for an alternate
    module, or the entry of a run block whose execution updated the
    state. *)
Definition recorded (runs : list moduletest.Run)
    (before : option TestFileState) (s : TestFileState) : Prop :=
  before = Some s
  \/ (before = None
      /\ s = {| TestFileState_Run := None; TestFileState_State := NewState |})
  \/ exists r st,
       r ∈ runs /\ updatedState (execute r st) = true /\ s = applied r st.

End Recorded.

(** No destroy operation among the calls. *)
Definition no_Destroy (es : list Event) : Prop :=
  Forall (fun e => is_DestroyOperation e = false) es.


(** ** [TestSuiteRunner.collectTests] *)

(** [configs.TestRun] and [configs.TestFile], as far as the runner reads
    them. *)
Record TestRun := {
  TestRun_Name : string;
  TestRun_ConfigUnderTest : option string
}.

Record TestFile := { TestFile_Runs : list TestRun }.

Section CollectTests.

(** The zero value of [moduletest.Status], which the composite literals
    leave in [Status]; the type is declared outside the sources. *)
Variable zero : moduletest.Status.

(** The loop over [file.Runs]. *)
Definition collect_runs (runs : list TestRun) : list moduletest.Run :=
  imap (fun ix run =>
          {| moduletest.Run_Index := ix;
             moduletest.Run_Name := TestRun_Name run;
             moduletest.Run_Status := zero;
             moduletest.Run_ConfigUnderTest := TestRun_ConfigUnderTest run |})
    runs.

Definition collect_file (name : string) (file : TestFile) : moduletest.File :=
  {| moduletest.File_Name := name;
     moduletest.File_Runs := collect_runs (TestFile_Runs file);
     moduletest.File_Status := zero |}.

(** The files of the suite: those named by [runner.Filter] when there is a
    filter, all of [runner.Config.Module.Tests] otherwise. *)
Definition collectTests (Filter : list string) (Tests : gmap string TestFile)
  : gmap string moduletest.File :=
  if 0 <? length Filter then
    foldl (fun files name =>
             match Tests !! name with
             | None => files
             | Some file => <[name := collect_file name file]> files
             end) ∅ Filter
  else
    foldl (fun files '(name, file) =>
             <[name := collect_file name file]> files)
      ∅ (map_to_list Tests).

End CollectTests.


(** ** The steps of a run block: [run], [validate], [plan], [apply] *)

(** A function of the runner returns, or panics on a nil pointer, or stays in
    [wait] for good. *)
Inductive Finished (A : Type) :=
| Done (a : A)
| Panics
| Hangs.

Arguments Done {A} a.
Arguments Panics {A}.
Arguments Hangs {A}.

#[global] Instance Finished_bind : MBind Finished :=
  fun A B (f : A -> Finished B) (m : Finished A) =>
    match m with
    | Done a => f a
    | Panics => Panics
    | Hangs => Hangs
    end.

(** The calls made while a run block executes: those on the view and on
    [ctx.Stop], the three operations (each started in a goroutine of its
    own), and the calls that render and evaluate the result. *)
Inductive Call :=
| Call_Event (e : Event)
| TfValidate
| TfPlan
| TfApply
| Schemas
| Evaluate.

Inductive TestCommand := ApplyTestCommand | PlanTestCommand.

(** The diagnostic that [validate], [plan], [apply] and [destroy] add when
    [wait] reports a cancellation. *)
Definition interrupted : tfdiags.Diagnostic :=
  {| tfdiags.Diagnostic_Severity := tfdiags.Error;
     tfdiags.Diagnostic_Summary := "Test interrupted";
     tfdiags.Diagnostic_Detail :=
       "The test operation could not be completed due to an interrupt signal. Please read the remaining diagnostics carefully for any sign of failed state cleanup or dangling resources." |}.

Section Steps.

Context {State Plan : Type}.

(** What the callees outside the sources answer while one run block
    executes: the diagnostics of [run.Config.Validate],
    [TransformConfigForTest], [terraform.NewContext] (at each of its three
    call sites), [tfCtx.Validate], [run.GetReferences], [GetVariables],
    [FilterVariablesToConfig], [run.GetTargets] and [run.GetReplaces]; the
    results of [tfCtx.Plan] and [tfCtx.Apply]; the two functions on expected
    failures; the test on diagnostics of check blocks; the diagnostics of
    [planCtx.Schemas]; what [ctx.Evaluate] makes of the status and the
    diagnostics of the run block; and the cases the selects of the three
    calls of [wait] take. *)
Record Engine := {
  Command : TestCommand;
  Verbose : bool;
  Config_Validate : list tfdiags.Diagnostic;
  TransformConfigForTest : list tfdiags.Diagnostic;
  NewContext_validate : list tfdiags.Diagnostic;
  NewContext_plan : list tfdiags.Diagnostic;
  NewContext_apply : list tfdiags.Diagnostic;
  Context_Validate : list tfdiags.Diagnostic;
  GetReferences : list tfdiags.Diagnostic;
  GetVariables : list tfdiags.Diagnostic;
  setVariableDiags : list tfdiags.Diagnostic;
  GetTargets : list tfdiags.Diagnostic;
  GetReplaces : list tfdiags.Diagnostic;
  Context_Plan : State -> option Plan * list tfdiags.Diagnostic;
  Context_Apply : Plan -> State * list tfdiags.Diagnostic;
  ValidateExpectedFailures : list tfdiags.Diagnostic -> list tfdiags.Diagnostic;
  ExplainExpectedFailures : list tfdiags.Diagnostic -> list tfdiags.Diagnostic;
  OriginatesFromCheck : tfdiags.Diagnostic -> bool;
  Context_Schemas : list tfdiags.Diagnostic;
  TestContext_Evaluate :
    moduletest.Status * list tfdiags.Diagnostic ->
    moduletest.Status * list tfdiags.Diagnostic;
  validate_selects : list Select;
  plan_selects : list Select;
  apply_selects : list Select
}.

Variable e : Engine.
Variable r : moduletest.Run.

(** A call of [wait]: its [cancelled] result and the calls it made; it does
    not return when the selects leave it blocked (or are not cases it
    offers).  The diagnostics [wait] returns are never assigned and are
    always nil. *)
Definition awaited (progress : moduletest.Progress) (selects : list Select)
  : Finished (bool * list Call) :=
  match wait (moduletest.Run_Name r) progress selects with
  | Returned cancelled calls => Done (cancelled, Call_Event <$> calls)
  | Blocked _ _ => Hangs
  | NotOffered => Hangs
  end.

(** [TestFileRunner.validate]. *)
Definition validate : Finished (list tfdiags.Diagnostic * list Call) :=
  let diags := NewContext_validate e in
  if tfdiags.HasErrors (NewContext_validate e) then Done (diags, [])
  else
    '(cancelled, calls) ← awaited moduletest.Running (validate_selects e);
    let diags := if (cancelled : bool) then diags ++ [interrupted] else diags in
    Done (diags ++ Context_Validate e, TfValidate :: calls).

(** [TestFileRunner.plan]; the context it returns is nil exactly when the
    plan is. *)
Definition plan (st : State)
  : Finished (option Plan * list tfdiags.Diagnostic * list Call) :=
  let diags := GetTargets e ++ GetReplaces e in
  if tfdiags.HasErrors diags then Done (None, diags, [])
  else
    let diags := diags ++ NewContext_plan e in
    if tfdiags.HasErrors (NewContext_plan e) then Done (None, diags, [])
    else
      '(cancelled, calls) ← awaited moduletest.Running (plan_selects e);
      let diags :=
        if (cancelled : bool) then diags ++ [interrupted] else diags in
      let '(plan, planDiags) := Context_Plan e st in
      Done (plan, diags ++ planDiags, TfPlan :: calls).

(** [TestFileRunner.apply]; reading [plan.Changes] of a nil plan panics. *)
Definition apply (plan : option Plan) (st : State)
    (progress : moduletest.Progress)
  : Finished (State * list tfdiags.Diagnostic * list Call) :=
  match plan with
  | None => Panics
  | Some plan =>
      let diags := NewContext_apply e in
      if tfdiags.HasErrors (NewContext_apply e) then Done (st, diags, [])
      else
        '(cancelled, calls) ← awaited progress (apply_selects e);
        let diags :=
          if (cancelled : bool) then diags ++ [interrupted] else diags in
        let '(updated, applyDiags) := Context_Apply e plan in
        Done (updated, diags ++ applyDiags, TfApply :: calls)
  end.

(** What a run block comes to: its status and diagnostics, the state
    returned with the [updated] flag, and the calls made. *)
Record Ran := {
  Ran_Status : moduletest.Status;
  Ran_Diagnostics : list tfdiags.Diagnostic;
  Ran_State : State;
  Ran_updated : bool;
  Ran_calls : list Call
}.

(** [run.Status = moduletest.Error] followed by [return]. *)
Definition errored (diags : list tfdiags.Diagnostic) (st : State)
    (updated : bool) (calls : list Call) : Finished Ran :=
  Done {| Ran_Status := moduletest.Error;
          Ran_Diagnostics := diags;
          Ran_State := st;
          Ran_updated := updated;
          Ran_calls := calls |}.

(** The warning added when the schemas cannot be loaded;
    [name] is [path.Join(file.Name, run.Name)]. *)
Definition verbose_failed (name : string) : tfdiags.Diagnostic :=
  {| tfdiags.Diagnostic_Severity := tfdiags.Warning;
     tfdiags.Diagnostic_Summary := "Failed to print verbose output";
     tfdiags.Diagnostic_Detail :=
       String.append "Terraform failed to print the verbose output for "
         (String.append name
            ", other diagnostics will contain more details as to why.") |}.

(** The block under [if runner.Suite.Verbose]. *)
Definition verbose (name : string) (diags : list tfdiags.Diagnostic)
  : list tfdiags.Diagnostic * list Call :=
  if Verbose e then
    let schemaDiags := Context_Schemas e in
    let schemaDiags :=
      if tfdiags.HasErrors schemaDiags
      then schemaDiags ++ [verbose_failed name]
      else schemaDiags in
    (diags ++ schemaDiags, [Schemas])
  else (diags, []).

(** The end of both branches of [run]: the verbose output, then the test
    context is built and evaluated. *)
Definition evaluated (name : string) (status : moduletest.Status)
    (diags : list tfdiags.Diagnostic) (st : State) (updated : bool)
    (calls : list Call) : Finished Ran :=
  let '(diags, rendered) := verbose name diags in
  let '(status, diags) := TestContext_Evaluate e (status, diags) in
  Done {| Ran_Status := status;
          Ran_Diagnostics := diags;
          Ran_State := st;
          Ran_updated := updated;
          Ran_calls := calls ++ rendered ++ [Evaluate] |}.

(** [TestFileRunner.run] from the point where neither interrupt has been
    seen (lines 534-721), for a run block with the diagnostics [diags] so
    far; [name] is [path.Join(file.Name, run.Name)].  The provider cache,
    the prior states and what is done to the configuration (by
    [TransformConfigForTest] and [AddVariablesToConfig], with their deferred
    resets) are left out. *)
Definition run_steps (name : string) (diags : list tfdiags.Diagnostic)
    (st : State) : Finished Ran :=
  let calls :=
    [Call_Event (ViewRun (moduletest.Run_Name r) moduletest.Starting)] in
  let diags := diags ++ Config_Validate e in
  if tfdiags.HasErrors diags then errored diags st false calls
  else
    let diags := diags ++ TransformConfigForTest e in
    if tfdiags.HasErrors (TransformConfigForTest e)
    then errored diags st false calls
    else
      '(validateDiags, validated) ← validate;
      let calls := calls ++ validated in
      let diags := diags ++ validateDiags in
      if tfdiags.HasErrors validateDiags then errored diags st false calls
      else
        let diags := diags ++ GetReferences e in
        if tfdiags.HasErrors (GetReferences e)
        then errored diags st false calls
        else
          let diags := diags ++ GetVariables e in
          if tfdiags.HasErrors (GetVariables e)
          then errored diags st false calls
          else
            let diags := diags ++ setVariableDiags e in
            '(plan, planDiags, planned) ← plan st;
            let calls := calls ++ planned in
            match Command e with
            | PlanTestCommand =>
                let planDiags := ValidateExpectedFailures e planDiags in
                let diags := diags ++ planDiags in
                if tfdiags.HasErrors planDiags
                then errored diags st false calls
                else
                  match plan with
                  | None => Panics
                  | Some _ =>
                      evaluated name (moduletest.Run_Status r) diags st false
                        calls
                  end
            | ApplyTestCommand =>
                let planDiags := ExplainExpectedFailures e planDiags in
                let diags := diags ++ planDiags in
                if tfdiags.HasErrors planDiags
                then errored diags st false calls
                else
                  let diags :=
                    List.filter (fun d => negb (OriginatesFromCheck e d))
                      diags in
                  '(updated, applyDiags, applied) ←
                    apply plan st moduletest.Running;
                  let calls := calls ++ applied in
                  let applyDiags := ValidateExpectedFailures e applyDiags in
                  let diags := diags ++ applyDiags in
                  if tfdiags.HasErrors applyDiags
                  then errored diags updated true calls
                  else
                    let diags := diags ++ GetVariables e in
                    if tfdiags.HasErrors (GetVariables e)
                    then errored diags updated true calls
                    else
                      evaluated name (moduletest.Run_Status r) diags updated
                        true calls
            end.

(** [TestFileRunner.destroy] from the point where the state is known not to
    be empty (lines 766-823): the variables, the context, the destroy plan
    and its apply. *)
Definition destroy_steps (st : State)
  : Finished (State * list tfdiags.Diagnostic * list Call) :=
  let diags := GetVariables e in
  if tfdiags.HasErrors diags then Done (st, diags, [])
  else
    let diags := diags ++ NewContext_plan e in
    if tfdiags.HasErrors (NewContext_plan e) then Done (st, diags, [])
    else
      let calls :=
        [Call_Event (ViewRun (moduletest.Run_Name r) moduletest.TearDown)] in
      '(cancelled, waited) ← awaited moduletest.TearDown (plan_selects e);
      let calls := calls ++ TfPlan :: waited in
      let diags :=
        if (cancelled : bool) then diags ++ [interrupted] else diags in
      let '(plan, planDiags) := Context_Plan e st in
      let diags := diags ++ planDiags in
      if tfdiags.HasErrors diags then Done (st, diags, calls)
      else
        '(updated, applyDiags, applied) ← apply plan st moduletest.TearDown;
        Done (updated, diags ++ applyDiags, calls ++ applied).

End Steps.

Arguments Engine : clear implicits.


(** The operations among the calls of a run block, in order. *)
Definition operations (calls : list Call) : list Call :=
  List.filter
    (fun c => match c with Call_Event _ => false | _ => true end) calls.


(** * Further worked inputs *)

Module Inputs.

(** A decoder for the three JSON literals. *)
Definition Unmarshal (bytes : string) : option value :=
  if String.eqb bytes "null" then Some JNil
  else if String.eqb bytes "true" then Some (JBool true)
  else if String.eqb bytes "false" then Some (JBool false)
  else None.

Definition Parse (raw : option string) : Examples.Paths := [].

(** A resource that is being deleted, as the JSON plan has it. *)
Definition removed : jsonplan_Change :=
  {| jsonplan_Before := Some "true"%string;
     jsonplan_After := None;
     jsonplan_AfterUnknown := Some "false"%string;
     jsonplan_BeforeSensitive := Some "false"%string;
     jsonplan_AfterSensitive := Some "false"%string;
     jsonplan_ReplacePaths := None |}.

(** Every run block applies and adds a resource. *)
Definition all_apply (r : moduletest.Run) (st : nat) : Outcome :=
  {| status := moduletest.Pass; state := S st;
     updatedState := true; during := quiet |}.

(** Every run block plans and leaves the state alone. *)
Definition all_plan (r : moduletest.Run) (st : nat) : Outcome :=
  {| status := moduletest.Pass; state := st;
     updatedState := false; during := quiet |}.

(** A runner whose main state holds the two resources [verify] left. *)
Definition applied_runner : TestFileRunner :=
  {| Suite := Examples.running;
     RelevantStates :=
       {[ MainStateIdentifier :=
            {| TestFileState_Run := Some Examples.verify;
               TestFileState_State := 2 |} ]};
     Trace := [] |}.

(** The states of two alternate modules. *)
Definition module_states : list (moduletest.Run * nat) :=
  [(Examples.setup, 1); (Examples.verify, 2)].

(** Input values with their sensitive mark, and variable blocks with their
    [sensitive] attribute. *)
Definition has_Sensitive (value : string * bool) : bool := value.2.
Definition unmarked (value : string * bool) : string * bool :=
  (value.1, false).
Definition Sensitive (variable : string * bool) : bool := variable.2.
Definition Name (variable : string * bool) : string := variable.1.
Definition newVariable (name : string) (value : string * bool)
  : string * bool := (name, false).

Definition declared : gmap string (string * bool) :=
  {[ "region"%string := ("region"%string, false) ]}.

Definition config : Memory (string * bool) :=
  {| maps := {[ 1%positive := declared ]};
     Module_Variables := Some 1%positive |}.

Definition values : list (string * (string * bool)) :=
  [("region", ("eu-west-1", true)); ("zone", ("a", false))]%string.

(** Global variables of the suite and variables of a test file. *)
Definition GlobalVariables : list (string * string) :=
  [("region", "global eu-west-1"); ("zone", "global a")]%string.

Definition FileVariables : list (string * nat) := [("region"%string, 7)].

Definition unparsedTestVariableValue (expr : nat) : string :=
  if Nat.eqb expr 7 then "file seven"%string else "file"%string.

(** Two configurations and their providers. *)
Definition root_module : Module_ :=
  {| RequiredProviders :=
       [{| RequiredProvider_Name := "aws";
           RequiredProvider_Aliases := ["aws.east"] |}]%string;
     ProviderConfigs := ["aws.east"]%string;
     ManagedResources :=
       [{| ProviderConfigRef := None; Provider_Type := "aws" |};
        {| ProviderConfigRef := Some "aws.east";
           Provider_Type := "aws" |}]%string;
     DataResources := [];
     ModuleCalls := [["random"]]%string |}.

Definition other_module : Module_ :=
  {| RequiredProviders := [];
     ProviderConfigs := ["null"]%string;
     ManagedResources := [];
     DataResources := [];
     ModuleCalls := [] |}.

(** The test files of a configuration. *)
Definition Tests : gmap string TestFile :=
  {[ "main.tftest.hcl"%string :=
       {| TestFile_Runs :=
            [{| TestRun_Name := "setup"; TestRun_ConfigUnderTest := None |};
             {| TestRun_Name := "verify";
                TestRun_ConfigUnderTest := None |}]%string |} ]}.

(** An engine in which nothing goes wrong: the plan holds one resource more
    than the state, and the apply makes it. *)
Definition quiet_engine (command : TestCommand) (selects : list Select)
  : Engine nat nat :=
  {| Command := command;
     Verbose := true;
     Config_Validate := [];
     TransformConfigForTest := [];
     NewContext_validate := [];
     NewContext_plan := [];
     NewContext_apply := [];
     Context_Validate := [];
     GetReferences := [];
     GetVariables := [];
     setVariableDiags := [];
     GetTargets := [];
     GetReplaces := [];
     Context_Plan := fun st => (Some (S st), []);
     Context_Apply := fun plan => (plan, []);
     ValidateExpectedFailures := fun diags => diags;
     ExplainExpectedFailures := fun diags => diags;
     OriginatesFromCheck := fun _ => false;
     Context_Schemas := [];
     TestContext_Evaluate := fun '(_, diags) => (moduletest.Pass, diags);
     validate_selects := [RunningCtxDone];
     plan_selects := [RunningCtxDone];
     apply_selects := selects |}.

(** The apply goes through, or the user interrupts twice while it runs. *)
Definition applying : Engine nat nat :=
  quiet_engine ApplyTestCommand [After2s; RunningCtxDone].

Definition interrupted_apply : Engine nat nat :=
  quiet_engine ApplyTestCommand
    [StoppedCtxDone; CancelledCtxDone; RunningCtxDone].

Definition planning (r : moduletest.Run) : Engine nat nat :=
  quiet_engine PlanTestCommand [].

End Inputs.


(** * Properties *)

(** ** Actions and statuses *)

Lemma plans_eqb_eq a b : plans.eqb a b = true <-> a = b.
Proof. destruct a, b; simpl; split; congruence. Qed.

Lemma plans_eqb_neq a b : plans.eqb a b = false <-> a <> b.
Proof. destruct a, b; simpl; split; congruence. Qed.

Lemma moduletest_eqb_eq a b : moduletest.eqb a b = true <-> a = b.
Proof. destruct a, b; simpl; split; congruence. Qed.

Lemma Merge_Error_r s : moduletest.Merge s moduletest.Error = moduletest.Error.
Proof. by destruct s. Qed.

(** ** Deep equality of decoded values *)


Lemma DeepEqual_JSlice l1 l2 :
  DeepEqual (JSlice l1) (JSlice l2) = DeepEqual_elems l1 l2.
Proof.
  simpl. revert l2.
  induction l1 as [|a l1 IH]; intros [|b l2]; simpl; reflexivity.
Qed.

Lemma DeepEqual_JMap m1 m2 :
  DeepEqual (JMap m1) (JMap m2)
  = Nat.eqb (length m1) (length m2) && DeepEqual_keys m2 m1.
Proof.
  simpl. f_equal.
  induction m1 as [|[k v] m1 IH]; simpl; [reflexivity | by rewrite IH].
Qed.

Lemma DeepEqual_nil_l v : DeepEqual JNil v = is_nil v.
Proof. by destruct v. Qed.

Lemma DeepEqual_nil_r v : DeepEqual v JNil = is_nil v.
Proof. by destruct v. Qed.

Lemma is_nil_true v : is_nil v = true <-> v = JNil.
Proof. destruct v; simpl; split; congruence. Qed.

Lemma DeepEqual_elems_Forall2 l1 l2 :
  DeepEqual_elems l1 l2 = true
  <-> Forall2 (fun a b => DeepEqual a b = true) l1 l2.
Proof.
  revert l2. induction l1 as [|a l1 IH]; intros [|b l2]; simpl.
  - split; [constructor | done].
  - split; [done | inversion 1].
  - split; [done | inversion 1].
  - rewrite andb_true_iff, IH. split.
    + intros [??]. by constructor.
    + inversion 1; subst. done.
Qed.

Lemma SFeqb_refl f : SFis_nan f = false -> SFeqb f f = true.
Proof.
  unfold SFeqb, SFcompare.
  destruct f as [s|s| |s m e]; simpl; try done.
  - by destruct s.
  - intros _. rewrite Z.compare_refl, Pos.compare_cont_refl. by destruct s.
Qed.

Lemma MapIndex_uniq (m : list (string * value)) k v :
  uniq (map fst m) = true -> (k, v) ∈ m -> MapIndex m k = Some v.
Proof.
  induction m as [|[k' v'] m IH]; simpl; [by inversion 2|].
  rewrite andb_true_iff, negb_true_iff. intros [Hk Hu] Hin.
  apply elem_of_cons in Hin as [Heq|Hin].
  - inversion Heq; subst. by rewrite String.eqb_refl.
  - destruct (String.eqb k' k) eqn:E; [|by apply IH].
    apply String.eqb_eq in E; subst k'.
    exfalso. apply not_true_iff_false in Hk. apply Hk.
    apply existsb_exists. exists k. split; [|apply String.eqb_refl].
    apply list_elem_of_In. apply (list_elem_of_fmap_2 fst _ (k, v)). done.
Qed.

Lemma DeepEqual_keys_refl (m m' : list (string * value)) :
  uniq (map fst m) = true ->
  (forall kv, kv ∈ m' -> kv ∈ m) ->
  Forall (fun kv => DeepEqual kv.2 kv.2 = true) m' ->
  DeepEqual_keys m m' = true.
Proof.
  intros Hu. induction m' as [|[k x] m' IH]; intros Hsub Hall; [done|].
  apply Forall_cons in Hall as [Hx Hall]. simpl in *.
  rewrite (MapIndex_uniq m k x Hu) by (apply Hsub; left).
  rewrite Hx. simpl. apply IH; [|done].
  intros kv ?. apply Hsub. by right.
Qed.

(** [reflect.DeepEqual] is reflexive on what [json.Unmarshal] produces. *)
Lemma DeepEqual_refl v : decoded v = true -> DeepEqual v v = true.
Proof.
  induction v as [| b | f | s | l IH | m IH] using value_ind; intros Hd.
  - done.
  - simpl. by destruct b.
  - simpl in *. apply SFeqb_refl. by apply negb_true_iff.
  - simpl. apply String.eqb_refl.
  - rewrite DeepEqual_JSlice. simpl in Hd.
    induction IH as [|x l Hx _ IHl]; simpl in *; [done|].
    apply andb_true_iff in Hd as [??].
    rewrite Hx by done. by apply IHl.
  - rewrite DeepEqual_JMap, Nat.eqb_refl. simpl.
    simpl in Hd. apply andb_true_iff in Hd as [Hu Hd].
    apply DeepEqual_keys_refl; [done..|].
    rewrite forallb_forall in Hd.
    apply Forall_forall. intros kv Hin.
    rewrite Forall_forall in IH. apply IH; [done|].
    apply Hd. by apply list_elem_of_In.
Qed.

Lemma uniq_NoDup (ks : list string) : uniq ks = true <-> NoDup ks.
Proof.
  induction ks as [|k ks IH]; simpl; [by split; [constructor|]|].
  rewrite andb_true_iff, negb_true_iff, NoDup_cons, IH.
  assert (Hin : existsb (String.eqb k) ks = false <-> k ∉ ks); [|by rewrite Hin].
  rewrite <- not_true_iff_false, existsb_exists.
  split; intros Hn Hk; apply Hn.
  - exists k. split; [by apply list_elem_of_In | apply String.eqb_refl].
  - destruct Hk as (k' & Hk' & ->%String.eqb_eq). by apply list_elem_of_In.
Qed.

(** A Go map has no order: listing the entries of a decoded object in another
    order gives a deeply equal value. *)
Lemma DeepEqual_JMap_Permutation (m1 m2 : list (string * value)) :
  decoded (JMap m1) = true -> m1 ≡ₚ m2 ->
  DeepEqual (JMap m1) (JMap m2) = true.
Proof.
  intros Hdec Hperm. simpl in Hdec. apply andb_true_iff in Hdec as [Hu Hd].
  rewrite DeepEqual_JMap, (Permutation_length Hperm), Nat.eqb_refl. simpl.
  apply DeepEqual_keys_refl.
  - apply uniq_NoDup. apply uniq_NoDup in Hu. by rewrite <- Hperm.
  - intros kv. by rewrite Hperm.
  - rewrite forallb_forall in Hd. apply Forall_forall. intros kv Hin.
    apply DeepEqual_refl, Hd. by apply list_elem_of_In.
Qed.

(** ** The action derived by [calculateChange] *)

Section DifferFacts.

Context {R DiffRenderer Diff : Type}.
Variable ForcesReplacement : R -> bool.
Variable NewDiff : DiffRenderer -> plans.Action -> bool -> Diff.
Variable isBefore isAfter : Change R -> bool.

Abbreviation calculate := (calculateChange isBefore isAfter).

(** The action is NoOp exactly when the third test of the function holds: the
    Create and Delete tests cannot hold together with it. *)
Lemma calculateChange_NoOp_iff (c : Change R) :
  calculate c = plans.NoOp
  <-> DeepEqual (Before c) (After c) = true
      /\ AfterExplicit c = BeforeExplicit c
      /\ isAfter c = isBefore c.
Proof.
  unfold calculateChange.
  assert (Hiff : DeepEqual (Before c) (After c)
                 && Bool.eqb (AfterExplicit c) (BeforeExplicit c)
                 && Bool.eqb (isAfter c) (isBefore c) = true
                 <-> DeepEqual (Before c) (After c) = true
                     /\ AfterExplicit c = BeforeExplicit c
                     /\ isAfter c = isBefore c).
  { destruct (DeepEqual (Before c) (After c)), (AfterExplicit c),
      (BeforeExplicit c), (isAfter c), (isBefore c); simpl;
      intuition congruence. }
  rewrite <- Hiff. clear Hiff.
  destruct (is_nil (Before c)) eqn:Hb.
  - apply is_nil_true in Hb. rewrite Hb.
    replace (DeepEqual JNil (After c)) with (is_nil (After c))
      by (by rewrite <- DeepEqual_nil_l).
    destruct (is_nil (After c)), (BeforeExplicit c), (AfterExplicit c);
      simpl; try (split; congruence);
      destruct (Bool.eqb (isAfter c) (isBefore c)); simpl; split; congruence.
  - destruct (is_nil (After c)) eqn:Ha.
    + apply is_nil_true in Ha. rewrite Ha.
      replace (DeepEqual (Before c) JNil) with (is_nil (Before c))
        by (by destruct (Before c)).
      rewrite Hb.
      destruct (BeforeExplicit c), (AfterExplicit c); simpl;
        split; congruence.
    + simpl.
      destruct (DeepEqual (Before c) (After c)
                && Bool.eqb (AfterExplicit c) (BeforeExplicit c)
                && Bool.eqb (isAfter c) (isBefore c)); split; congruence.
Qed.

(** The function has four results. *)
Lemma calculateChange_cases (c : Change R) :
  calculate c = plans.Create \/ calculate c = plans.Delete
  \/ calculate c = plans.NoOp \/ calculate c = plans.Update.
Proof.
  unfold calculateChange.
  repeat match goal with |- context [if ?b then _ else _] => destruct b end;
    auto.
Qed.

(** When both sides are present the result is NoOp or Update. *)
Lemma calculateChange_present (c : Change R) :
  is_nil (Before c) = false -> is_nil (After c) = false ->
  calculate c
  = if DeepEqual (Before c) (After c)
       && Bool.eqb (AfterExplicit c) (BeforeExplicit c)
       && Bool.eqb (isAfter c) (isBefore c)
    then plans.NoOp else plans.Update.
Proof. unfold calculateChange. by intros -> ->. Qed.

(** C1: a Change whose before value equals its after value, whose two
    explicit flags agree and whose two sides are equally sensitive gets the
    action NoOp from [calculateChange], whatever its [ReplacePaths] hold.
    The values are those [json.Unmarshal] produces. *)
Theorem calculateChange_equal_sides_NoOp (c : Change R) :
  decoded (Before c) = true ->
  Before c = After c ->
  BeforeExplicit c = AfterExplicit c ->
  isBefore c = isAfter c ->
  calculate c = plans.NoOp.
Proof.
  intros Hd Hv He Hs. apply calculateChange_NoOp_iff.
  rewrite <- Hv. split; [by apply DeepEqual_refl | by split].
Qed.

(** The same for any two values that [reflect.DeepEqual] accepts, such as
    the two zeros of float64 or one object listed in two orders. *)
Lemma calculateChange_DeepEqual_NoOp (c : Change R) :
  DeepEqual (Before c) (After c) = true ->
  BeforeExplicit c = AfterExplicit c ->
  isBefore c = isAfter c ->
  calculate c = plans.NoOp.
Proof. intros. by apply calculateChange_NoOp_iff. Qed.

(** C2: with the before value absent and implicit and the after value present
    or explicit the action is Create; with the after value absent and
    implicit and the before value present or explicit it is Delete. *)
Theorem calculateChange_Create_Delete (c : Change R) :
  (Before c = JNil -> BeforeExplicit c = false ->
   After c <> JNil \/ AfterExplicit c = true ->
   calculate c = plans.Create)
  /\ (After c = JNil -> AfterExplicit c = false ->
      Before c <> JNil \/ BeforeExplicit c = true ->
      calculate c = plans.Delete).
Proof.
  unfold calculateChange. split; intros Hv He Hother.
  - rewrite Hv, He. simpl.
    destruct Hother as [Hn | ->]; [|by rewrite orb_true_r].
    destruct (is_nil (After c)) eqn:E; [|done].
    by apply is_nil_true in E.
  - rewrite Hv, He. simpl.
    destruct Hother as [Hn | ->].
    + destruct (is_nil (Before c)) eqn:E; [by apply is_nil_true in E|done].
    + rewrite orb_true_r, andb_false_r. done.
Qed.

(** The default action for collections and blocks agrees with that when the
    other side is present; an explicit null on the other side leaves it at
    NoOp, to be refined from the children with [compareActions]. *)
Lemma getDefaultActionForIteration_Create_Delete (c : Change R) :
  (Before c = JNil -> After c <> JNil ->
   getDefaultActionForIteration c = plans.Create)
  /\ (After c = JNil -> Before c <> JNil ->
      getDefaultActionForIteration c = plans.Delete)
  /\ (Before c = JNil -> After c = JNil ->
      getDefaultActionForIteration c = plans.NoOp).
Proof.
  unfold getDefaultActionForIteration.
  split; [|split]; intros -> H; simpl.
  - destruct (After c); simpl; congruence.
  - destruct (Before c); simpl; congruence.
  - by rewrite H.
Qed.

(** C3, as the code has it: [calculateChange] does not read [Unknown].  For a
    Change whose after value is unknown the action is not NoOp when the
    recorded values, the explicit flags or the sensitivity of the two sides
    differ, and it is NoOp when all three agree. *)
Theorem calculateChange_Unknown (c : Change R) :
  Unknown c = JBool true ->
  (DeepEqual (Before c) (After c) = false
   \/ BeforeExplicit c <> AfterExplicit c
   \/ isBefore c <> isAfter c ->
   calculate c <> plans.NoOp)
  /\ (DeepEqual (Before c) (After c) = true ->
      BeforeExplicit c = AfterExplicit c ->
      isBefore c = isAfter c ->
      calculate c = plans.NoOp).
Proof.
  intros _. split.
  - intros Hdiff Hno. apply calculateChange_NoOp_iff in Hno as (Hv & He & Hs).
    destruct Hdiff as [Hd | [Hd | Hd]]; congruence.
  - intros Hv He Hs. by apply calculateChange_NoOp_iff.
Qed.

(** C4, as the code has it: two array values are compared index by index.
    With equal explicit flags and equal sensitivity the action is NoOp exactly
    when the arrays have the same length and deeply equal elements at every
    index, and Update otherwise. *)
Theorem calculateChange_slices_by_index (c : Change R) (l1 l2 : list value) :
  Before c = JSlice l1 -> After c = JSlice l2 ->
  BeforeExplicit c = AfterExplicit c ->
  isBefore c = isAfter c ->
  (calculate c = plans.NoOp
   <-> Forall2 (fun a b => DeepEqual a b = true) l1 l2)
  /\ (calculate c = plans.Update
      <-> ~ Forall2 (fun a b => DeepEqual a b = true) l1 l2).
Proof.
  intros Hb Ha He Hs.
  rewrite calculateChange_present by (by rewrite ?Hb, ?Ha).
  rewrite Hb, Ha, DeepEqual_JSlice, He, Hs, !eqb_reflx, !andb_true_r.
  rewrite <- DeepEqual_elems_Forall2.
  destruct (DeepEqual_elems l1 l2); split; split; done.
Qed.

(** C5, as the code has it: [calculateChange] never answers Replace (nor
    Read).  A Change with both sides present and different gets Update
    whatever [ReplacePaths] holds, and [asDiff] hands the answer of
    [ReplacePaths.ForcesReplacement()] to the diff as a flag of its own,
    beside that action. *)
Theorem calculateChange_never_Replace (c : Change R) (renderer : DiffRenderer) :
  calculate c <> plans.Replace
  /\ calculate c <> plans.Read
  /\ (Before c <> JNil -> After c <> JNil ->
      DeepEqual (Before c) (After c) = false ->
      calculate c = plans.Update)
  /\ asDiff ForcesReplacement NewDiff isBefore isAfter c renderer
     = NewDiff renderer (calculate c) (ForcesReplacement (ReplacePaths c)).
Proof.
  split; [|split; [|split]]; [| | |reflexivity].
  - destruct (calculateChange_cases c) as [H|[H|[H|H]]]; congruence.
  - destruct (calculateChange_cases c) as [H|[H|[H|H]]]; congruence.
  - intros Hb Ha Hd. rewrite calculateChange_present, Hd; [done|..].
    + destruct (is_nil (Before c)) eqn:E; [by apply is_nil_true in E|done].
    + destruct (is_nil (After c)) eqn:E; [by apply is_nil_true in E|done].
Qed.

End DifferFacts.

(** With the sensitivity read from the two marks, the action is the same
    whatever [Unknown] holds. *)
Lemma calculateChange_Unknown_irrelevant {R} (c : Change R) (unknown : value) :
  calculateChange isBeforeSensitive isAfterSensitive
    {| BeforeExplicit := BeforeExplicit c; AfterExplicit := AfterExplicit c;
       Before := Before c; After := After c; Unknown := unknown;
       BeforeSensitive := BeforeSensitive c;
       AfterSensitive := AfterSensitive c;
       ReplacePaths := ReplacePaths c |}
  = calculateChange isBeforeSensitive isAfterSensitive c.
Proof. reflexivity. Qed.

(** C9: NoOp is a right identity of [compareActions], equal arguments come
    back unchanged, and two different arguments of which the second is not
    NoOp give Update. *)
Theorem compareActions_laws (a b : plans.Action) :
  compareActions a plans.NoOp = a
  /\ compareActions a a = a
  /\ (a <> b -> b <> plans.NoOp -> compareActions a b = plans.Update).
Proof.
  split; [|split].
  - by destruct a.
  - by destruct a.
  - intros Hab Hb. destruct a, b; unfold compareActions; simpl; congruence.
Qed.

(** ** The loop of [TestFileRunner.Test] *)

Lemma deliver_Cancelled i s :
  Cancelled s = true -> Cancelled (deliver i s) = true.
Proof. unfold deliver. by destruct (stop i), (cancel i). Qed.

Lemma deliver_Stopped i s :
  Stopped s = true -> Stopped (deliver i s) = true.
Proof. unfold deliver. by destruct (stop i), (cancel i). Qed.

Lemma with_Status_Status s r :
  moduletest.Run_Status (with_Status s r) = s.
Proof. done. Qed.

Lemma with_Status_Name s r :
  moduletest.Run_Name (with_Status s r) = moduletest.Run_Name r.
Proof. done. Qed.


Section RunnerFacts.

Context {State : Type}.
Variable NewState : State.
Variable Empty : State -> bool.
Variable Merge : moduletest.Status -> moduletest.Status -> moduletest.Status.
Variable arrive : moduletest.Run -> Interrupts.
Variable execute : moduletest.Run -> State -> Outcome (State := State).
Variable teardown : moduletest.Run -> State -> Destroyed (State := State).
Variable transform_fails : moduletest.Run -> bool.

Abbreviation iteration := (Test_iteration NewState Merge arrive execute).
Abbreviation loop := (Test_loop NewState Merge arrive execute).

Lemma Test_loop_cons (runner : TestFileRunner) fileStatus r rest :
  loop runner fileStatus (r :: rest)
  = match iteration runner fileStatus r with
    | Some (runner1, fileStatus1, r1, true) =>
        Some (runner1, fileStatus1, r1 :: rest, true)
    | Some (runner1, fileStatus1, r1, false) =>
        match loop runner1 fileStatus1 rest with
        | Some (runner2, fileStatus2, rest2, returned) =>
            Some (runner2, fileStatus2, r1 :: rest2, returned)
        | None => None
        end
    | None => None
    end.
Proof.
  simpl. destruct (iteration runner fileStatus r) as [[[[? ?] ?] []]|];
    simpl; try done.
Qed.

(** The loop over a concatenation: the second part runs from where the first
    part ended, unless the first part left through [return]. *)
Lemma Test_loop_app (runner : TestFileRunner) fileStatus pre post :
  loop runner fileStatus (pre ++ post)
  = match loop runner fileStatus pre with
    | Some (runner1, fileStatus1, pre1, true) =>
        Some (runner1, fileStatus1, pre1 ++ post, true)
    | Some (runner1, fileStatus1, pre1, false) =>
        match loop runner1 fileStatus1 post with
        | Some (runner2, fileStatus2, post2, returned) =>
            Some (runner2, fileStatus2, pre1 ++ post2, returned)
        | None => None
        end
    | None => None
    end.
Proof.
  revert runner fileStatus.
  induction pre as [|r pre IH]; intros runner fileStatus.
  - simpl. by destruct (loop _ _ post) as [[[[? ?] ?] ?]|].
  - rewrite <- app_comm_cons, !Test_loop_cons.
    destruct (iteration runner fileStatus r) as [[[[rn1 fs1] r1] []]|];
      try done.
    rewrite IH.
    destruct (loop rn1 fs1 pre) as [[[[rn2 fs2] pre2] []]|]; try done.
    by destruct (loop rn2 fs2 post) as [[[[? ?] ?] ?]|].
Qed.

Lemma Test_loop_length (runner : TestFileRunner) fileStatus runs
    runner' fileStatus' runs' returned :
  loop runner fileStatus runs = Some (runner', fileStatus', runs', returned) ->
  length runs' = length runs.
Proof.
  revert runner fileStatus runner' fileStatus' runs' returned.
  induction runs as [|r runs IH]; intros rn fs rn' fs' runs' ret.
  - simpl. by intros [= <- <- <- <-].
  - rewrite Test_loop_cons.
    destruct (iteration rn fs r) as [[[[rn1 fs1] r1] []]|]; try done.
    + by intros [= <- <- <- <-].
    + destruct (loop rn1 fs1 runs) as [[[[rn2 fs2] runs2] ret2]|] eqn:E;
        try done.
      intros [= <- <- <- <-]. simpl. f_equal. by eapply IH.
Qed.

(** An iteration that leaves its run block in error leaves the file in
    error. *)
Lemma Test_iteration_Error (runner : TestFileRunner) fileStatus r
    runner' fileStatus' r' :
  (forall s, Merge s moduletest.Error = moduletest.Error) ->
  iteration runner fileStatus r = Some (runner', fileStatus', r', false) ->
  moduletest.Run_Status r' = moduletest.Error ->
  fileStatus' = moduletest.Error.
Proof.
  intros HMerge. unfold Test_iteration.
  destruct (Cancelled _); [done|].
  destruct (Stopped _); [by intros [= <- <- <- ]|].
  destruct (moduletest.eqb fileStatus _); [by intros [= <- <- <- ]|].
  assert (Hexec : forall rn key,
    Test_execute Merge execute rn fileStatus r key
    = Some (runner', fileStatus', r', false) ->
    moduletest.Run_Status r' = moduletest.Error ->
    fileStatus' = moduletest.Error).
  { intros rn key. unfold Test_execute.
    destruct (RelevantStates rn !! key) as [relevant|]; [|done]. simpl.
    destruct (run execute rn r _) as [[[rn1 r1] st1] upd].
    intros [= ? ? ?] Hst; subst. rewrite Hst. apply HMerge. }
  destruct (moduletest.Run_ConfigUnderTest r) as [key|]; [|apply Hexec].
  destruct (String.eqb key _); [by intros [= <- <- <-]|apply Hexec].
Qed.

(** While the suite is stopped or the file is in error, the loop dispatches
    nothing: it marks run blocks as skipped one after the other, until the
    list ends or a cancellation makes it return and leave the rest as they
    are. *)
Lemma Test_loop_skipping (runner : TestFileRunner) fileStatus
    (runs : list moduletest.Run) :
  Stopped (Suite runner) = true \/ fileStatus = moduletest.Error ->
  exists n runner' (returned : bool) evs,
    loop runner fileStatus runs
    = Some (runner',
            if returned then Merge fileStatus moduletest.Error
            else fileStatus,
            (with_Status moduletest.Skip <$> take n runs) ++ drop n runs,
            returned)
    /\ (if returned then Cancelled (Suite runner') = true /\ n < length runs
        else n = length runs)
    /\ Trace runner' = Trace runner ++ evs
    /\ no_Operation evs
    /\ RelevantStates runner' = RelevantStates runner.
Proof.
  revert runner. induction runs as [|r runs IH]; intros rn Hskip.
  - exists 0, rn, false, []. simpl. rewrite app_nil_r.
    repeat split; by constructor.
  - rewrite Test_loop_cons. unfold Test_iteration.
    destruct (Cancelled (Suite (interrupt (arrive r) rn))) eqn:Ec.
    { exists 0, (interrupt (arrive r) rn), true, []. simpl.
      rewrite app_nil_r. repeat split; try done; [lia | constructor]. }
    set (rn1 := emit [ViewRun (moduletest.Run_Name r) moduletest.Complete]
                  (interrupt (arrive r) rn)).
    assert (Hstep :
      (if Stopped (Suite (interrupt (arrive r) rn))
       then Some (rn1, fileStatus, with_Status moduletest.Skip r, false)
       else if moduletest.eqb fileStatus moduletest.Error
            then Some (rn1, fileStatus, with_Status moduletest.Skip r, false)
            else match moduletest.Run_ConfigUnderTest r with
                 | Some key =>
                     if String.eqb key MainStateIdentifier
                     then Some (interrupt (arrive r) rn, moduletest.Error,
                                with_Status moduletest.Error r, false)
                     else Test_execute Merge execute
                            match
                              RelevantStates (interrupt (arrive r) rn) !! key
                            with
                            | Some _ => interrupt (arrive r) rn
                            | None =>
                                set_RelevantState key
                                  {| TestFileState_Run := None;
                                     TestFileState_State := NewState |}
                                  (interrupt (arrive r) rn)
                            end fileStatus r key
                 | None => Test_execute Merge execute
                             (interrupt (arrive r) rn) fileStatus r
                             MainStateIdentifier
                 end)
      = Some (rn1, fileStatus, with_Status moduletest.Skip r, false)).
    { destruct Hskip as [Hs | ->].
      - simpl. by rewrite deliver_Stopped.
      - by destruct (Stopped _). }
    rewrite Hstep. clear Hstep.
    destruct (IH rn1) as (n & rn' & ret & evs & Hloop & Hn & Htr & Hno & Hrs).
    { destruct Hskip as [Hs | ->]; [left|by right].
      simpl. by apply deliver_Stopped. }
    rewrite Hloop.
    exists (S n), rn', ret,
      (ViewRun (moduletest.Run_Name r) moduletest.Complete :: evs).
    simpl. repeat split; try done.
    + destruct ret; [|lia]. destruct Hn. split; [done|lia].
    + rewrite Htr. simpl. by rewrite <- app_assoc.
    + by constructor.
Qed.

(** C6, as the code has it: once a run block has ended in error, no
    operation is invoked for any later run block, whatever the environment
    does.  The later blocks are marked as skipped one after the other; if a
    hard cancellation is seen on the way the loop returns and the blocks not
    yet reached keep the status they had. *)
Theorem Test_loop_error_skips_rest (runner : TestFileRunner) fileStatus
    pre r (post : list moduletest.Run) runner1 fileStatus1 runs1 r1 :
  (forall s, Merge s moduletest.Error = moduletest.Error) ->
  loop runner fileStatus (pre ++ [r])
  = Some (runner1, fileStatus1, runs1, false) ->
  last runs1 = Some r1 ->
  moduletest.Run_Status r1 = moduletest.Error ->
  exists n runner2 (returned : bool) evs,
    loop runner fileStatus (pre ++ r :: post)
    = Some (runner2, moduletest.Error,
            runs1 ++ (with_Status moduletest.Skip <$> take n post)
                  ++ drop n post,
            returned)
    /\ (if returned
        then Cancelled (Suite runner2) = true /\ n < length post
        else n = length post)
    /\ Trace runner2 = Trace runner1 ++ evs
    /\ no_Operation evs.
Proof.
  intros HMerge Hpre Hlast Herr.
  assert (Hfs : fileStatus1 = moduletest.Error).
  { rewrite Test_loop_app in Hpre.
    destruct (loop runner fileStatus pre) as [[[[rn0 fs0] pre0] []]|];
      try done.
    rewrite Test_loop_cons in Hpre.
    destruct (iteration rn0 fs0 r) as [[[[rn' fs'] r'] []]|] eqn:Hit;
      try done.
    simpl in Hpre. injection Hpre as <- <- <-.
    rewrite last_snoc in Hlast. injection Hlast as <-.
    by eapply Test_iteration_Error. }
  subst fileStatus1.
  destruct (Test_loop_skipping runner1 moduletest.Error post)
    as (n & rn2 & ret & evs & Hloop & Hn & Htr & Hno & _); [by right|].
  exists n, rn2, ret, evs.
  replace (pre ++ r :: post) with ((pre ++ [r]) ++ post)
    by (by rewrite <- app_assoc).
  rewrite Test_loop_app, Hpre, Hloop.
  repeat split; try done.
  destruct ret; [by rewrite HMerge | done].
Qed.

End RunnerFacts.

(** ** [wait] and the two interrupts *)

Section WaitFacts.

Variable run : string.
Variable progress : moduletest.Progress.

Abbreviation tick := (ViewRun run progress).

(** [handleCancelled] returns only when the operation has finished, always
    with [cancelled] set, and meanwhile only reports progress. *)
Lemma handleCancelled_loop_Returned calls choices c calls' :
  handleCancelled_loop run progress calls choices = Returned c calls' ->
  c = true /\ RunningCtxDone ∈ choices
  /\ exists k, calls' = calls ++ replicate k tick.
Proof.
  revert calls. induction choices as [|[] choices IH]; intros calls; simpl;
    try done.
  - intros H. destruct (IH _ H) as (-> & Hin & k & ->).
    split; [done|]. split; [by right|].
    exists (S k). by rewrite <- app_assoc.
  - intros [= <- <-]. split; [done|]. split; [by left|].
    exists 0. by rewrite app_nil_r.
Qed.

Lemma handleStopped_Returned calls choices c calls' :
  handleStopped run progress calls choices = Returned c calls' ->
  RunningCtxDone ∈ choices
  /\ exists k1,
       if c
       then CancelledCtxDone ∈ choices
            /\ exists k2,
                 calls' = calls ++ replicate k1 tick
                          ++ [ViewFatalInterruptSummary; ContextStop]
                          ++ replicate k2 tick
       else calls' = calls ++ replicate k1 tick.
Proof.
  revert calls. induction choices as [|[] choices IH]; intros calls; simpl;
    try done.
  - intros H. destruct (IH _ H) as (Hin & k1 & Hc).
    split; [by right|]. exists (S k1). destruct c.
    + destruct Hc as (Hcin & k2 & ->). split; [by right|].
      exists k2. by rewrite <- app_assoc.
    + rewrite Hc. by rewrite <- app_assoc.
  - intros H. apply handleCancelled_loop_Returned in H as (-> & Hin & k & ->).
    split; [by right|]. exists 0. split; [by left|].
    exists k. simpl. by rewrite <- app_assoc.
  - intros [= <- <-]. split; [by left|]. exists 0. simpl.
    by rewrite app_nil_r.
Qed.

Lemma wait_loop_Returned calls choices c calls' :
  wait_loop run progress calls choices = Returned c calls' ->
  RunningCtxDone ∈ choices
  /\ exists k1,
       if c
       then CancelledCtxDone ∈ choices
            /\ exists k2,
                 calls' = calls ++ replicate k1 tick
                          ++ [ViewFatalInterruptSummary; ContextStop]
                          ++ replicate k2 tick
       else calls' = calls ++ replicate k1 tick.
Proof.
  revert calls. induction choices as [|[] choices IH]; intros calls; simpl;
    try done.
  - intros H. destruct (IH _ H) as (Hin & k1 & Hc).
    split; [by right|]. exists (S k1). destruct c.
    + destruct Hc as (Hcin & k2 & ->). split; [by right|].
      exists k2. by rewrite <- app_assoc.
    + rewrite Hc. by rewrite <- app_assoc.
  - intros H. apply handleStopped_Returned in H as (Hin & k1 & Hc).
    split; [by right|]. exists k1. destruct c; [|done].
    destruct Hc as (Hcin & k2 & ->). split; [by right|]. by exists k2.
  - intros H. apply handleCancelled_loop_Returned in H as (-> & Hin & k & ->).
    split; [by right|]. exists 0. split; [by left|].
    exists k. simpl. by rewrite <- app_assoc.
  - intros [= <- <-]. split; [by left|]. exists 0. simpl.
    by rewrite app_nil_r.
Qed.

(** The calls [wait] has made when it returns: progress reports, and, exactly
    when its result is [cancelled], the interrupt summary and [ctx.Stop()]
    among them. *)
Lemma wait_Returned choices c calls :
  wait run progress choices = Returned c calls ->
  RunningCtxDone ∈ choices
  /\ exists k1,
       if c
       then CancelledCtxDone ∈ choices
            /\ exists k2,
                 calls = replicate k1 tick
                         ++ [ViewFatalInterruptSummary; ContextStop]
                         ++ replicate k2 tick
       else calls = replicate k1 tick.
Proof. apply wait_loop_Returned. Qed.

Lemma ContextStop_not_tick k : ContextStop ∉ replicate k tick.
Proof. intros [? _]%elem_of_replicate. done. Qed.

End WaitFacts.

Section CancellationFacts.

Context {State : Type}.
Variable NewState : State.
Variable Empty : State -> bool.
Variable Merge : moduletest.Status -> moduletest.Status -> moduletest.Status.
Variable arrive : moduletest.Run -> Interrupts.
Variable execute : moduletest.Run -> State -> Outcome (State := State).
Variable teardown : moduletest.Run -> State -> Destroyed (State := State).
Variable transform_fails : moduletest.Run -> bool.

(** C7: [wait] returns only once the operation in flight has finished.  If
    it was not cancelled it has asked nothing of the operation, and under a
    stop the loop of [Test] dispatches no further run block and marks each as
    skipped.  If it was cancelled it has printed the interrupt summary and
    called [ctx.Stop()] on the way; the loop of [Test] then returns at its
    next iteration without touching the remaining run blocks, and the suite
    goes straight on to announce the tear-down and the completion of the
    file: [cleanup] returns at once, and no further file is started. *)
Theorem cancellation_soft_and_hard :
  (forall run progress choices c calls,
     wait run progress choices = Returned c calls ->
     RunningCtxDone ∈ choices
     /\ (c = false -> ContextStop ∉ calls)
     /\ (CancelledCtxDone ∉ choices -> c = false))
  /\ (forall (runner : TestFileRunner) fileStatus runs
             runner' fileStatus' runs',
        Stopped (Suite runner) = true ->
        Test_loop NewState Merge arrive execute runner fileStatus runs
        = Some (runner', fileStatus', runs', false) ->
        runs' = (with_Status moduletest.Skip <$> runs)
        /\ fileStatus' = fileStatus
        /\ exists evs,
             Trace runner' = Trace runner ++ evs /\ no_Operation evs)
  /\ (forall run progress choices calls,
        wait run progress choices = Returned true calls ->
        CancelledCtxDone ∈ choices
        /\ ViewFatalInterruptSummary ∈ calls
        /\ ContextStop ∈ calls
        /\ RunningCtxDone ∈ choices)
  /\ (forall (runner : TestFileRunner) fileStatus r rest,
        Cancelled (Suite runner) = true ->
        Test_loop NewState Merge arrive execute runner fileStatus (r :: rest)
        = Some (interrupt (arrive r) runner,
                Merge fileStatus moduletest.Error, r :: rest, true))
  /\ (forall (runner : TestFileRunner) file,
        Cancelled (Suite runner) = true ->
        cleanup Empty teardown transform_fails runner file
        = Some (runner, file))
  /\ (forall suite trace suiteStatus files,
        Cancelled suite = true -> files <> [] ->
        TestSuiteRunner_Test_loop NewState Empty Merge arrive execute
          teardown transform_fails suite trace suiteStatus files
        = Some (suite, trace, suiteStatus, files))
  /\ (forall suite trace suiteStatus file rest runner' file',
        Cancelled suite = false ->
        Test NewState Merge arrive execute
          {| Suite := suite;
             RelevantStates :=
               {[ MainStateIdentifier :=
                    {| TestFileState_Run := None;
                       TestFileState_State := NewState |} ]};
             Trace := trace ++ [ViewFile (moduletest.File_Name file)
                                  moduletest.Starting] |} file
        = Some (runner', file') ->
        Cancelled (Suite runner') = true ->
        TestSuiteRunner_Test_loop NewState Empty Merge arrive execute
          teardown transform_fails suite trace suiteStatus (file :: rest)
        = Some (Suite runner',
                Trace runner'
                ++ [ViewFile (moduletest.File_Name file) moduletest.TearDown;
                    ViewFile (moduletest.File_Name file) moduletest.Complete]
                ++ match rest with [] => [ViewConclusion] | _ => [] end,
                Merge suiteStatus (moduletest.File_Status file'),
                file' :: rest)).
Proof.
  split; [|split; [|split; [|split; [|split; [|split]]]]].
  - intros run progress choices c calls H.
    apply wait_Returned in H as (Hin & k1 & Hc).
    split; [done|]. split.
    + intros ->. subst calls. apply ContextStop_not_tick.
    + intros Hno. destruct c; [|done]. by destruct Hc.
  - intros runner fileStatus runs runner' fileStatus' runs' Hs Hloop.
    destruct (Test_loop_skipping NewState Merge arrive execute
                runner fileStatus runs)
      as (n & rn2 & ret & evs & Hloop' & Hn & Htr & Hno & _); [by left|].
    rewrite Hloop in Hloop'. injection Hloop' as -> -> -> <-.
    subst n. rewrite firstn_all, drop_all, app_nil_r.
    split; [done|]. split; [done|]. by exists evs.
  - intros run progress choices calls H.
    apply wait_Returned in H as (Hin & k1 & Hcin & k2 & ->).
    split; [done|]. split; [|split; [|done]].
    + apply elem_of_app. right. by left.
    + apply elem_of_app. right. right. by left.
  - intros runner fileStatus r rest Hc.
    rewrite Test_loop_cons. unfold Test_iteration. simpl.
    by rewrite deliver_Cancelled.
  - intros runner file Hc. unfold cleanup. by rewrite Hc.
  - intros suite trace suiteStatus [|file files] Hc Hne; [done|].
    simpl. by rewrite Hc.
  - intros suite trace suiteStatus file rest runner' file' Hc HTest Hc'.
    simpl. rewrite Hc, HTest. simpl.
    unfold cleanup. simpl. rewrite Hc'. simpl.
    destruct rest as [|file2 rest]; simpl.
    + by rewrite <- !app_assoc.
    + rewrite Hc'. simpl. by rewrite <- !app_assoc.
Qed.

End CancellationFacts.

(** ** [AddVariablesToConfig] *)

Section AddVariablesFacts.

Context {ConfigVariable InputValue : Type}.
Variable newVariable : string -> InputValue -> ConfigVariable.

Abbreviation Mem := (Memory ConfigVariable).


Lemma backup_spec (currentVars : positive) entries (m : Mem) acc :
  maps m !! currentVars = Some acc ->
  backup currentVars entries m
  = Some {| maps := <[currentVars :=
                        foldl (fun a '(k, v) => <[k := v]> a) acc entries]>
                      (maps m);
            Module_Variables := Module_Variables m |}.
Proof.
  revert m acc. induction entries as [|[k v] entries IH]; intros m acc Hacc.
  - simpl. destruct m as [mp ref]. simpl in *. by rewrite insert_id.
  - simpl. rewrite Hacc. simpl.
    rewrite (IH _ (<[k := v]> acc)); simpl.
    + by rewrite insert_insert_eq.
    + by rewrite lookup_insert_eq.
Qed.

Lemma foldl_insert_list_to_map (l : list (string * ConfigVariable)) :
  NoDup (l.*1) ->
  foldl (fun a '(k, v) => <[k := v]> a) (∅ : gmap string ConfigVariable) l
  = list_to_map l.
Proof.
  induction l as [|[k v] l IH] using rev_ind; [done|].
  rewrite fmap_app, NoDup_app. intros (Hl & Hk & _).
  rewrite foldl_snoc, IH by done.
  rewrite list_to_map_snoc; [done|].
  intros Hin. apply (Hk k Hin). simpl. by left.
Qed.

Lemma foldl_insert_map_to_list (vars : gmap string ConfigVariable) :
  foldl (fun a '(k, v) => <[k := v]> a) ∅ (map_to_list vars) = vars.
Proof.
  rewrite foldl_insert_list_to_map by apply NoDup_fst_map_to_list.
  apply list_to_map_to_list.
Qed.

Lemma extend_spec variables (m : Mem) l vars :
  Module_Variables m = Some l ->
  maps m !! l = Some vars ->
  extend newVariable variables m
  = Some {| maps := <[l := extended newVariable variables vars]> (maps m);
            Module_Variables := Some l |}.
Proof.
  revert m vars.
  induction variables as [|[name value] variables IH]; intros m vars Hl Hv.
  - simpl. destruct m as [mp ref]. simpl in *. subst ref.
    by rewrite insert_id.
  - simpl. rewrite Hl. simpl. rewrite Hv. simpl.
    destruct (vars !! name) as [v|] eqn:E.
    + by apply IH.
    + rewrite (IH _ (<[name := newVariable name value]> vars)); simpl.
      * by rewrite insert_insert_eq.
      * done.
      * by rewrite lookup_insert_eq.
Qed.

(** Assigning into a nil map panics: with no map allocated the function
    fails as soon as there is a variable to add. *)
Lemma extend_nil name value variables (m : Mem) :
  Module_Variables m = None ->
  extend newVariable ((name, value) :: variables) m = None.
Proof. intros Hl. simpl. by rewrite Hl. Qed.

Lemma extended_keeps variables (vars : gmap string ConfigVariable) name v :
  vars !! name = Some v -> extended newVariable variables vars !! name = Some v.
Proof.
  revert vars. induction variables as [|[k value] variables IH];
    intros vars Hv; [done|].
  simpl. apply IH. destruct (vars !! k) eqn:E; [done|].
  rewrite lookup_insert_ne; [done|]. intros ->. congruence.
Qed.

Lemma extended_new variables (vars : gmap string ConfigVariable) name v :
  extended newVariable variables vars !! name = Some v ->
  vars !! name = None ->
  exists value, (name, value) ∈ variables /\ v = newVariable name value.
Proof.
  revert vars. induction variables as [|[k value] variables IH];
    intros vars Hv Hnone; [simpl in Hv; congruence|].
  simpl in Hv. destruct (vars !! k) eqn:E.
  - destruct (IH _ Hv Hnone) as (value' & Hin & ->).
    exists value'. split; [by right|done].
  - destruct (decide (k = name)) as [->|Hne].
    + exists value. split; [by left|].
      rewrite (extended_keeps variables _ name (newVariable name value))
        in Hv by (by rewrite lookup_insert_eq).
      congruence.
    + destruct (IH _ Hv) as (value' & Hin & ->).
      * by rewrite lookup_insert_ne.
      * exists value'. split; [by right|done].
Qed.

Lemma extended_defines variables (vars : gmap string ConfigVariable)
    name value :
  (name, value) ∈ variables -> is_Some (extended newVariable variables vars !! name).
Proof.
  revert vars. induction variables as [|[k value'] variables IH];
    intros vars Hin; [by inversion Hin|].
  apply elem_of_cons in Hin as [[= <- <-]|Hin]; [|by apply IH].
  simpl. destruct (vars !! name) as [v|] eqn:E.
  - exists v. by apply extended_keeps.
  - exists (newVariable name value). apply extended_keeps.
    by rewrite lookup_insert_eq.
Qed.

(** The memory after the call: a backup map at a fresh location, the map of
    the configuration extended in place, and the closure that points the
    configuration at the backup. *)
Lemma AddVariablesToConfig_result variables (m : Mem) l vars :
  Module_Variables m = Some l ->
  maps m !! l = Some vars ->
  AddVariablesToConfig newVariable variables m
  = Some ({| maps := <[l := extended newVariable variables vars]>
                       (<[fresh (dom (maps m)) := vars]> (maps m));
             Module_Variables := Some l |},
          reset (fresh (dom (maps m)))).
Proof.
  intros Hl Hvars.
  set (cur := fresh (dom (maps m))).
  assert (Hne : cur <> l).
  { intros Heq. assert (Hin : l ∈ dom (maps m)) by (apply elem_of_dom; eauto).
    rewrite <- Heq in Hin. by apply (is_fresh (dom (maps m))). }
  unfold AddVariablesToConfig, make_map. fold cur. simpl.
  rewrite Hl. simpl. rewrite lookup_insert_ne, Hvars by done. simpl.
  rewrite (backup_spec cur _ _ ∅) by (simpl; by rewrite lookup_insert_eq).
  simpl. rewrite foldl_insert_map_to_list, insert_insert_eq.
  rewrite (extend_spec variables _ l vars); simpl;
    [done | done | by rewrite lookup_insert_ne, Hvars].
Qed.

(** With no map allocated the backup is empty and the first variable to add
    is assigned into a nil map, which panics. *)
Lemma AddVariablesToConfig_nil_map name value variables (m : Mem) :
  Module_Variables m = None ->
  AddVariablesToConfig newVariable ((name, value) :: variables) m = None.
Proof.
  intros Hl. unfold AddVariablesToConfig, make_map. simpl.
  rewrite Hl. simpl. rewrite map_to_list_empty. reflexivity.
Qed.

(** C10: on a configuration whose variables map is allocated,
    [AddVariablesToConfig] returns; every definition the configuration had
    is still there, unchanged; every definition that was not there belongs to
    one of the given variables and is the one built for it; every given
    variable is defined afterwards; and the closure returned puts back a map
    equal to the one the configuration had before the call (a copy made on
    entry, which the additions never reach). *)
Theorem AddVariablesToConfig_frame variables (m : Mem) :
  well_formed m ->
  is_Some (Module_Variables m) ->
  exists m' currentVars,
    AddVariablesToConfig newVariable variables m
    = Some (m', reset currentVars)
    /\ (forall name v,
          Variables m !! name = Some v -> Variables m' !! name = Some v)
    /\ (forall name v,
          Variables m' !! name = Some v -> Variables m !! name = None ->
          exists value,
            (name, value) ∈ variables /\ v = newVariable name value)
    /\ (forall name value,
          (name, value) ∈ variables -> is_Some (Variables m' !! name))
    /\ Variables (reset currentVars m') = Variables m
    /\ maps m !! currentVars = None
    /\ maps m' !! currentVars = Some (Variables m).
Proof.
  intros Hwf [l Hl]. destruct (Hwf l Hl) as [vars Hvars].
  set (cur := fresh (dom (maps m))).
  assert (Hfresh : maps m !! cur = None).
  { apply not_elem_of_dom. apply is_fresh. }
  assert (Hne : cur <> l) by congruence.
  assert (HV : Variables m = vars).
  { unfold Variables, deref. by rewrite Hl, Hvars. }
  eexists _, cur. split; [by apply AddVariablesToConfig_result|].
  unfold Variables, reset, deref. simpl.
  rewrite lookup_insert_eq, Hl, Hvars. simpl.
  rewrite lookup_insert_ne, lookup_insert_eq by done. simpl.
  repeat split; try done.
  - intros name v. apply extended_keeps.
  - intros name v. apply extended_new.
  - intros name value. apply extended_defines.
Qed.

(** The map object the configuration pointed to during the call keeps the
    additions after the closure has run: the closure replaces the reference,
    it does not undo the insertions. *)
Lemma reset_leaves_original_extended variables (m : Mem) l vars :
  Module_Variables m = Some l ->
  maps m !! l = Some vars ->
  exists m' undo,
    AddVariablesToConfig newVariable variables m = Some (m', undo)
    /\ maps (undo m') !! l = Some (extended newVariable variables vars)
    /\ Module_Variables (undo m') <> Some l.
Proof.
  intros Hl Hvars. eexists _, _.
  split; [by apply AddVariablesToConfig_result|]. simpl.
  split; [by rewrite lookup_insert_eq|].
  intros [= Heq].
  assert (Hin : l ∈ dom (maps m)) by (apply elem_of_dom; eauto).
  rewrite <- Heq in Hin. by apply (is_fresh (dom (maps m))).
Qed.

End AddVariablesFacts.

(** ** Reading a state and writing it back *)

(** C8: writing back the state that was just read changes nothing in the
    backend: the recorded attributes with their unknown markers, the
    sensitive marks and the provider's private data, the format version and
    the serial are what they were, and so are the metadata headers of the
    blob, which a [Put] maintains as [TestPutMaintainsMetaData] expects. *)
Theorem WriteState_ReadState_noop
    (backend : StatePersistence.Blob StatePersistence.Snapshot) :
  StatePersistence.WriteState (StatePersistence.ReadState backend) backend
  = backend
  /\ StatePersistence.ReadState
       (StatePersistence.WriteState
          (StatePersistence.ReadState backend) backend)
     = StatePersistence.ReadState backend
  /\ StatePersistence.Serial
       (StatePersistence.Get
          (StatePersistence.WriteState
             (StatePersistence.ReadState backend) backend))
     = StatePersistence.Serial (StatePersistence.Get backend)
  /\ (forall (C : Type) (blob : StatePersistence.Blob C)
             (headerName expectedValue : string) (data : C),
        StatePersistence.GetProperties
          (StatePersistence.Put data
             (StatePersistence.SetMetaData
                (<[headerName := expectedValue]>
                   (StatePersistence.GetProperties blob)) blob))
        !! headerName = Some expectedValue).
Proof.
  assert (H : StatePersistence.WriteState
                (StatePersistence.ReadState backend) backend = backend).
  { unfold StatePersistence.WriteState, StatePersistence.ReadState.
    by rewrite decide_True. }
  rewrite !H. repeat split.
  intros C blob headerName expectedValue data. simpl.
  apply lookup_insert_eq.
Qed.

(** A write that changes the state bumps the serial by one and keeps the
    metadata headers. *)
Lemma WriteState_changed
    (backend : StatePersistence.Blob StatePersistence.Snapshot) new :
  new <> StatePersistence.ReadState backend ->
  StatePersistence.ReadState (StatePersistence.WriteState new backend) = new
  /\ StatePersistence.Serial
       (StatePersistence.Get (StatePersistence.WriteState new backend))
     = S (StatePersistence.Serial (StatePersistence.Get backend))
  /\ StatePersistence.MetaData (StatePersistence.WriteState new backend)
     = StatePersistence.MetaData backend.
Proof.
  intros Hne. unfold StatePersistence.WriteState, StatePersistence.ReadState.
  by rewrite decide_False.
Qed.


(** * The results at the worked inputs *)

Lemma calculateChange_equal_sides_NoOp_witness :
  decoded (Before Examples.unchanged) = true
  /\ calculateChange isBeforeSensitive isAfterSensitive Examples.unchanged
     = plans.NoOp.
Proof.
  split; [reflexivity|].
  apply calculateChange_equal_sides_NoOp; reflexivity.
Defined.

Lemma calculateChange_Create_Delete_witness :
  calculateChange isBeforeSensitive isAfterSensitive Examples.created
  = plans.Create
  /\ calculateChange isBeforeSensitive isAfterSensitive Examples.deleted
     = plans.Delete.
Proof.
  split.
  - apply (proj1 (calculateChange_Create_Delete
                    isBeforeSensitive isAfterSensitive Examples.created));
      [reflexivity | reflexivity | left; discriminate].
  - apply (proj2 (calculateChange_Create_Delete
                    isBeforeSensitive isAfterSensitive Examples.deleted));
      [reflexivity | reflexivity | left; discriminate].
Defined.

(** The after value is unknown, the recorded values are equal, and the
    action is NoOp. *)
Lemma calculateChange_Unknown_NoOp :
  Unknown Examples.unknown_same = JBool true
  /\ Before Examples.unknown_same = After Examples.unknown_same
  /\ calculateChange isBeforeSensitive isAfterSensitive Examples.unknown_same
     = plans.NoOp.
Proof. repeat split. Qed.

Lemma calculateChange_Unknown_witness :
  calculateChange isBeforeSensitive isAfterSensitive Examples.unknown_absent
  <> plans.NoOp
  /\ calculateChange isBeforeSensitive isAfterSensitive Examples.unknown_same
     = plans.NoOp.
Proof.
  split.
  - apply (proj1 (calculateChange_Unknown isBeforeSensitive isAfterSensitive
                    Examples.unknown_absent eq_refl)).
    left. reflexivity.
  - apply (proj2 (calculateChange_Unknown isBeforeSensitive isAfterSensitive
                    Examples.unknown_same eq_refl)); reflexivity.
Defined.

(** The same two elements in the other order: the action is Update. *)
Lemma calculateChange_reordered_Update :
  Before Examples.reordered = JSlice [JString "a"; JString "b"]
  /\ After Examples.reordered = JSlice [JString "b"; JString "a"]
  /\ [JString "a"; JString "b"] ≡ₚ [JString "b"; JString "a"]
  /\ calculateChange isBeforeSensitive isAfterSensitive Examples.reordered
     = plans.Update.
Proof. repeat split. apply Permutation_swap. Qed.

Lemma calculateChange_slices_by_index_witness :
  calculateChange isBeforeSensitive isAfterSensitive Examples.same_order
  = plans.NoOp
  /\ calculateChange isBeforeSensitive isAfterSensitive Examples.reordered
     = plans.Update.
Proof.
  split.
  - apply (calculateChange_slices_by_index isBeforeSensitive isAfterSensitive
             Examples.same_order _ _ eq_refl eq_refl eq_refl eq_refl).
    repeat constructor.
  - apply (calculateChange_slices_by_index isBeforeSensitive isAfterSensitive
             Examples.reordered _ _ eq_refl eq_refl eq_refl eq_refl).
    intros H. inversion H as [|? ? ? ? Hab]. discriminate Hab.
Defined.

(** The path [ami] is in [ReplacePaths] and its value changes, and the action
    is Update. *)
Lemma calculateChange_forced_Update :
  [inl "ami"%string] ∈ ReplacePaths Examples.forced
  /\ at_path (Before Examples.forced) [inl "ami"%string]
     = Some (JString "ami-1")
  /\ at_path (After Examples.forced) [inl "ami"%string]
     = Some (JString "ami-2")
  /\ calculateChange isBeforeSensitive isAfterSensitive Examples.forced
     = plans.Update
  /\ calculateChange isBeforeSensitive isAfterSensitive Examples.forced
     <> plans.Replace.
Proof. repeat split; [by left | discriminate]. Qed.

Lemma calculateChange_never_Replace_witness :
  calculateChange isBeforeSensitive isAfterSensitive Examples.forced
  = plans.Update.
Proof.
  apply (calculateChange_never_Replace
           (fun paths : Examples.Paths => negb (Nat.eqb (length paths) 0))
           (fun (_ : unit) action replace => (action, replace))
           isBeforeSensitive isAfterSensitive Examples.forced tt);
    [discriminate | discriminate | reflexivity].
Defined.

Lemma compareActions_laws_witness :
  compareActions plans.Create plans.Delete = plans.Update.
Proof.
  apply (compareActions_laws plans.Create plans.Delete); discriminate.
Defined.

(** [setup] ends in error while the user interrupts twice: [verify] is never
    run, and it is left pending, not skipped. *)
Lemma Test_error_then_cancel_leaves_pending :
  (fun '(runner, f) =>
     (moduletest.Run_Status <$> moduletest.File_Runs f,
      moduletest.File_Status f,
      Cancelled (Suite runner),
      Trace runner))
    <$> Test Examples.NewState moduletest.Merge Examples.no_arrival
          Examples.setup_interrupted
          (Examples.fresh_runner Examples.running) Examples.file
  = Some ([moduletest.Error; moduletest.Pending],
          moduletest.Error,
          true,
          [ViewRun "setup" moduletest.Starting;
           Operation "setup";
           ViewRun "setup" moduletest.Complete]).
Proof. vm_compute. reflexivity. Qed.

Lemma Test_loop_error_skips_rest_witness :
  exists n runner2 (returned : bool) evs,
    Test_loop Examples.NewState moduletest.Merge Examples.no_arrival
      Examples.setup_fails (Examples.fresh_runner Examples.running)
      moduletest.Skip ([] ++ Examples.setup :: [Examples.verify])
    = Some (runner2, moduletest.Error,
            [with_Status moduletest.Error Examples.setup]
            ++ (with_Status moduletest.Skip <$> take n [Examples.verify])
            ++ drop n [Examples.verify],
            returned)
    /\ (if returned
        then Cancelled (Suite runner2) = true /\ n < length [Examples.verify]
        else n = length [Examples.verify])
    /\ Trace runner2
       = [ViewRun "setup" moduletest.Starting;
          Operation "setup";
          ViewRun "setup" moduletest.Complete] ++ evs
    /\ no_Operation evs.
Proof.
  apply (Test_loop_error_skips_rest Examples.NewState moduletest.Merge
           Examples.no_arrival Examples.setup_fails
           (Examples.fresh_runner Examples.running) moduletest.Skip
           [] Examples.setup [Examples.verify]
           {| Suite := Examples.running;
              RelevantStates :=
                RelevantStates (Examples.fresh_runner Examples.running);
              Trace := [ViewRun "setup" moduletest.Starting;
                        Operation "setup";
                        ViewRun "setup" moduletest.Complete] |}
           moduletest.Error
           [with_Status moduletest.Error Examples.setup]
           (with_Status moduletest.Error Examples.setup)).
  - intros s. by destruct s.
  - reflexivity.
  - reflexivity.
  - reflexivity.
Defined.

(** [setup] simply fails: [verify] is skipped and never run. *)
Example Test_error_skips :
  (fun '(runner, f) =>
     (moduletest.Run_Status <$> moduletest.File_Runs f, Trace runner))
    <$> Test Examples.NewState moduletest.Merge Examples.no_arrival
          Examples.setup_fails
          (Examples.fresh_runner Examples.running) Examples.file
  = Some ([moduletest.Error; moduletest.Skip],
          [ViewRun "setup" moduletest.Starting;
           Operation "setup";
           ViewRun "setup" moduletest.Complete;
           ViewRun "verify" moduletest.Complete]).
Proof. vm_compute. reflexivity. Qed.

Lemma cancellation_soft_and_hard_witness :
  (RunningCtxDone ∈ [StoppedCtxDone; After2s; RunningCtxDone]
   /\ ContextStop ∉ [ViewRun "setup" moduletest.Running])
  /\ (with_Status moduletest.Skip <$> [Examples.setup; Examples.verify])
     = [with_Status moduletest.Skip Examples.setup;
        with_Status moduletest.Skip Examples.verify]
  /\ ContextStop ∈ [ViewFatalInterruptSummary; ContextStop;
                    ViewRun "setup" moduletest.Running]
  /\ cleanup Examples.Empty Examples.teardown Examples.transform_fails
       (Examples.fresh_runner (Cancel (Stop Examples.running))) Examples.file
     = Some (Examples.fresh_runner (Cancel (Stop Examples.running)),
             Examples.file).
Proof.
  destruct (cancellation_soft_and_hard Examples.NewState Examples.Empty
              moduletest.Merge Examples.no_arrival Examples.setup_fails
              Examples.teardown Examples.transform_fails)
    as (Hsoft_wait & Hsoft_loop & Hhard_wait & Hhard_loop & Hhard_cleanup
        & _ & _).
  split; [|split; [|split]].
  - destruct (Hsoft_wait "setup"%string moduletest.Running
                [StoppedCtxDone; After2s; RunningCtxDone] false
                [ViewRun "setup" moduletest.Running] eq_refl)
      as (Hdone & Hquiet & _).
    split; [exact Hdone | exact (Hquiet eq_refl)].
  - destruct (Hsoft_loop (Examples.fresh_runner (Stop Examples.running))
                moduletest.Skip [Examples.setup; Examples.verify]
                (emit [ViewRun "setup" moduletest.Complete;
                       ViewRun "verify" moduletest.Complete]
                   (Examples.fresh_runner (Stop Examples.running)))
                moduletest.Skip
                [with_Status moduletest.Skip Examples.setup;
                 with_Status moduletest.Skip Examples.verify]
                eq_refl eq_refl) as (Hruns & _).
    symmetry. exact Hruns.
  - destruct (Hhard_wait "setup"%string moduletest.Running
                [StoppedCtxDone; CancelledCtxDone; After2s; RunningCtxDone]
                [ViewFatalInterruptSummary; ContextStop;
                 ViewRun "setup" moduletest.Running] eq_refl)
      as (_ & _ & Hstop & _).
    exact Hstop.
  - apply Hhard_cleanup. reflexivity.
Defined.

Lemma AddVariablesToConfig_frame_witness :
  exists m' currentVars,
    AddVariablesToConfig Examples.newVariable Examples.values Examples.config
    = Some (m', reset currentVars)
    /\ (forall name v,
          Variables Examples.config !! name = Some v ->
          Variables m' !! name = Some v)
    /\ (forall name v,
          Variables m' !! name = Some v ->
          Variables Examples.config !! name = None ->
          exists value,
            (name, value) ∈ Examples.values
            /\ v = Examples.newVariable name value)
    /\ (forall name value,
          (name, value) ∈ Examples.values -> is_Some (Variables m' !! name))
    /\ Variables (reset currentVars m') = Variables Examples.config
    /\ maps Examples.config !! currentVars = None
    /\ maps m' !! currentVars = Some (Variables Examples.config).
Proof.
  apply AddVariablesToConfig_frame.
  - intros l [= <-]. vm_compute. eexists. reflexivity.
  - eexists. reflexivity.
Defined.

(** The same call, evaluated: [zone] is added, [region] keeps its
    definition, and the closure brings back the map with [region] alone. *)
Example AddVariablesToConfig_evaluated :
  (fun '(m', undo) =>
     (map_to_list (Variables m'), map_to_list (Variables (undo m'))))
    <$> AddVariablesToConfig Examples.newVariable Examples.values
          Examples.config
  = Some ([("zone", "generated zone"); ("region", "declared")]%string,
          [("region", "declared")]%string).
Proof. vm_compute. reflexivity. Qed.

(** * Further properties of the cited code *)

(** ** [compareActions] over the children of a value *)

Lemma refine_Update children : refine plans.Update children = plans.Update.
Proof.
  unfold refine. induction children as [|a children IH]; [done|].
  simpl. by destruct a.
Qed.

Lemma refine_forallb (current : plans.Action)
    (children : list plans.Action) :
  refine current children
  = if forallb (fun a => plans.eqb a plans.NoOp || plans.eqb a current)
         children
    then current else plans.Update.
Proof.
  unfold refine. induction children as [|a children IH]; [done|].
  simpl. destruct (plans.eqb a plans.NoOp) eqn:En.
  - apply plans_eqb_eq in En as ->. simpl.
    replace (compareActions current plans.NoOp) with current
      by (by destruct current).
    apply IH.
  - simpl. destruct (plans.eqb a current) eqn:Ec.
    + apply plans_eqb_eq in Ec as ->.
      replace (compareActions current current) with current
        by (by destruct current).
      apply IH.
    + replace (compareActions current a) with plans.Update.
      * apply refine_Update.
      * destruct current, a; try done.
Qed.

(** X1: refining an action by the actions of the children keeps it exactly
    when every child is NoOp or that same action, and gives Update as soon
    as one child is anything else. *)
Theorem refine_characterised (current : plans.Action)
    (children : list plans.Action) :
  refine current children
  = if forallb (fun a => plans.eqb a plans.NoOp || plans.eqb a current)
         children
    then current else plans.Update.
Proof. apply refine_forallb. Qed.

(** X2: a collection whose two sides are present (or both absent) is NoOp
    exactly when all its children are; any other child action makes it
    Update, never Create or Delete. *)
Theorem refine_default_present {R} (c : Change R)
    (children : list plans.Action) :
  is_nil (Before c) = is_nil (After c) ->
  (refine (getDefaultActionForIteration c) children = plans.NoOp
   <-> Forall (fun a => a = plans.NoOp) children)
  /\ (refine (getDefaultActionForIteration c) children = plans.Update
      <-> ~ Forall (fun a => a = plans.NoOp) children).
Proof.
  intros Hnil.
  assert (Hd : getDefaultActionForIteration c = plans.NoOp).
  { unfold getDefaultActionForIteration. rewrite Hnil.
    by destruct (is_nil (After c)). }
  rewrite Hd, refine_forallb.
  assert (Hall : forallb (fun a => plans.eqb a plans.NoOp
                                   || plans.eqb a plans.NoOp) children = true
                 <-> Forall (fun a => a = plans.NoOp) children).
  { rewrite forallb_forall, Forall_forall. split; intros H a Ha.
    - apply list_elem_of_In in Ha. specialize (H a Ha).
      apply plans_eqb_eq. by destruct (plans.eqb a plans.NoOp).
    - apply list_elem_of_In in Ha. rewrite (H a Ha). done. }
  destruct (forallb _ children).
  - split; split; try done.
    + intros _. by apply Hall.
    + intros Hn. destruct Hn. by apply Hall.
  - split; split; try done.
    + intros H. apply Hall in H. done.
    + intros _ H. apply Hall in H. done.
Qed.

(** ** The two sides of a change *)

Lemma SFeqb_finite_true s1 m1 e1 s2 m2 e2 :
  SFeqb (S754_finite s1 m1 e1) (S754_finite s2 m2 e2) = true
  <-> s1 = s2 /\ m1 = m2 /\ e1 = e2.
Proof.
  unfold SFeqb, SFcompare.
  change (Pos.compare_cont Eq m1 m2) with (Pos.compare m1 m2).
  destruct (Z.compare_spec e1 e2) as [He|He|He],
           (Pos.compare_spec m1 m2) as [Hm|Hm|Hm], s1, s2;
    simpl; split; intros Heq; try done;
    try (destruct Heq as (? & ? & ?); subst; lia).
  all: by subst.
Qed.

Lemma SFcompare_finite_sym s1 m1 e1 s2 m2 e2 :
  SFeqb (S754_finite s1 m1 e1) (S754_finite s2 m2 e2)
  = SFeqb (S754_finite s2 m2 e2) (S754_finite s1 m1 e1).
Proof.
  apply eq_true_iff_eq. rewrite !SFeqb_finite_true. intuition congruence.
Qed.

Lemma SFeqb_sym f g : SFeqb f g = SFeqb g f.
Proof.
  destruct f as [s1|s1| |s1 m1 e1], g as [s2|s2| |s2 m2 e2];
    first [ apply SFcompare_finite_sym
          | done
          | by destruct s1, s2
          | by destruct s1
          | by destruct s2 ].
Qed.

Lemma DeepEqual_elems_sym (l1 l2 : list value) :
  Forall (fun a => forall b, DeepEqual a b = DeepEqual b a) l1 ->
  DeepEqual_elems l1 l2 = DeepEqual_elems l2 l1.
Proof.
  intros H. revert l2.
  induction H as [|a l1 Ha _ IH]; intros [|b l2]; simpl; try done.
  by rewrite Ha, IH.
Qed.

Lemma DeepEqual_keys_Forall (m2 m : list (string * value)) :
  DeepEqual_keys m2 m = true
  <-> Forall (fun kv => exists v2, MapIndex m2 kv.1 = Some v2
                                   /\ DeepEqual kv.2 v2 = true) m.
Proof.
  induction m as [|[k v] m IH]; simpl.
  - split; [constructor | done].
  - rewrite andb_true_iff, IH, Forall_cons. simpl.
    split; intros [H1 H2]; (split; [|done]).
    + destruct (MapIndex m2 k) as [v2|]; [by exists v2 | done].
    + destruct H1 as (v2 & -> & H). done.
Qed.

Lemma MapIndex_elem_of (m : list (string * value)) k v :
  MapIndex m k = Some v -> (k, v) ∈ m.
Proof.
  induction m as [|[k' v'] m IH]; simpl; [done|].
  destruct (String.eqb k' k) eqn:E.
  - apply String.eqb_eq in E as ->. intros [= ->]. by left.
  - intros H. right. by apply IH.
Qed.

(** One direction for maps with unique keys and as many entries: if every
    entry of the first has a deeply equal partner under its key in the
    second, then so has every entry of the second in the first. *)
Lemma DeepEqual_keys_flip (m1 m2 : list (string * value)) :
  uniq (map fst m1) = true -> uniq (map fst m2) = true ->
  length m1 = length m2 ->
  (forall k v1 v2, (k, v1) ∈ m1 -> (k, v2) ∈ m2 ->
                   DeepEqual v1 v2 = DeepEqual v2 v1) ->
  DeepEqual_keys m2 m1 = true -> DeepEqual_keys m1 m2 = true.
Proof.
  intros Hu1 Hu2 Hlen Hsym H12.
  rewrite DeepEqual_keys_Forall, Forall_forall in H12.
  apply DeepEqual_keys_Forall, Forall_forall. intros [k v2] Hin2. simpl.
  assert (Hperm : m1.*1 ≡ₚ m2.*1).
  { apply submseteq_length_Permutation.
    - apply NoDup_submseteq; [by apply uniq_NoDup|].
      intros k' Hk'. apply list_elem_of_fmap in Hk' as ([k'' v1] & -> & Hin1).
      destruct (H12 _ Hin1) as (v & Hv & _). simpl in Hv.
      apply MapIndex_elem_of in Hv.
      apply list_elem_of_fmap. by exists (k'', v).
    - rewrite !length_fmap. lia. }
  assert (Hk : k ∈ m1.*1).
  { rewrite Hperm. apply list_elem_of_fmap. by exists (k, v2). }
  apply list_elem_of_fmap in Hk as ([k' v1] & Heq & Hin1). simpl in Heq.
  subst k'. exists v1. split; [by apply MapIndex_uniq|].
  destruct (H12 _ Hin1) as (v & Hv & Hd). simpl in *.
  rewrite (MapIndex_uniq m2 k v2 Hu2 Hin2) in Hv. injection Hv as <-.
  by rewrite <- (Hsym k v1 v2).
Qed.

(** [reflect.DeepEqual] is symmetric on what [json.Unmarshal] produces. *)
Lemma DeepEqual_sym a b :
  decoded a = true -> decoded b = true -> DeepEqual a b = DeepEqual b a.
Proof.
  revert b.
  induction a as [| x | f | s | l IH | m IH] using value_ind;
    intros b Ha Hb; destruct b as [| y | g | t | l' | m']; try done.
  - simpl. by destruct x, y.
  - simpl. apply SFeqb_sym.
  - simpl. apply String.eqb_sym.
  - rewrite !DeepEqual_JSlice. simpl in Ha, Hb.
    revert l' Hb. induction IH as [|a l Hx _ IHl]; intros [|b l'] Hb;
      simpl in *; try done.
    apply andb_true_iff in Ha as [Ha1 Ha2].
    apply andb_true_iff in Hb as [Hb1 Hb2].
    rewrite Hx by done. f_equal. by apply IHl.
  - rewrite !DeepEqual_JMap. simpl in Ha, Hb.
    apply andb_true_iff in Ha as [Hu1 Hd1].
    apply andb_true_iff in Hb as [Hu2 Hd2].
    rewrite (Nat.eqb_sym (length m') (length m)).
    destruct (Nat.eqb (length m) (length m')) eqn:Hlen; [|done]. simpl.
    apply Nat.eqb_eq in Hlen.
    rewrite forallb_forall in Hd1, Hd2. rewrite Forall_forall in IH.
    assert (Hsym12 : forall k v1 v2, (k, v1) ∈ m -> (k, v2) ∈ m' ->
                                     DeepEqual v1 v2 = DeepEqual v2 v1).
    { intros k v1 v2 Hin1 Hin2. apply (IH (k, v1) Hin1).
      - apply (Hd1 (k, v1)). by apply list_elem_of_In.
      - apply (Hd2 (k, v2)). by apply list_elem_of_In. }
    apply eq_true_iff_eq. split; intros H.
    + apply (DeepEqual_keys_flip m m'); try done.
    + apply (DeepEqual_keys_flip m' m); try done.
      intros k v1 v2 Hin1 Hin2. symmetry. by apply (Hsym12 k).
Qed.

Section SidesFacts.

Context {R : Type}.
Variable isBefore isAfter : Change R -> bool.

(** X3: reading a change backwards mirrors its action: Create becomes
    Delete, Delete becomes Create, NoOp and Update stay.  The values are
    those [json.Unmarshal] produces, and the two sensitivity methods are
    assumed to look at their own side. *)
Theorem calculateChange_swap_sides (c : Change R) :
  decoded (Before c) = true -> decoded (After c) = true ->
  isBefore (swap_sides c) = isAfter c ->
  isAfter (swap_sides c) = isBefore c ->
  calculateChange isBefore isAfter (swap_sides c)
  = mirror (calculateChange isBefore isAfter c).
Proof.
  intros Hb Ha Hsb Hsa. unfold calculateChange. rewrite Hsb, Hsa. simpl.
  rewrite (DeepEqual_sym (After c) (Before c)) by done.
  destruct (is_nil (Before c)) eqn:Enb, (is_nil (After c)) eqn:Ena,
    (BeforeExplicit c), (AfterExplicit c); simpl; try done;
    destruct (DeepEqual (Before c) (After c)); simpl; try done;
    destruct (isBefore c), (isAfter c); done.
Qed.

End SidesFacts.

Section DecodingFacts.

Context {R : Type}.
Variable Unmarshal : string -> option value.
Variable Parse : option string -> R.
Variable isBefore isAfter : Change R -> bool.


(** X4: a change read from the JSON plan has both explicit flags unset, so
    its action is Create exactly when only the after value is present and
    Delete exactly when only the before value is present; a nil message
    gives an absent value. *)
Theorem ValueFromJsonChange_actions (change : jsonplan_Change) (c : Change R) :
  ValueFromJsonChange Unmarshal Parse change = Some c ->
  (jsonplan_Before change = None -> Before c = JNil)
  /\ (jsonplan_After change = None -> After c = JNil)
  /\ (calculateChange isBefore isAfter c = plans.Create
      <-> Before c = JNil /\ After c <> JNil)
  /\ (calculateChange isBefore isAfter c = plans.Delete
      <-> Before c <> JNil /\ After c = JNil).
Proof.
  unfold ValueFromJsonChange. intros H.
  destruct (unmarshalGeneric Unmarshal (jsonplan_Before change))
    as [before|] eqn:Eb; [|done].
  destruct (unmarshalGeneric Unmarshal (jsonplan_After change))
    as [after|] eqn:Ea; [|done].
  destruct (unmarshalGeneric Unmarshal (jsonplan_AfterUnknown change));
    [|done].
  destruct (unmarshalGeneric Unmarshal (jsonplan_BeforeSensitive change));
    [|done].
  destruct (unmarshalGeneric Unmarshal (jsonplan_AfterSensitive change));
    [|done].
  simpl in H. injection H as <-. unfold calculateChange. simpl.
  split; [|split; [|split]].
  - intros Hn. rewrite Hn in Eb. simpl in Eb. congruence.
  - intros Hn. rewrite Hn in Ea. simpl in Ea. congruence.
  - rewrite <- (is_nil_true before), <- (is_nil_true after).
    destruct (is_nil before), (is_nil after); simpl;
      repeat match goal with
             | |- context [if ?b then _ else _] => destruct b
             end; split; intros Hx; try done;
      destruct Hx; congruence.
  - rewrite <- (is_nil_true before), <- (is_nil_true after).
    destruct (is_nil before), (is_nil after); simpl;
      repeat match goal with
             | |- context [if ?b then _ else _] => destruct b
             end; split; intros Hx; try done;
      destruct Hx; congruence.
Qed.


End DecodingFacts.

(** ** Invariants of the loop of [Test] *)

Lemma deliver_Cancelled_false i s :
  Cancelled (deliver i s) = false -> Cancelled s = false /\ cancel i = false.
Proof. unfold deliver. destruct (stop i), (cancel i), s as [? []]; done. Qed.

Lemma deliver_Stopped_false i s :
  Stopped (deliver i s) = false -> Stopped s = false /\ stop i = false.
Proof. unfold deliver. destruct (stop i), (cancel i), s as [[] ?]; done. Qed.

Lemma with_Status_same (r : moduletest.Run) :
  with_Status (moduletest.Run_Status r) r = r.
Proof. by destruct r. Qed.

Lemma with_Status_twice s s' (r : moduletest.Run) :
  with_Status s (with_Status s' r) = with_Status s r.
Proof. done. Qed.

Section RunnerInvariants.

Context {State : Type}.
Variable NewState : State.
Variable Empty : State -> bool.
Variable Merge : moduletest.Status -> moduletest.Status -> moduletest.Status.
Variable arrive : moduletest.Run -> Interrupts.
Variable execute : moduletest.Run -> State -> Outcome (State := State).
Variable teardown : moduletest.Run -> State -> Destroyed (State := State).
Variable transform_fails : moduletest.Run -> bool.

Abbreviation iteration' := (Test_iteration NewState Merge arrive execute).
Abbreviation loop' := (Test_loop NewState Merge arrive execute).

Lemma run_frame (runner : TestFileRunner) r st runner' r' st' updated :
  run execute runner r st = (runner', r', st', updated) ->
  same_block r r'
  /\ RelevantStates runner' = RelevantStates runner
  /\ (Stopped (Suite runner) = true -> Stopped (Suite runner') = true)
  /\ (Cancelled (Suite runner) = true -> Cancelled (Suite runner') = true)
  /\ exists evs,
       Trace runner' = Trace runner ++ evs
       /\ ((evs = []
            /\ (Stopped (Suite runner) = true
                \/ Cancelled (Suite runner) = true))
           \/ (evs = [ViewRun (moduletest.Run_Name r) moduletest.Starting;
                      Operation (moduletest.Run_Name r)]
               /\ Stopped (Suite runner) = false
               /\ Cancelled (Suite runner) = false)).
Proof.
  unfold run, same_block.
  destruct (Cancelled (Suite runner)) eqn:Ec.
  { intros [= <- <- <- <-]. rewrite with_Status_same.
    repeat split; try done. exists []. rewrite app_nil_r.
    split; [done|]. left. split; [done | by right]. }
  destruct (Stopped (Suite runner)) eqn:Es.
  { intros [= <- <- <- <-].
    repeat split; try done. exists []. rewrite app_nil_r.
    split; [done|]. left. split; [done | by left]. }
  intros [= <- <- <- <-]. simpl.
  repeat split; try done. eexists. split; [reflexivity|]. by right.
Qed.

Lemma Test_execute_frame (runner : TestFileRunner) fileStatus r key
    runner' fileStatus' r' returned :
  Test_execute Merge execute runner fileStatus r key
  = Some (runner', fileStatus', r', returned) ->
  returned = false
  /\ fileStatus' = Merge fileStatus (moduletest.Run_Status r')
  /\ exists evs, step_frame runner runner' r r' evs
       /\ (Stopped (Suite runner) = false ->
           Cancelled (Suite runner) = false ->
           List.filter is_Operation evs
           = [Operation (moduletest.Run_Name r)]).
Proof.
  unfold Test_execute.
  destruct (RelevantStates runner !! key) as [relevant|]; [|done]. simpl.
  destruct (run execute runner r (TestFileState_State relevant))
    as [[[rn1 r1] st1] upd] eqn:Hrun.
  apply run_frame in Hrun as (Hb & Hrs & Hs & Hc & evs & Htr & Hevs).
  intros [= <- <- <- <-]. split; [done|]. split; [done|].
  exists (evs ++ [ViewRun (moduletest.Run_Name r1) moduletest.Complete]).
  split.
  - split.
    + done.
    + destruct upd; simpl; rewrite Htr; by rewrite app_assoc.
    + rewrite List.filter_app. simpl. rewrite app_nil_r.
      destruct Hevs as [[-> _] | [-> _]]; [by left | by right].
    + intros k Hk. destruct upd; simpl; [|by rewrite Hrs].
      rewrite Hrs. destruct (decide (key = k)) as [->|Hne].
      * rewrite lookup_insert_eq. eauto.
      * by rewrite lookup_insert_ne.
    + destruct upd; simpl; done.
    + destruct upd; simpl; done.
  - intros Hs0 Hc0. rewrite List.filter_app. simpl. rewrite app_nil_r.
    destruct Hevs as [[_ [?|?]] | [-> _]]; [congruence..|done].
Qed.

Lemma step_frame_before
    (runner runner1 runner' : TestFileRunner (State := State)) r r' evs :
  Trace runner1 = Trace runner ->
  (forall key, is_Some (RelevantStates runner !! key) ->
               is_Some (RelevantStates runner1 !! key)) ->
  (Stopped (Suite runner) = true -> Stopped (Suite runner1) = true) ->
  (Cancelled (Suite runner) = true -> Cancelled (Suite runner1) = true) ->
  step_frame runner1 runner' r r' evs ->
  step_frame runner runner' r r' evs.
Proof.
  intros Htr Hk Hs Hc [Hb Ht Ho Hk' Hs' Hc']. split; auto.
  by rewrite Ht, Htr.
Qed.

Lemma Test_iteration_frame (runner : TestFileRunner) fileStatus r
    runner' fileStatus' r' returned :
  iteration' runner fileStatus r = Some (runner', fileStatus', r', returned) ->
  exists evs,
    step_frame runner runner' r r' evs
    /\ (returned = true ->
        r' = r /\ evs = [] /\ Cancelled (Suite runner') = true)
    /\ (Stopped (Suite runner') = false ->
        Cancelled (Suite runner') = false ->
        fileStatus' <> moduletest.Error ->
        returned = false /\ fileStatus <> moduletest.Error
        /\ List.filter is_Operation evs
           = [Operation (moduletest.Run_Name r)]).
Proof.
  unfold Test_iteration.
  set (rn0 := interrupt (arrive r) runner).
  assert (Hpre : forall rn' r' evs,
            step_frame rn0 rn' r r' evs -> step_frame runner rn' r r' evs).
  { intros rn' r0 evs. apply step_frame_before; try done.
    - simpl. apply deliver_Stopped.
    - simpl. apply deliver_Cancelled. }
  destruct (Cancelled (Suite rn0)) eqn:Ec.
  { intros [= <- <- <- <-]. exists []. split; [|split].
    - apply Hpre. split; try done.
      + unfold same_block. by rewrite with_Status_same.
      + by rewrite app_nil_r.
      + by left.
    - done.
    - congruence. }
  destruct (Stopped (Suite rn0)) eqn:Es.
  { intros [= <- <- <- <-]. eexists. split; [|split].
    - apply Hpre. split; try done. by left.
    - done.
    - intros Hs. simpl in Hs. unfold rn0 in Es. simpl in Es. congruence. }
  destruct (moduletest.eqb fileStatus moduletest.Error) eqn:Ef.
  { intros [= <- <- <- <-]. eexists. split; [|split].
    - apply Hpre. split; try done. by left.
    - done.
    - intros _ _ Hne. apply moduletest_eqb_eq in Ef. done. }
  assert (Hfs : fileStatus <> moduletest.Error).
  { intros ->. done. }
  assert (Hexec : forall rn1 key,
    Trace rn1 = Trace rn0 ->
    (forall k, is_Some (RelevantStates rn0 !! k) ->
               is_Some (RelevantStates rn1 !! k)) ->
    Suite rn1 = Suite rn0 ->
    Test_execute Merge execute rn1 fileStatus r key
    = Some (runner', fileStatus', r', returned) ->
    exists evs,
      step_frame runner runner' r r' evs
      /\ (returned = true ->
          r' = r /\ evs = [] /\ Cancelled (Suite runner') = true)
      /\ (Stopped (Suite runner') = false ->
          Cancelled (Suite runner') = false ->
          fileStatus' <> moduletest.Error ->
          returned = false /\ fileStatus <> moduletest.Error
          /\ List.filter is_Operation evs
             = [Operation (moduletest.Run_Name r)])).
  { intros rn1 key Htr Hk Hsu Hex.
    apply Test_execute_frame in Hex as (-> & -> & evs & Hfr & Hops).
    exists evs. split; [|split].
    - apply Hpre. eapply step_frame_before; [done|done| | |done];
        by rewrite Hsu.
    - done.
    - intros _ _ _. split; [done|]. split; [done|].
      apply Hops; by rewrite Hsu. }
  destruct (moduletest.Run_ConfigUnderTest r) as [key|];
    [|by apply Hexec].
  destruct (String.eqb key MainStateIdentifier).
  { intros [= <- <- <- <-]. exists []. split; [|split].
    - apply Hpre. split; try done.
      + by rewrite app_nil_r.
      + by left.
    - done.
    - done. }
  destruct (RelevantStates rn0 !! key) eqn:Ek; apply Hexec; try done.
  simpl. intros k Hk. destruct (decide (key = k)) as [->|Hne].
  - rewrite lookup_insert_eq. eauto.
  - by rewrite lookup_insert_ne.
Qed.

(** With the main state in place an iteration never dereferences nil. *)
Lemma Test_iteration_total (runner : TestFileRunner) fileStatus r :
  is_Some (RelevantStates runner !! MainStateIdentifier) ->
  is_Some (iteration' runner fileStatus r).
Proof.
  intros Hmain. unfold Test_iteration.
  set (rn0 := interrupt (arrive r) runner).
  destruct (Cancelled (Suite rn0)); [eauto|].
  destruct (Stopped (Suite rn0)); [eauto|].
  destruct (moduletest.eqb fileStatus moduletest.Error); [eauto|].
  assert (Hexec : forall rn1 key,
            is_Some (RelevantStates rn1 !! key) ->
            is_Some (Test_execute Merge execute rn1 fileStatus r key)).
  { intros rn1 key [relevant Hk]. unfold Test_execute. rewrite Hk. simpl.
    destruct (run execute rn1 r _) as [[[? ?] ?] ?]. eauto. }
  destruct (moduletest.Run_ConfigUnderTest r) as [key|];
    [|by apply Hexec].
  destruct (String.eqb key MainStateIdentifier); [eauto|].
  destruct (RelevantStates rn0 !! key) eqn:Ek; apply Hexec.
  - rewrite Ek. eauto.
  - simpl. rewrite lookup_insert_eq. eauto.
Qed.

Lemma Test_total (runner : TestFileRunner) (file : moduletest.File) :
  is_Some (RelevantStates runner !! MainStateIdentifier) ->
  exists runner' file',
    Test NewState Merge arrive execute runner file = Some (runner', file')
    /\ is_Some (RelevantStates runner' !! MainStateIdentifier)
    /\ moduletest.File_Name file' = moduletest.File_Name file
    /\ length (moduletest.File_Runs file')
       = length (moduletest.File_Runs file).
Proof.
  intros Hmain. unfold Test.
  set (fs := if Nat.eqb _ 0 then _ else _). clearbody fs.
  assert (Hloop : forall runs (rn : TestFileRunner) fs0,
            is_Some (RelevantStates rn !! MainStateIdentifier) ->
            exists rn' fs' runs' ret,
              loop' rn fs0 runs = Some (rn', fs', runs', ret)
              /\ is_Some (RelevantStates rn' !! MainStateIdentifier)
              /\ length runs' = length runs).
  { induction runs as [|r runs IH]; intros rn fs0 Hm.
    - by exists rn, fs0, [], false.
    - rewrite Test_loop_cons.
      destruct (Test_iteration_total rn fs0 r Hm) as [[[[rn1 fs1] r1] ret] Hit].
      rewrite Hit.
      apply Test_iteration_frame in Hit as (evs & Hfr & _).
      pose proof (frame_keys _ _ _ _ _ Hfr _ Hm) as Hm1.
      destruct ret; [by exists rn1, fs1, (r1 :: runs), true|].
      destruct (IH rn1 fs1 Hm1) as (rn2 & fs2 & runs2 & ret2 & -> & Hm2 & Hl).
      exists rn2, fs2, (r1 :: runs2), ret2. simpl. by rewrite Hl. }
  destruct (Hloop (moduletest.File_Runs file) runner fs Hmain)
    as (rn' & fs' & runs' & ret & -> & Hm & Hl).
  simpl. by exists rn', (with_File runs' fs' file).
Qed.

(** X6: with the main state in place, as [TestSuiteRunner.Test] sets it up,
    [TestFileRunner.Test] never dereferences a missing state: it returns,
    and the main state is still there for [cleanup]. *)
Theorem Test_returns (runner : TestFileRunner) (file : moduletest.File) :
  is_Some (RelevantStates runner !! MainStateIdentifier) ->
  exists runner' file',
    Test NewState Merge arrive execute runner file = Some (runner', file')
    /\ is_Some (RelevantStates runner' !! MainStateIdentifier)
    /\ moduletest.File_Name file' = moduletest.File_Name file
    /\ length (moduletest.File_Runs file')
       = length (moduletest.File_Runs file).
Proof. apply Test_total. Qed.

Lemma same_block_refl r : same_block r r.
Proof. unfold same_block. by rewrite with_Status_same. Qed.

Lemma Test_loop_invariants (runs : list moduletest.Run)
    (runner : TestFileRunner) fileStatus runner' fileStatus' runs' returned :
  loop' runner fileStatus runs
  = Some (runner', fileStatus', runs', returned) ->
  exists evs,
    Trace runner' = Trace runner ++ evs
    /\ Forall2 same_block runs runs'
    /\ sublist (List.filter is_Operation evs) (operations_of runs)
    /\ (forall key, is_Some (RelevantStates runner !! key) ->
                    is_Some (RelevantStates runner' !! key))
    /\ (Stopped (Suite runner) = true -> Stopped (Suite runner') = true)
    /\ (Cancelled (Suite runner) = true -> Cancelled (Suite runner') = true)
    /\ (returned = true -> Cancelled (Suite runner') = true)
    /\ (Stopped (Suite runner') = false ->
        Cancelled (Suite runner') = false ->
        fileStatus' <> moduletest.Error ->
        returned = false /\ fileStatus <> moduletest.Error
        /\ List.filter is_Operation evs = operations_of runs).
Proof.
  revert runner fileStatus runner' fileStatus' runs' returned.
  induction runs as [|r runs IH]; intros rn fs rn' fs' runs' ret.
  - simpl. intros [= <- <- <- <-]. exists []. rewrite app_nil_r.
    repeat split; done.
  - rewrite Test_loop_cons.
    destruct (iteration' rn fs r) as [[[[rn1 fs1] r1] ret1]|] eqn:Hit;
      [|done].
    apply Test_iteration_frame in Hit
      as (evs1 & [Hb Htr Hops Hk Hs Hc] & Hret & Hclean).
    destruct ret1.
    + intros [= <- <- <- <-].
      destruct (Hret eq_refl) as (-> & -> & Hcan).
      exists []. rewrite app_nil_r in Htr. rewrite app_nil_r.
      repeat split; try done.
      * constructor; [apply same_block_refl|].
        apply Forall2_same_length_lookup. split; [done|].
        intros i x y Hx Hy. rewrite Hx in Hy. injection Hy as <-.
        apply same_block_refl.
      * apply sublist_nil_l.
      * congruence.
      * congruence.
      * congruence.
    + destruct (loop' rn1 fs1 runs) as [[[[rn2 fs2] runs2] ret2]|] eqn:Hl;
        [|done].
      intros [= <- <- <- <-].
      destruct (IH _ _ _ _ _ _ Hl)
        as (evs2 & Htr2 & Hb2 & Hsub & Hk2 & Hs2 & Hc2 & Hret2 & Hclean2).
      exists (evs1 ++ evs2).
      assert (Hsub1 : sublist (List.filter is_Operation evs1)
                        [Operation (moduletest.Run_Name r)]).
      { destruct Hops as [-> | ->]; [apply sublist_nil_l | done]. }
      split; [|split; [|split; [|split; [|split; [|split; [|split]]]]]].
      * rewrite Htr2, Htr. by rewrite app_assoc.
      * by constructor.
      * rewrite List.filter_app.
        change (operations_of (r :: runs))
          with ([Operation (moduletest.Run_Name r)] ++ operations_of runs).
        by apply sublist_app.
      * auto.
      * auto.
      * auto.
      * done.
      * intros Hs' Hc' Hf'.
        destruct (Hclean2 Hs' Hc' Hf') as (Hr2 & Hf1 & Hops2).
        assert (Hs1 : Stopped (Suite rn1) = false).
        { destruct (Stopped (Suite rn1)) eqn:E; [|done].
          rewrite Hs2 in Hs'; done. }
        assert (Hc1 : Cancelled (Suite rn1) = false).
        { destruct (Cancelled (Suite rn1)) eqn:E; [|done].
          rewrite Hc2 in Hc'; done. }
        destruct (Hclean Hs1 Hc1 Hf1) as (_ & Hf0 & Hops1).
        split; [done|]. split; [done|].
        by rewrite List.filter_app, Hops1, Hops2.
Qed.


(** X8: the loop of [Test] runs every run block at most once and in the
    order of the file: the operations it invokes are, in order, those of
    some of the run blocks. *)
Theorem Test_loop_at_most_once (runs : list moduletest.Run)
    (runner : TestFileRunner) fileStatus runner' fileStatus' runs' returned :
  loop' runner fileStatus runs
  = Some (runner', fileStatus', runs', returned) ->
  exists evs,
    Trace runner' = Trace runner ++ evs
    /\ sublist (List.filter is_Operation evs) (operations_of runs).
Proof.
  intros H. apply Test_loop_invariants in H as (evs & Htr & _ & Hsub & _).
  by exists evs.
Qed.

(** X9: if the loop of [Test] ends with the suite neither stopped nor
    cancelled and the file not in error, then it did not return early, the
    file was not in error to begin with, and every run block was run exactly
    once, in the order of the file. *)
Theorem Test_loop_clean (runs : list moduletest.Run)
    (runner : TestFileRunner) fileStatus runner' fileStatus' runs' returned :
  loop' runner fileStatus runs
  = Some (runner', fileStatus', runs', returned) ->
  Stopped (Suite runner') = false ->
  Cancelled (Suite runner') = false ->
  fileStatus' <> moduletest.Error ->
  returned = false
  /\ fileStatus <> moduletest.Error
  /\ exists evs,
       Trace runner' = Trace runner ++ evs
       /\ List.filter is_Operation evs = operations_of runs.
Proof.
  intros H Hs Hc Hf. apply Test_loop_invariants in H
    as (evs & Htr & _ & _ & _ & _ & _ & _ & Hclean).
  destruct (Hclean Hs Hc Hf) as (? & ? & ?).
  split; [done|]. split; [done|]. by exists evs.
Qed.

(** ** Invariants of [cleanup] *)

Lemma destroy_frame (runner : TestFileRunner) r st runner' st' :
  destroy Empty teardown runner r st = (runner', st') ->
  RelevantStates runner' = RelevantStates runner
  /\ (Stopped (Suite runner) = true -> Stopped (Suite runner') = true)
  /\ (Cancelled (Suite runner) = true -> Cancelled (Suite runner') = true)
  /\ exists evs,
       Trace runner' = Trace runner ++ evs
       /\ ((evs = [] /\ st' = st /\ Empty st = true
            /\ Suite runner' = Suite runner)
           \/ (evs = [ViewRun (moduletest.Run_Name r) moduletest.TearDown;
                      DestroyOperation (moduletest.Run_Name r)]
               /\ Empty st = false)).
Proof.
  unfold destroy. destruct (Empty st) eqn:E; intros [= <- <-].
  - repeat split; try done. exists []. rewrite app_nil_r.
    split; [done|]. by left.
  - simpl. split; [done|]. split; [apply deliver_Stopped|].
    split; [apply deliver_Cancelled|].
    eexists. split; [reflexivity|]. by right.
Qed.

Lemma insert_later_first_Permutation x (l : list (moduletest.Run * State)) :
  insert_later_first x l ≡ₚ x :: l.
Proof.
  induction l as [|y l IH]; simpl; [done|].
  destruct (_ <=? _); [done|]. rewrite IH. apply Permutation_swap.
Qed.

Lemma sort_later_first_Permutation (l : list (moduletest.Run * State)) :
  sort_later_first l ≡ₚ l.
Proof.
  induction l as [|x l IH]; simpl; [done|].
  unfold sort_later_first in *. simpl.
  by rewrite insert_later_first_Permutation, IH.
Qed.

Lemma insert_later_first_Sorted x (l : list (moduletest.Run * State)) :
  Sorted later_first l -> Sorted later_first (insert_later_first x l).
Proof.
  induction 1 as [|y l Hs IH Hhd]; simpl.
  - repeat constructor.
  - destruct (moduletest.Run_Index y.1 <=? moduletest.Run_Index x.1) eqn:E.
    + apply Nat.leb_le in E. repeat constructor; done.
    + apply Nat.leb_gt in E. constructor; [done|].
      destruct l as [|z l]; simpl in *.
      * constructor. unfold later_first. lia.
      * destruct (moduletest.Run_Index z.1 <=? moduletest.Run_Index x.1).
        -- constructor. unfold later_first. lia.
        -- constructor. by inversion Hhd.
Qed.

Lemma sort_later_first_Sorted (l : list (moduletest.Run * State)) :
  Sorted later_first (sort_later_first l).
Proof.
  induction l as [|x l IH]; [constructor|].
  by apply insert_later_first_Sorted.
Qed.

Lemma cleanup_states_frame (states : list (moduletest.Run * State))
    (runner : TestFileRunner) fileStatus runner' fileStatus' :
  cleanup_states Empty teardown transform_fails runner fileStatus states
  = (runner', fileStatus') ->
  RelevantStates runner' = RelevantStates runner
  /\ (fileStatus' = fileStatus \/ fileStatus' = moduletest.Error)
  /\ (Stopped (Suite runner) = true -> Stopped (Suite runner') = true)
  /\ (Cancelled (Suite runner) = true -> Cancelled (Suite runner') = true)
  /\ exists evs n,
       Trace runner' = Trace runner ++ evs
       /\ no_Operation evs
       /\ List.filter is_module_summary evs
          = (fun x => ViewDestroySummary (Some (moduletest.Run_Name x.1)))
              <$> take n states
       /\ (Cancelled (Suite runner') = false -> n = length states)
       /\ (forall name, DestroyOperation name ∈ evs ->
             exists r st, (r, st) ∈ states
                          /\ moduletest.Run_Name r = name
                          /\ Empty st = false
                          /\ transform_fails r = false).
Proof.
  revert runner fileStatus.
  induction states as [|[r st] states IH]; intros rn fs; simpl.
  - intros [= <- <-].
    split; [done|]. split; [by left|]. split; [done|]. split; [done|].
    exists [], 0. rewrite app_nil_r.
    split; [done|]. split; [constructor|]. split; [done|]. split; [done|].
    intros name Hin. by apply elem_of_nil in Hin.
  - destruct (Cancelled (Suite rn)) eqn:Ec.
    { intros [= <- <-].
      split; [done|]. split; [by left|]. split; [done|]. split; [done|].
      exists [], 0. rewrite app_nil_r.
      split; [done|]. split; [constructor|]. split; [done|].
      split; [congruence|].
      intros name Hin. by apply elem_of_nil in Hin. }
    destruct (if transform_fails r then (rn, st)
              else destroy Empty teardown rn r st) as [rn1 st1] eqn:Hd.
    intros Hrest. apply IH in Hrest
      as (Hrs & Hfs & Hs & Hc & evs & n & Htr & Hno & Hsum & Hn & Hops).
    simpl in *.
    assert (Hd' : RelevantStates rn1 = RelevantStates rn
                  /\ (Stopped (Suite rn) = true -> Stopped (Suite rn1) = true)
                  /\ (Cancelled (Suite rn) = true ->
                      Cancelled (Suite rn1) = true)
                  /\ exists evs1,
                       Trace rn1 = Trace rn ++ evs1
                       /\ no_Operation evs1
                       /\ List.filter is_module_summary evs1 = []
                       /\ (forall name, DestroyOperation name ∈ evs1 ->
                             moduletest.Run_Name r = name
                             /\ Empty st = false
                             /\ transform_fails r = false)).
    { destruct (transform_fails r) eqn:Et.
      - injection Hd as <- <-.
        split; [done|]. split; [done|]. split; [done|].
        exists []. rewrite app_nil_r.
        split; [done|]. split; [constructor|]. split; [done|].
        intros name Hin. by apply elem_of_nil in Hin.
      - apply destroy_frame in Hd as (? & ? & ? & evs1 & ? & Hevs).
        split; [done|]. split; [done|]. split; [done|].
        exists evs1. split; [done|].
        destruct Hevs as [(-> & _) | (-> & HE)].
        + split; [constructor|]. split; [done|].
          intros name Hin. by apply elem_of_nil in Hin.
        + split; [by repeat constructor|]. split; [done|].
          intros name Hin. apply elem_of_cons in Hin as [Hin|Hin]; [done|].
          apply elem_of_cons in Hin as [Hin|Hin];
            [|by apply elem_of_nil in Hin].
          by injection Hin as ->. }
    destruct Hd' as (Hrs1 & Hs1 & Hc1 & evs1 & Htr1 & Hno1 & Hsum1 & Hops1).
    split; [congruence|]. split.
    { destruct Hfs as [-> | ->]; [|by right].
      destruct (negb (Empty st1)); [by right | by left]. }
    split; [intros ?; by apply Hs, Hs1|].
    split; [intros ?; by apply Hc, Hc1|].
    exists (evs1 ++ ViewDestroySummary (Some (moduletest.Run_Name r)) :: evs),
           (S n).
    split; [|split; [|split; [|split]]].
    + rewrite Htr, Htr1. by rewrite <- !app_assoc.
    + apply Forall_app. split; [done|]. by constructor.
    + rewrite List.filter_app, Hsum1. simpl. by rewrite Hsum.
    + intros Hcf. by rewrite Hn.
    + intros name Hin. apply elem_of_app in Hin as [Hin|Hin].
      * destruct (Hops1 name Hin) as (? & ? & ?).
        exists r, st. split; [by left | done].
      * apply elem_of_cons in Hin as [Hin|Hin]; [done|].
        destruct (Hops name Hin) as (r' & st' & ? & ?).
        exists r', st'. split; [by right | done].
Qed.

Lemma cleanup_collect_frame (entries : list (string * TestFileState))
    (runner : TestFileRunner) fileStatus runner' fileStatus' states :
  cleanup_collect Empty runner fileStatus entries
  = (runner', fileStatus', states) ->
  RelevantStates runner' = RelevantStates runner
  /\ Suite runner' = Suite runner
  /\ (fileStatus' = fileStatus \/ fileStatus' = moduletest.Error)
  /\ (exists evs,
        Trace runner' = Trace runner ++ evs
        /\ Forall (fun e => e = ViewDestroySummary None) evs)
  /\ (forall r st, (r, st) ∈ states ->
        exists key s, (key, s) ∈ entries
                      /\ TestFileState_Run s = Some r
                      /\ TestFileState_State s = st).
Proof.
  revert runner fileStatus runner' fileStatus' states.
  induction entries as [|[key s] entries IH];
    intros rn fs rn' fs' states; simpl.
  - intros [= <- <- <-].
    split; [done|]. split; [done|]. split; [by left|].
    split; [exists []; by rewrite app_nil_r|].
    intros r st Hin. by apply elem_of_nil in Hin.
  - assert (Hskip : cleanup_collect Empty rn fs entries = (rn', fs', states) ->
      RelevantStates rn' = RelevantStates rn
      /\ Suite rn' = Suite rn
      /\ (fs' = fs \/ fs' = moduletest.Error)
      /\ (exists evs,
            Trace rn' = Trace rn ++ evs
            /\ Forall (fun e => e = ViewDestroySummary None) evs)
      /\ (forall r st, (r, st) ∈ states ->
            exists key' s', (key', s') ∈ (key, s) :: entries
                            /\ TestFileState_Run s' = Some r
                            /\ TestFileState_State s' = st)).
    { intros H. apply IH in H as (? & ? & ? & ? & Hst).
      split; [done|]. split; [done|]. split; [done|]. split; [done|].
      intros r st Hin. destruct (Hst r st Hin) as (k' & s' & ? & ?).
      exists k', s'. split; [by right | done]. }
    destruct (String.eqb key MainStateIdentifier); [done|].
    destruct (TestFileState_Run s) as [r0|] eqn:Er.
    + destruct (cleanup_collect Empty rn fs entries)
        as [[rn1 fs1] states1] eqn:Hc.
      intros [= <- <- <-].
      apply IH in Hc as (? & ? & ? & ? & Hst).
      split; [done|]. split; [done|]. split; [done|]. split; [done|].
      intros r st Hin. apply elem_of_cons in Hin as [[= -> ->]|Hin].
      * exists key, s. split; [by left | done].
      * destruct (Hst r st Hin) as (k' & s' & ? & ?).
        exists k', s'. split; [by right | done].
    + destruct (Empty (TestFileState_State s)); [done|].
      intros H. apply IH in H as (Hrs & Hsu & Hfs & (evs & Htr & Hev) & Hst).
      simpl in *.
      split; [done|]. split; [done|]. split.
      { destruct Hfs as [-> | ->]; by right. }
      split.
      { exists (ViewDestroySummary None :: evs).
        split; [by rewrite Htr, <- app_assoc | by constructor]. }
      intros r st Hin. destruct (Hst r st Hin) as (k' & s' & ? & ?).
      exists k', s'. split; [by right | done].
Qed.

Lemma no_Operation_summaries (evs : list Event) :
  Forall (fun e => e = ViewDestroySummary None) evs -> no_Operation evs.
Proof. intros H. eapply Forall_impl; [exact H|]. by intros e ->. Qed.

Lemma cleanup_invariants (runner : TestFileRunner) (file : moduletest.File)
    runner' file' :
  cleanup Empty teardown transform_fails runner file = Some (runner', file') ->
  moduletest.File_Name file' = moduletest.File_Name file
  /\ moduletest.File_Runs file' = moduletest.File_Runs file
  /\ (moduletest.File_Status file' = moduletest.File_Status file
      \/ moduletest.File_Status file' = moduletest.Error)
  /\ RelevantStates runner' = RelevantStates runner
  /\ (Stopped (Suite runner) = true -> Stopped (Suite runner') = true)
  /\ (Cancelled (Suite runner) = true -> Cancelled (Suite runner') = true)
  /\ exists evs,
       Trace runner' = Trace runner ++ evs
       /\ no_Operation evs
       /\ (forall name, DestroyOperation name ∈ evs ->
             exists key s r,
               RelevantStates runner !! key = Some s
               /\ TestFileState_Run s = Some r
               /\ moduletest.Run_Name r = name
               /\ Empty (TestFileState_State s) = false
               /\ transform_fails r = false).
Proof.
  unfold cleanup. destruct (Cancelled (Suite runner)) eqn:Ec.
  { intros [= <- <-].
    split; [done|]. split; [done|]. split; [by left|]. split; [done|].
    split; [done|]. split; [done|].
    exists []. rewrite app_nil_r. split; [done|]. split; [constructor|].
    intros name Hin. by apply elem_of_nil in Hin. }
  destruct (RelevantStates runner !! MainStateIdentifier) as [main|] eqn:Em;
    [|done]. simpl.
  destruct (match TestFileState_Run main with
            | Some r =>
                if transform_fails r then (runner, TestFileState_State main)
                else destroy Empty teardown runner r (TestFileState_State main)
            | None => (runner, TestFileState_State main)
            end) as [rn1 updated] eqn:Hmain.
  assert (H1 : RelevantStates rn1 = RelevantStates runner
               /\ (Stopped (Suite runner) = true -> Stopped (Suite rn1) = true)
               /\ (Cancelled (Suite runner) = true ->
                   Cancelled (Suite rn1) = true)
               /\ exists evs1,
                    Trace rn1 = Trace runner ++ evs1
                    /\ no_Operation evs1
                    /\ (forall name, DestroyOperation name ∈ evs1 ->
                          exists r, TestFileState_Run main = Some r
                                    /\ moduletest.Run_Name r = name
                                    /\ Empty (TestFileState_State main) = false
                                    /\ transform_fails r = false)).
  { assert (Hsame : (rn1, updated) = (runner, TestFileState_State main) ->
                    RelevantStates rn1 = RelevantStates runner
                    /\ (Stopped (Suite runner) = true ->
                        Stopped (Suite rn1) = true)
                    /\ (Cancelled (Suite runner) = true ->
                        Cancelled (Suite rn1) = true)
                    /\ exists evs1,
                         Trace rn1 = Trace runner ++ evs1
                         /\ no_Operation evs1
                         /\ (forall name, DestroyOperation name ∈ evs1 ->
                               exists r, TestFileState_Run main = Some r
                                         /\ moduletest.Run_Name r = name
                                         /\ Empty (TestFileState_State main)
                                            = false
                                         /\ transform_fails r = false)).
    { intros [= -> ->].
      split; [done|]. split; [done|]. split; [done|].
      exists []. rewrite app_nil_r. split; [done|]. split; [constructor|].
      intros name Hin. by apply elem_of_nil in Hin. }
    destruct (TestFileState_Run main) as [r|] eqn:Er; [|by apply Hsame].
    destruct (transform_fails r) eqn:Et; [by apply Hsame|].
    apply destroy_frame in Hmain as (? & ? & ? & evs1 & ? & Hevs).
    split; [done|]. split; [done|]. split; [done|].
    exists evs1. split; [done|].
    destruct Hevs as [(-> & _) | (-> & HE)].
    - split; [constructor|]. intros name Hin. by apply elem_of_nil in Hin.
    - split; [by repeat constructor|].
      intros name Hin. apply elem_of_cons in Hin as [Hin|Hin]; [done|].
      apply elem_of_cons in Hin as [Hin|Hin]; [|by apply elem_of_nil in Hin].
      injection Hin as ->. by exists r. }
  clear Hmain.
  destruct H1 as (Hrs1 & Hs1 & Hc1 & evs1 & Htr1 & Hno1 & Hops1).
  set (fs1 := if negb (Empty updated) then moduletest.Error
              else moduletest.File_Status file).
  assert (Hfs1 : fs1 = moduletest.File_Status file \/ fs1 = moduletest.Error).
  { unfold fs1. destruct (negb (Empty updated)); [by right | by left]. }
  clearbody fs1.
  set (summary := ViewDestroySummary
                    (moduletest.Run_Name <$> TestFileState_Run main)).
  assert (Hmainops : forall name, DestroyOperation name ∈ evs1 ->
            exists key s r,
              RelevantStates runner !! key = Some s
              /\ TestFileState_Run s = Some r
              /\ moduletest.Run_Name r = name
              /\ Empty (TestFileState_State s) = false
              /\ transform_fails r = false).
  { intros name Hin. destruct (Hops1 name Hin) as (r & ? & ? & ? & ?).
    by exists MainStateIdentifier, main, r. }
  simpl. destruct (Cancelled (Suite rn1)) eqn:Ec1.
  { intros [= <- <-]. simpl.
    split; [done|]. split; [done|]. split; [done|]. split; [done|].
    split; [done|]. split; [done|].
    exists (evs1 ++ [summary]).
    split; [by rewrite Htr1, <- app_assoc|].
    split; [apply Forall_app; split; [done | by repeat constructor]|].
    intros name Hin. apply elem_of_app in Hin as [Hin|Hin]; [by apply Hmainops|].
    apply elem_of_cons in Hin as [Hin|Hin]; [done | by apply elem_of_nil in Hin]. }
  destruct (cleanup_collect Empty (emit [summary] rn1) fs1
              (map_to_list (RelevantStates rn1)))
    as [[rn2 fs2] states] eqn:Hcol.
  apply cleanup_collect_frame in Hcol
    as (Hrs2 & Hsu2 & Hfs2 & (evs2 & Htr2 & Hev2) & Hst).
  destruct (cleanup_states Empty teardown transform_fails rn2 fs2
              (sort_later_first states)) as [rn3 fs3] eqn:Hstates.
  apply cleanup_states_frame in Hstates
    as (Hrs3 & Hfs3 & Hs3 & Hc3 & evs3 & n & Htr3 & Hno3 & _ & _ & Hops3).
  intros [= <- <-]. simpl in *.
  split; [done|]. split; [done|]. split.
  { destruct Hfs3 as [-> | ->]; [|by right].
    destruct Hfs2 as [-> | ->]; [done | by right]. }
  split; [congruence|].
  split; [intros ?; apply Hs3; rewrite Hsu2; by apply Hs1|].
  split; [intros ?; congruence|].
  exists (evs1 ++ [summary] ++ evs2 ++ evs3).
  split; [rewrite Htr3, Htr2, Htr1; by rewrite <- !app_assoc|].
  split.
  { apply Forall_app. split; [done|]. constructor; [done|].
    apply Forall_app. split; [by apply no_Operation_summaries | done]. }
  intros name Hin. apply elem_of_app in Hin as [Hin|Hin]; [by apply Hmainops|].
  apply elem_of_cons in Hin as [Hin|Hin]; [done|].
  apply elem_of_app in Hin as [Hin|Hin].
  { rewrite Forall_forall in Hev2. by specialize (Hev2 _ Hin). }
  destruct (Hops3 name Hin) as (r & st & Hrst & ? & ? & ?).
  rewrite sort_later_first_Permutation in Hrst.
  destruct (Hst r st Hrst) as (key & s & Hks & ? & <-).
  apply elem_of_map_to_list in Hks. rewrite Hrs1 in Hks.
  by exists key, s, r.
Qed.

(** X10: [cleanup] leaves the run blocks and the recorded states as they
    are, invokes no operation of a run block, only ever sets the interrupt
    flags, and can change the status of the file in one way only: to
    Error. *)
Theorem cleanup_frame (runner : TestFileRunner) (file : moduletest.File)
    runner' file' :
  cleanup Empty teardown transform_fails runner file = Some (runner', file') ->
  moduletest.File_Name file' = moduletest.File_Name file
  /\ moduletest.File_Runs file' = moduletest.File_Runs file
  /\ (moduletest.File_Status file' = moduletest.File_Status file
      \/ moduletest.File_Status file' = moduletest.Error)
  /\ RelevantStates runner' = RelevantStates runner
  /\ (Stopped (Suite runner) = true -> Stopped (Suite runner') = true)
  /\ (Cancelled (Suite runner) = true -> Cancelled (Suite runner') = true)
  /\ exists evs, Trace runner' = Trace runner ++ evs /\ no_Operation evs.
Proof.
  intros H. apply cleanup_invariants in H
    as (? & ? & ? & ? & ? & ? & evs & ? & ? & _).
  repeat (split; [done|]). by exists evs.
Qed.

(** X11: [cleanup] tears down only what the runner recorded: every destroy
    it starts is for a run block stored in [RelevantStates] whose state is
    not empty and whose configuration could be set up. *)
Theorem cleanup_destroys_recorded (runner : TestFileRunner)
    (file : moduletest.File) runner' file' evs name :
  cleanup Empty teardown transform_fails runner file = Some (runner', file') ->
  Trace runner' = Trace runner ++ evs ->
  DestroyOperation name ∈ evs ->
  exists key s r,
    RelevantStates runner !! key = Some s
    /\ TestFileState_Run s = Some r
    /\ moduletest.Run_Name r = name
    /\ Empty (TestFileState_State s) = false
    /\ transform_fails r = false.
Proof.
  intros H Htr Hin. apply cleanup_invariants in H
    as (_ & _ & _ & _ & _ & _ & evs' & Htr' & _ & Hops).
  rewrite Htr' in Htr. apply app_inv_head in Htr as <-. by apply Hops.
Qed.

(** X12: the states of the alternate modules are cleaned up later run blocks
    first: the second loop of [cleanup] goes through the states by
    descending run index and reports them in that order, all of them unless
    a cancellation cuts the loop short. *)
Theorem cleanup_states_later_first (states : list (moduletest.Run * State))
    (runner : TestFileRunner) fileStatus runner' fileStatus' :
  cleanup_states Empty teardown transform_fails runner fileStatus
    (sort_later_first states) = (runner', fileStatus') ->
  exists evs n order,
    Trace runner' = Trace runner ++ evs
    /\ order ≡ₚ states
    /\ Sorted later_first order
    /\ List.filter is_module_summary evs
       = (fun x => ViewDestroySummary (Some (moduletest.Run_Name x.1)))
           <$> take n order
    /\ (Cancelled (Suite runner') = false -> n = length states).
Proof.
  intros H. apply cleanup_states_frame in H
    as (_ & _ & _ & _ & evs & n & Htr & _ & Hsum & Hn & _).
  exists evs, n, (sort_later_first states).
  split; [done|]. split; [apply sort_later_first_Permutation|].
  split; [apply sort_later_first_Sorted|]. split; [done|].
  intros Hc. rewrite (Hn Hc). apply Permutation_length.
  apply sort_later_first_Permutation.
Qed.

Lemma cleanup_total (runner : TestFileRunner) (file : moduletest.File) :
  is_Some (RelevantStates runner !! MainStateIdentifier) ->
  is_Some (cleanup Empty teardown transform_fails runner file).
Proof.
  intros [main Hm]. unfold cleanup.
  destruct (Cancelled (Suite runner)); [eauto|]. rewrite Hm. simpl.
  destruct (match TestFileState_Run main with
            | Some r => _ | None => _ end) as [rn1 updated].
  destruct (Cancelled _); [eauto|].
  destruct (cleanup_collect _ _ _ _) as [[? ?] ?].
  destruct (cleanup_states _ _ _ _ _ _) as [? ?]. eauto.
Qed.

(** X13: [TestSuiteRunner.Test] never dereferences a missing state: each
    file gets a runner with the main state in place, [Test] keeps it there
    and [cleanup] finds it.  The loop over the files always returns, with as
    many files as it was given. *)
Theorem TestSuiteRunner_Test_returns (files : list moduletest.File)
    (suite : TestSuiteRunner) trace suiteStatus :
  exists suite' trace' suiteStatus' files',
    TestSuiteRunner_Test_loop NewState Empty Merge arrive execute teardown
      transform_fails suite trace suiteStatus files
    = Some (suite', trace', suiteStatus', files')
    /\ length files' = length files
    /\ trace `prefix_of` trace'
    /\ (Cancelled suite = true -> Cancelled suite' = true).
Proof.
  revert suite trace suiteStatus.
  induction files as [|file files IH]; intros suite trace suiteStatus; simpl.
  - eexists _, _, _, _. split; [done|]. split; [done|].
    split; [by apply prefix_app_r | done].
  - destruct (Cancelled suite) eqn:Ec.
    { by eexists _, _, _, _. }
    set (rn0 := {| Suite := suite; RelevantStates := _; Trace := _ |}).
    destruct (Test_total rn0 file) as (rn1 & file1 & HT & Hm & _).
    { unfold rn0. simpl. rewrite lookup_singleton_eq. eauto. }
    rewrite HT. simpl.
    set (rn1' := emit _ rn1).
    destruct (cleanup_total rn1' file1) as [[rn2 file2] Hcl]; [done|].
    rewrite Hcl. simpl.
    destruct (IH (Suite rn2)
                 (Trace rn2 ++ [ViewFile (moduletest.File_Name file)
                                  moduletest.Complete])
                 (Merge suiteStatus (moduletest.File_Status file2)))
      as (s' & t' & st' & fs' & -> & Hlen & Hpre & Hc).
    simpl. eexists _, _, _, _. split; [done|]. split; [simpl; by rewrite Hlen|].
    split; [|done].
    etrans; [|exact Hpre].
    apply cleanup_invariants in Hcl as (_ & _ & _ & _ & _ & _ & evs & -> & _).
    unfold Test in HT.
    destruct (Test_loop _ _ _ _ rn0 _ _) as [[[[rn1a fs1] runs1] ret1]|] eqn:Hl;
      [|done].
    simpl in HT. injection HT as <- <-.
    apply Test_loop_invariants in Hl as (evs0 & Htr0 & _).
    simpl. rewrite Htr0. unfold rn0. simpl.
    rewrite <- !app_assoc. by apply prefix_app_r.
Qed.

End RunnerInvariants.


(** ** [wait], once more *)

Section WaitInvariants.

Variable run : string.
Variable progress : moduletest.Progress.

Lemma handleCancelled_loop_without_stop calls choices :
  handleCancelled_loop run progress calls choices <> NotOffered ->
  handleCancelled_loop run progress calls (without_stop choices)
  = handleCancelled_loop run progress calls choices.
Proof.
  revert calls. induction choices as [|[] choices IH]; intros calls; simpl;
    try done.
  apply IH.
Qed.

Lemma handleStopped_without_stop calls choices :
  handleStopped run progress calls choices <> NotOffered ->
  wait_loop run progress calls (without_stop choices)
  = handleStopped run progress calls choices.
Proof.
  revert calls. induction choices as [|[] choices IH]; intros calls; simpl;
    try done.
  - apply IH.
  - apply handleCancelled_loop_without_stop.
Qed.

Lemma wait_loop_without_stop calls choices :
  wait_loop run progress calls choices <> NotOffered ->
  wait_loop run progress calls (without_stop choices)
  = wait_loop run progress calls choices.
Proof.
  revert calls. induction choices as [|[] choices IH]; intros calls; simpl;
    try done.
  - apply IH.
  - apply handleStopped_without_stop.
  - apply handleCancelled_loop_without_stop.
Qed.

(** X14: the first interrupt changes nothing in what [wait] does.  Take the
    stopped context out of the cases its selects see and [wait] makes the
    same calls and returns the same [cancelled]: [handleStopped] only waits
    on, [ctx.Stop()] is left to the second interrupt. *)
Theorem wait_ignores_stop (choices : list Select) :
  wait run progress choices <> NotOffered ->
  wait run progress (without_stop choices) = wait run progress choices.
Proof. apply wait_loop_without_stop. Qed.

Lemma handleCancelled_loop_done calls choices c calls' more :
  handleCancelled_loop run progress calls choices = Blocked c calls' ->
  handleCancelled_loop run progress calls (choices ++ RunningCtxDone :: more)
  = Returned c calls'.
Proof.
  revert calls. induction choices as [|[] choices IH]; intros calls; simpl;
    try done.
  - by intros [= <- <-].
  - apply IH.
Qed.

Lemma handleStopped_done calls choices c calls' more :
  handleStopped run progress calls choices = Blocked c calls' ->
  handleStopped run progress calls (choices ++ RunningCtxDone :: more)
  = Returned c calls'.
Proof.
  revert calls. induction choices as [|[] choices IH]; intros calls; simpl;
    try done.
  - by intros [= <- <-].
  - apply IH.
  - apply handleCancelled_loop_done.
Qed.

(** X15: [wait] is only ever held up by the operation.  Wherever it is
    blocked (in the outer loop, in [handleStopped] or in [handleCancelled]),
    it returns as soon as the running context is done, with the calls made
    so far and nothing more, and with [cancelled] as it stood; what the
    other channels deliver afterwards is not looked at. *)
Theorem wait_returns_when_done (choices more : list Select) c calls :
  wait run progress choices = Blocked c calls ->
  wait run progress (choices ++ RunningCtxDone :: more) = Returned c calls.
Proof.
  unfold wait. generalize (@nil Event) as calls0.
  induction choices as [|[] choices IH]; intros calls0; simpl; try done.
  - by intros [= <- <-].
  - apply IH.
  - apply handleStopped_done.
  - apply handleCancelled_loop_done.
Qed.

End WaitInvariants.


(** ** The variables of a run block *)

Section FilterVariablesFacts.

Context {ConfigVariable InputValue : Type}.
Variable has_Sensitive : InputValue -> bool.
Variable unmarked : InputValue -> InputValue.
Variable Sensitive : ConfigVariable -> bool.
Variable Name : ConfigVariable -> string.

Abbreviation Filter :=
  (FilterVariablesToConfig has_Sensitive unmarked Sensitive Name).
Abbreviation Filter_body :=
  (FilterVariablesToConfig_body has_Sensitive unmarked Sensitive Name).

Lemma FilterVariablesToConfig_fold_lookup
    (config : gmap string ConfigVariable)
    (values : list (string * InputValue)) filtered diags name :
  NoDup (values.*1) ->
  (foldl (Filter_body config) (filtered, diags) values).1 !! name
  = match (list_to_map values : gmap string InputValue) !! name with
    | Some value =>
        match config !! name with
        | Some _ => Some (passed_on has_Sensitive unmarked value)
        | None => filtered !! name
        end
    | None => filtered !! name
    end.
Proof.
  revert filtered diags.
  induction values as [|[k v] values IH]; intros filtered diags Hnd; [done|].
  apply NoDup_cons in Hnd as [Hk Hnd].
  change (foldl (Filter_body config) (filtered, diags) ((k, v) :: values))
    with (foldl (Filter_body config)
            (Filter_body config (filtered, diags) (k, v)) values).
  destruct (Filter_body config (filtered, diags) (k, v)) as [f1 d1] eqn:Hb.
  rewrite (IH f1 d1 Hnd).
  change (list_to_map ((k, v) :: values) : gmap string InputValue)
    with (<[k := v]> (list_to_map values : gmap string InputValue)).
  assert (Hf1 : f1 = match config !! k with
                     | Some _ =>
                         <[k := passed_on has_Sensitive unmarked v]> filtered
                     | None => filtered
                     end).
  { unfold FilterVariablesToConfig_body, passed_on in *.
    destruct (config !! k); [|congruence].
    destruct (has_Sensitive v); congruence. }
  destruct (decide (name = k)) as [->|Hne].
  - rewrite lookup_insert_eq.
    rewrite (not_elem_of_list_to_map_1 _ _ Hk). rewrite Hf1.
    destruct (config !! k); [by rewrite lookup_insert_eq | done].
  - rewrite lookup_insert_ne by done.
    assert (f1 !! name = filtered !! name) as ->; [|done].
    rewrite Hf1. destruct (config !! k); [by rewrite lookup_insert_ne | done].
Qed.

Lemma FilterVariablesToConfig_lookup
    (config : gmap string ConfigVariable)
    (values : list (string * InputValue)) (name : string) :
  NoDup (values.*1) ->
  (Filter config values).1 !! name
  = (_ ← config !! name;
     passed_on has_Sensitive unmarked
       <$> (list_to_map values : gmap string InputValue) !! name).
Proof.
  intros Hnd. unfold FilterVariablesToConfig.
  rewrite FilterVariablesToConfig_fold_lookup by done.
  rewrite lookup_empty.
  destruct (list_to_map values !! name), (config !! name); done.
Qed.

(** X16: [FilterVariablesToConfig] keeps exactly the values the configuration
    declares a variable for, whatever order [range] yields them in; a value
    it keeps is passed on as it is, or rebuilt around the unmarked value
    when it carries the sensitive mark. *)
Theorem FilterVariablesToConfig_filtered
    (config : gmap string ConfigVariable)
    (values : list (string * InputValue)) (name : string) :
  NoDup (values.*1) ->
  (Filter config values).1 !! name
  = (_ ← config !! name;
     passed_on has_Sensitive unmarked
       <$> (list_to_map values : gmap string InputValue) !! name).
Proof. apply FilterVariablesToConfig_lookup. Qed.

Lemma FilterVariablesToConfig_fold_diags
    (config : gmap string ConfigVariable)
    (values : list (string * InputValue)) filtered diags :
  (foldl (Filter_body config) (filtered, diags) values).2
  = diags
    ++ omap (fun '(name, value) =>
               variableConfig ← config !! name;
               if has_Sensitive value && negb (Sensitive variableConfig)
               then Some (metadata_lost Name variableConfig) else None)
         values.
Proof.
  revert filtered diags.
  induction values as [|[k v] values IH]; intros filtered diags; simpl.
  { by rewrite app_nil_r. }
  destruct (config !! k) as [vc|]; simpl; [|apply IH].
  destruct (has_Sensitive v); simpl; [|apply IH].
  destruct (Sensitive vc); simpl; [apply IH|].
  by rewrite IH, <- app_assoc.
Qed.

(** X17: [FilterVariablesToConfig] can only return warnings, as its callers
    rely on: there is one diagnostic for every value with the sensitive
    mark that goes into a variable not declared sensitive, and nothing
    else. *)
Theorem FilterVariablesToConfig_only_warnings
    (config : gmap string ConfigVariable)
    (values : list (string * InputValue)) :
  tfdiags.HasErrors (Filter config values).2 = false
  /\ forall d,
       d ∈ (Filter config values).2
       <-> exists name value variableConfig,
             (name, value) ∈ values
             /\ config !! name = Some variableConfig
             /\ has_Sensitive value = true
             /\ Sensitive variableConfig = false
             /\ d = metadata_lost Name variableConfig.
Proof.
  unfold FilterVariablesToConfig.
  rewrite FilterVariablesToConfig_fold_diags. simpl.
  assert (Hd : forall d,
    d ∈ omap (fun '(name, value) =>
                variableConfig ← config !! name;
                if has_Sensitive value && negb (Sensitive variableConfig)
                then Some (metadata_lost Name variableConfig) else None)
          values
    <-> exists name value variableConfig,
          (name, value) ∈ values
          /\ config !! name = Some variableConfig
          /\ has_Sensitive value = true
          /\ Sensitive variableConfig = false
          /\ d = metadata_lost Name variableConfig).
  { intros d. rewrite list_elem_of_omap. split.
    - intros ([name value] & Hin & Hsome).
      destruct (config !! name) as [vc|] eqn:Ec; [|done]. simpl in Hsome.
      destruct (has_Sensitive value) eqn:Eh; [|done].
      destruct (Sensitive vc) eqn:Es; [done|]. simpl in Hsome.
      injection Hsome as <-. by exists name, value, vc.
    - intros (name & value & vc & Hin & Ec & Eh & Es & ->).
      exists (name, value). split; [done|].
      by rewrite Ec; simpl; rewrite Eh, Es. }
  split; [|exact Hd].
  unfold tfdiags.HasErrors. apply not_true_is_false. intros Hex.
  apply existsb_exists in Hex as (d & Hin & Herr).
  apply list_elem_of_In, Hd in Hin as (? & ? & ? & _ & _ & _ & _ & ->).
  done.
Qed.

Variable newVariable : string -> InputValue -> ConfigVariable.

(** X18: the two functions are opposites.  Once [AddVariablesToConfig] has
    run, [FilterVariablesToConfig] drops none of the variables; once the
    closure it returned has run, the filter lets through what it let through
    before. *)
Theorem FilterVariablesToConfig_after_Add
    (variables : list (string * InputValue))
    (m m' : Memory ConfigVariable) undo :
  well_formed m ->
  is_Some (Module_Variables m) ->
  NoDup (variables.*1) ->
  AddVariablesToConfig newVariable variables m = Some (m', undo) ->
  (forall name value,
     (name, value) ∈ variables ->
     (Filter (Variables m') variables).1 !! name
     = Some (passed_on has_Sensitive unmarked value))
  /\ Filter (Variables (undo m')) variables = Filter (Variables m) variables.
Proof.
  intros Hwf [l Hl] Hnd HA. destruct (Hwf l Hl) as [vars Hvars].
  rewrite (AddVariablesToConfig_result newVariable variables m l vars)
    in HA by done.
  injection HA as <- <-.
  assert (Hfresh : fresh (dom (maps m)) <> l).
  { intros Heq. assert (Hin : l ∈ dom (maps m)) by (apply elem_of_dom; eauto).
    rewrite <- Heq in Hin. by apply (is_fresh (dom (maps m))). }
  split.
  - intros name value Hin.
    rewrite FilterVariablesToConfig_lookup by done.
    unfold Variables, deref. simpl. rewrite lookup_insert_eq. simpl.
    destruct (extended_defines newVariable variables vars name value Hin)
      as [v ->]. simpl.
    by rewrite (elem_of_list_to_map_1 _ _ _ Hnd Hin).
  - f_equal. unfold Variables, reset, deref. simpl.
    rewrite lookup_insert_ne, lookup_insert_eq by done.
    by rewrite Hl, Hvars.
Qed.

End FilterVariablesFacts.

Section InitVariablesFacts.

Context {UnparsedVariableValue Expression : Type}.
Variable unparsedTestVariableValue : Expression -> UnparsedVariableValue.

Lemma foldl_insert_wrapped (Variables : list (string * Expression))
    (g : gmap string UnparsedVariableValue) :
  NoDup (Variables.*1) ->
  foldl (fun g '(name, expr) => <[name := unparsedTestVariableValue expr]> g)
    g Variables
  = (unparsedTestVariableValue <$> list_to_map Variables) ∪ g.
Proof.
  induction Variables as [|[k e] Variables IH] using rev_ind.
  { intros _. simpl. by rewrite fmap_empty, (left_id_L ∅ (∪)). }
  rewrite fmap_app, NoDup_app. intros (Hl & Hk & _).
  rewrite foldl_snoc, IH by done.
  rewrite list_to_map_snoc.
  - by rewrite fmap_insert, insert_union_l.
  - intros Hin. apply (Hk k Hin). simpl. by left.
Qed.

(** X19: [initVariables] starts from a fresh map, copies the global variables
    of the suite and lets the variables of the test file override them: a
    name the file defines gets the file's expression, any other name the
    suite's value, and nothing else is in the map. *)
Theorem initVariables_file_overrides
    (GlobalVariables : list (string * UnparsedVariableValue))
    (Variables : list (string * Expression)) (name : string) :
  NoDup (GlobalVariables.*1) ->
  NoDup (Variables.*1) ->
  initVariables unparsedTestVariableValue GlobalVariables Variables !! name
  = match (list_to_map Variables : gmap string Expression) !! name with
    | Some expr => Some (unparsedTestVariableValue expr)
    | None =>
        (list_to_map GlobalVariables : gmap string UnparsedVariableValue)
          !! name
    end.
Proof.
  intros HG HV. unfold initVariables.
  rewrite foldl_insert_wrapped by done.
  rewrite foldl_insert_list_to_map by done.
  rewrite lookup_union, lookup_fmap.
  destruct (list_to_map Variables !! name); simpl.
  - by rewrite union_Some_l.
  - by rewrite (left_id_L None _).
Qed.

End InitVariablesFacts.

(** ** The providers of a configuration *)

Lemma elem_of_foldl_union {A : Type} (f : A -> string) (l : list A)
    (acc : gset string) (p : string) :
  p ∈ foldl (fun acc x => {[f x]} ∪ acc) acc l
  <-> p ∈ acc \/ exists x, x ∈ l /\ p = f x.
Proof.
  revert acc. induction l as [|y l IH]; intros acc; simpl.
  { split; [by left|]. intros [?|(x & Hin & _)]; [done|].
    by apply elem_of_nil in Hin. }
  rewrite IH, elem_of_union, elem_of_singleton. split.
  - intros [[->|?]|(x & Hin & ->)].
    + right. exists y. split; [by left | done].
    + by left.
    + right. exists x. split; [by right | done].
  - intros [?|(x & Hin & ->)]; [left; by right|].
    apply elem_of_cons in Hin as [->|Hin]; [left; by left|].
    right. by exists x.
Qed.

Lemma elem_of_foldl_union_id (l : list string) (acc : gset string)
    (p : string) :
  p ∈ foldl (fun acc x => {[x]} ∪ acc) acc l <-> p ∈ acc \/ p ∈ l.
Proof.
  rewrite (elem_of_foldl_union id). split.
  - intros [?|(x & Hin & ->)]; [by left | by right].
  - intros [?|?]; [by left|]. right. by exists p.
Qed.

Lemma elem_of_required (l : list RequiredProvider) (acc : gset string)
    (p : string) :
  p ∈ foldl (fun providers provider =>
               foldl (fun providers alias => {[alias]} ∪ providers)
                 ({[RequiredProvider_Name provider]} ∪ providers)
                 (RequiredProvider_Aliases provider)) acc l
  <-> p ∈ acc
      \/ exists provider,
           provider ∈ l
           /\ (p = RequiredProvider_Name provider
               \/ p ∈ RequiredProvider_Aliases provider).
Proof.
  revert acc. induction l as [|y l IH]; intros acc; simpl.
  { split; [by left|]. intros [?|(x & Hin & _)]; [done|].
    by apply elem_of_nil in Hin. }
  rewrite IH, elem_of_foldl_union_id, elem_of_union, elem_of_singleton. split.
  - intros [[[->|?]|?]|(x & Hin & Hx)].
    + right. exists y. split; [by left | by left].
    + by left.
    + right. exists y. split; [by left | by right].
    + right. exists x. split; [by right | done].
  - intros [?|(x & Hin & Hx)]; [left; left; by right|].
    apply elem_of_cons in Hin as [->|Hin].
    + destruct Hx as [->|?]; [left; left; by left | left; by right].
    + right. by exists x.
Qed.

Lemma elem_of_module_calls (l : list (list string)) (acc : gset string)
    (p : string) :
  p ∈ foldl (fun providers module =>
               foldl (fun providers provider => {[provider]} ∪ providers)
                 providers module) acc l
  <-> p ∈ acc \/ exists module, module ∈ l /\ p ∈ module.
Proof.
  revert acc. induction l as [|y l IH]; intros acc; simpl.
  { split; [by left|]. intros [?|(x & Hin & _)]; [done|].
    by apply elem_of_nil in Hin. }
  rewrite IH, elem_of_foldl_union_id. split.
  - intros [[?|?]|(x & Hin & Hx)].
    + by left.
    + right. exists y. split; [by left | done].
    + right. exists x. split; [by right | done].
  - intros [?|(x & Hin & Hx)]; [left; by left|].
    apply elem_of_cons in Hin as [->|Hin]; [left; by right|].
    right. by exists x.
Qed.

(** X20: the providers [gatherProviders] records for a configuration are the
    names and aliases of the required providers, the addresses of the
    provider blocks, for every resource and data source the provider it
    refers to or else the provider of its type, and the providers passed
    to the module calls; nothing else. *)
Theorem providers_of_elem (config : Module_) (p : string) :
  p ∈ providers_of config
  <-> (exists provider,
         provider ∈ RequiredProviders config
         /\ (p = RequiredProvider_Name provider
             \/ p ∈ RequiredProvider_Aliases provider))
      \/ p ∈ ProviderConfigs config
      \/ (exists resource,
            resource ∈ ManagedResources config
            /\ p = resource_provider resource)
      \/ (exists datasource,
            datasource ∈ DataResources config
            /\ p = resource_provider datasource)
      \/ (exists module, module ∈ ModuleCalls config /\ p ∈ module).
Proof.
  unfold providers_of. cbv zeta.
  rewrite elem_of_module_calls.
  rewrite (elem_of_foldl_union resource_provider (DataResources config)).
  rewrite (elem_of_foldl_union resource_provider (ManagedResources config)).
  rewrite elem_of_foldl_union_id, elem_of_required, elem_of_empty.
  tauto.
Qed.

Lemma gatherProviders_processed (key key' : string) (config : Module_)
    (configProviders : gmap string (gset string)) :
  is_Some (configProviders !! key') ->
  gatherProviders key config configProviders !! key'
  = configProviders !! key'.
Proof.
  intros [ps Hps]. unfold gatherProviders.
  destruct (configProviders !! key) eqn:E; [done|].
  rewrite lookup_insert_ne; [done|]. intros ->. congruence.
Qed.

(** X21: a key is processed once.  Over any sequence of calls, the providers
    recorded under a key are those of the configuration of the first call
    with that key; later calls, with whatever configuration, leave them as
    they are. *)
Theorem gatherProviders_first_call
    (before after : list (string * Module_)) (key : string)
    (config : Module_) (configProviders : gmap string (gset string)) :
  configProviders !! key = None ->
  key ∉ before.*1 ->
  foldl (fun configProviders '(key, config) =>
           gatherProviders key config configProviders)
    configProviders (before ++ (key, config) :: after) !! key
  = Some (providers_of config).
Proof.
  intros Hnone Hkey. rewrite foldl_app. simpl.
  set (step := fun (configProviders : gmap string (gset string))
                   '(key, config) =>
                 gatherProviders key config configProviders).
  assert (Hbefore : foldl step configProviders before !! key = None).
  { revert configProviders Hnone.
    induction before as [|[k c] before IH]; intros cp Hnone; [done|].
    simpl in *. apply not_elem_of_cons in Hkey as [Hne Hkey].
    apply IH; [done|]. unfold gatherProviders.
    destruct (cp !! k); [done|]. by rewrite lookup_insert_ne. }
  assert (Hafter : forall cp,
            is_Some (cp !! key) -> foldl step cp after !! key = cp !! key).
  { induction after as [|[k c] after IH]; intros cp Hcp; [done|].
    simpl. rewrite IH.
    - by apply gatherProviders_processed.
    - by rewrite gatherProviders_processed. }
  rewrite Hafter.
  - unfold gatherProviders. rewrite Hbefore. by rewrite lookup_insert_eq.
  - unfold gatherProviders. rewrite Hbefore. rewrite lookup_insert_eq. eauto.
Qed.


(** ** What [Test] records and [cleanup] destroys *)

Section RecordedFacts.

Context {State : Type}.
Variable NewState : State.
Variable Empty : State -> bool.
Variable Merge : moduletest.Status -> moduletest.Status -> moduletest.Status.
Variable arrive : moduletest.Run -> Interrupts.
Variable execute : moduletest.Run -> State -> Outcome (State := State).
Variable teardown : moduletest.Run -> State -> Destroyed (State := State).
Variable transform_fails : moduletest.Run -> bool.

Lemma recorded_mono (runs runs' : list moduletest.Run) before
    (s : TestFileState) :
  runs ⊆ runs' ->
  recorded NewState execute runs before s ->
  recorded NewState execute runs' before s.
Proof.
  intros Hsub [?|[?|(r & st & Hin & ? & ?)]]; [by left | right; by left|].
  right; right. exists r, st. split; [by apply Hsub | done].
Qed.

Lemma run_records (runner : TestFileRunner) r st runner' r' st' updated :
  run execute runner r st = (runner', r', st', updated) ->
  RelevantStates runner' = RelevantStates runner
  /\ (exists evs, Trace runner' = Trace runner ++ evs /\ no_Destroy evs)
  /\ (updated = true ->
      updatedState (execute r st) = true
      /\ {| TestFileState_Run := Some r'; TestFileState_State := st' |}
         = applied execute r st).
Proof.
  unfold run.
  destruct (Cancelled (Suite runner)).
  { intros [= <- <- <- <-]. split; [done|]. split; [|done].
    exists []. split; [by rewrite app_nil_r | constructor]. }
  destruct (Stopped (Suite runner)).
  { intros [= <- <- <- <-]. split; [done|]. split; [|done].
    exists []. split; [by rewrite app_nil_r | constructor]. }
  intros [= <- <- <- <-]. simpl. split; [done|]. split.
  - eexists. split; [done|]. by repeat constructor.
  - done.
Qed.

Lemma Test_execute_records (runner : TestFileRunner) fileStatus r key
    runner' fileStatus' r' returned :
  Test_execute Merge execute runner fileStatus r key
  = Some (runner', fileStatus', r', returned) ->
  (exists evs, Trace runner' = Trace runner ++ evs /\ no_Destroy evs)
  /\ forall k s,
       RelevantStates runner' !! k = Some s ->
       RelevantStates runner !! k = Some s
       \/ exists st, updatedState (execute r st) = true
                     /\ s = applied execute r st.
Proof.
  unfold Test_execute.
  destruct (RelevantStates runner !! key) as [relevant|]; [|done]. simpl.
  destruct (run execute runner r (TestFileState_State relevant))
    as [[[rn1 r1] st1] updated] eqn:Hrun.
  apply run_records in Hrun as (Hrs & (evs & Htr & Hev) & Hup).
  intros [= <- <- <- <-]. split.
  - exists (evs ++ [ViewRun (moduletest.Run_Name r1) moduletest.Complete]).
    split.
    + destruct updated; simpl; by rewrite Htr, <- app_assoc.
    + apply Forall_app. split; [done | by repeat constructor].
  - intros k s. destruct updated; simpl.
    + destruct (Hup eq_refl) as (Hu & Heq).
      destruct (decide (k = key)) as [->|Hne].
      * rewrite lookup_insert_eq. intros [= <-]. right.
        by exists (TestFileState_State relevant).
      * rewrite lookup_insert_ne by done. rewrite Hrs. by left.
    + rewrite Hrs. by left.
Qed.

Lemma Test_iteration_records (runner : TestFileRunner) fileStatus r
    runner' fileStatus' r' returned :
  Test_iteration NewState Merge arrive execute runner fileStatus r
  = Some (runner', fileStatus', r', returned) ->
  (exists evs, Trace runner' = Trace runner ++ evs /\ no_Destroy evs)
  /\ forall k s,
       RelevantStates runner' !! k = Some s ->
       recorded NewState execute [r] (RelevantStates runner !! k) s.
Proof.
  unfold Test_iteration.
  set (rn0 := interrupt (arrive r) runner).
  assert (Hsame : forall rn1 : TestFileRunner,
            RelevantStates rn1 = RelevantStates runner ->
            forall k s, RelevantStates rn1 !! k = Some s ->
                        recorded NewState execute [r]
                          (RelevantStates runner !! k) s).
  { intros rn1 Hrs k s Hs. left. by rewrite <- Hrs. }
  assert (Hexec : forall (rn1 : TestFileRunner) key,
    Trace rn1 = Trace runner ->
    (forall k s, RelevantStates rn1 !! k = Some s ->
                 recorded NewState execute [r]
                   (RelevantStates runner !! k) s) ->
    Test_execute Merge execute rn1 fileStatus r key
    = Some (runner', fileStatus', r', returned) ->
    (exists evs, Trace runner' = Trace runner ++ evs /\ no_Destroy evs)
    /\ forall k s,
         RelevantStates runner' !! k = Some s ->
         recorded NewState execute [r] (RelevantStates runner !! k) s).
  { intros rn1 key Htr Hrec Hex.
    apply Test_execute_records in Hex as (Hev & Hrs).
    split; [by rewrite <- Htr|].
    intros k s Hs. destruct (Hrs k s Hs) as [H1|(st & Hu & ->)].
    - by apply Hrec.
    - right; right. exists r, st. split; [by left | done]. }
  destruct (Cancelled (Suite rn0)).
  { intros [= <- <- <- <-]. split; [|by apply Hsame].
    exists []. split; [by rewrite app_nil_r | constructor]. }
  destruct (Stopped (Suite rn0)).
  { intros [= <- <- <- <-]. split; [|by apply Hsame].
    eexists. split; [done | by repeat constructor]. }
  destruct (moduletest.eqb fileStatus moduletest.Error).
  { intros [= <- <- <- <-]. split; [|by apply Hsame].
    eexists. split; [done | by repeat constructor]. }
  destruct (moduletest.Run_ConfigUnderTest r) as [key|];
    [|apply Hexec; [done | by apply Hsame]].
  destruct (String.eqb key MainStateIdentifier).
  { intros [= <- <- <- <-]. split; [|by apply Hsame].
    exists []. split; [by rewrite app_nil_r | constructor]. }
  destruct (RelevantStates rn0 !! key) eqn:Ek;
    [apply Hexec; [done | by apply Hsame]|].
  apply Hexec; [done|]. simpl. intros k s.
  destruct (decide (k = key)) as [->|Hne].
  - rewrite lookup_insert_eq. intros [= <-]. right; left. done.
  - rewrite lookup_insert_ne by done. intros Hs. by left.
Qed.

Lemma Test_loop_records (runs : list moduletest.Run)
    (runner : TestFileRunner) fileStatus runner' fileStatus' runs' returned :
  Test_loop NewState Merge arrive execute runner fileStatus runs
  = Some (runner', fileStatus', runs', returned) ->
  (exists evs, Trace runner' = Trace runner ++ evs /\ no_Destroy evs)
  /\ forall k s,
       RelevantStates runner' !! k = Some s ->
       recorded NewState execute runs (RelevantStates runner !! k) s.
Proof.
  revert runner fileStatus runner' fileStatus' runs' returned.
  induction runs as [|r runs IH]; intros rn fs rn' fs' runs' ret.
  - simpl. intros [= <- <- <- <-]. split.
    + exists []. split; [by rewrite app_nil_r | constructor].
    + intros k s Hs. by left.
  - rewrite Test_loop_cons.
    destruct (Test_iteration NewState Merge arrive execute rn fs r)
      as [[[[rn1 fs1] r1] ret1]|] eqn:Hit; [|done].
    pose proof (Test_iteration_frame NewState Merge arrive execute
                  _ _ _ _ _ _ _ Hit) as (evs0 & [_ _ _ Hkeys _ _] & _).
    apply Test_iteration_records in Hit as ((evs1 & Htr1 & Hev1) & Hrec1).
    assert (Hfirst : forall k s,
              RelevantStates rn1 !! k = Some s ->
              recorded NewState execute (r :: runs)
                (RelevantStates rn !! k) s).
    { intros k s Hs. eapply recorded_mono; [|by apply Hrec1].
      intros x Hx. apply list_elem_of_singleton in Hx as ->. by left. }
    destruct ret1.
    { intros [= <- <- <- <-]. split; [by exists evs1 | done]. }
    destruct (Test_loop NewState Merge arrive execute rn1 fs1 runs)
      as [[[[rn2 fs2] runs2] ret2]|] eqn:Hl; [|done].
    intros [= <- <- <- <-].
    apply IH in Hl as ((evs2 & Htr2 & Hev2) & Hrec2).
    split.
    { exists (evs1 ++ evs2). split; [by rewrite Htr2, Htr1, <- app_assoc|].
      by apply Forall_app. }
    intros k s Hs.
    destruct (Hrec2 k s Hs) as [H1|[(Hnone & ->)|(r0 & st & Hin & Hu & ->)]].
    + by apply Hfirst.
    + destruct (RelevantStates rn !! k) as [s0|] eqn:E0.
      * destruct (Hkeys k) as [s1 Hs1]; [by rewrite E0|]. congruence.
      * right; left. done.
    + right; right. exists r0, st. split; [by right | done].
Qed.

Lemma Test_records_frame (runner : TestFileRunner)
    (file : moduletest.File) runner' file' key s :
  Test NewState Merge arrive execute runner file = Some (runner', file') ->
  RelevantStates runner' !! key = Some s ->
  recorded NewState execute (moduletest.File_Runs file)
    (RelevantStates runner !! key) s.
Proof.
  unfold Test.
  destruct (Test_loop _ _ _ _ runner _ _) as [[[[rn1 fs1] runs1] ret1]|] eqn:Hl;
    [|done].
  simpl. intros [= <- <-]. apply Test_loop_records in Hl as (_ & Hrec).
  apply Hrec.
Qed.

(** X22: [RelevantStates] only records what was applied.  After [Test], an
    entry is the entry that was there before, or a fresh entry with no run
    block and a new state, or it holds a run block of the file whose
    execution updated the state, with the state that execution returned. *)
Theorem Test_records_updates (runner : TestFileRunner)
    (file : moduletest.File) runner' file' key s :
  Test NewState Merge arrive execute runner file = Some (runner', file') ->
  RelevantStates runner' !! key = Some s ->
  recorded NewState execute (moduletest.File_Runs file)
    (RelevantStates runner !! key) s.
Proof. apply Test_records_frame. Qed.

Lemma Test_no_Destroy (runner : TestFileRunner) (file : moduletest.File)
    runner' file' :
  Test NewState Merge arrive execute runner file = Some (runner', file') ->
  moduletest.File_Name file' = moduletest.File_Name file
  /\ exists evs, Trace runner' = Trace runner ++ evs /\ no_Destroy evs.
Proof.
  unfold Test.
  destruct (Test_loop _ _ _ _ runner _ _) as [[[[rn1 fs1] runs1] ret1]|] eqn:Hl;
    [|done].
  simpl. intros [= <- <-]. by apply Test_loop_records in Hl as (? & _).
Qed.

Lemma TestSuiteRunner_Test_loop_destroys (files : list moduletest.File)
    (suite : TestSuiteRunner) trace suiteStatus suite' trace' suiteStatus'
    files' name :
  TestSuiteRunner_Test_loop NewState Empty Merge arrive execute teardown
    transform_fails suite trace suiteStatus files
  = Some (suite', trace', suiteStatus', files') ->
  DestroyOperation name ∈ trace' ->
  DestroyOperation name ∈ trace
  \/ exists file r st,
       file ∈ files
       /\ r ∈ moduletest.File_Runs file
       /\ moduletest.Run_Name r = name
       /\ updatedState (execute r st) = true
       /\ Empty (state (execute r st)) = false.
Proof.
  revert suite trace suiteStatus suite' trace' suiteStatus' files'.
  induction files as [|file files IH];
    intros suite trace suiteStatus suite' trace' suiteStatus' files'; simpl.
  { intros [= <- <- <- <-] Hin. left.
    apply elem_of_app in Hin as [?|Hin]; [done|].
    apply list_elem_of_singleton in Hin. done. }
  destruct (Cancelled suite).
  { intros [= <- <- <- <-] Hin. by left. }
  set (rn0 := {| Suite := suite; RelevantStates := _; Trace := _ |}).
  destruct (Test NewState Merge arrive execute rn0 file)
    as [[rn1 file1]|] eqn:HT; [|done]. simpl.
  destruct (cleanup Empty teardown transform_fails _ file1)
    as [[rn2 file2]|] eqn:Hcl; [|done]. simpl.
  destruct (TestSuiteRunner_Test_loop _ _ _ _ _ _ _ (Suite rn2) _ _ files)
    as [[[[s3 t3] st3] fs3]|] eqn:Hrest; [|done]. simpl.
  intros [= <- <- <- <-] Hin.
  destruct (IH _ _ _ _ _ _ _ Hrest Hin) as [Hin2|(f & r & st & Hf & Hr)].
  2:{ right. exists f, r, st. split; [by right | done]. }
  apply elem_of_app in Hin2 as [Hin2|Hin2].
  2:{ apply list_elem_of_singleton in Hin2. done. }
  pose proof (Test_no_Destroy _ _ _ _ HT) as (_ & evs1 & Htr1 & Hev1).
  apply cleanup_invariants in Hcl
    as (_ & _ & _ & _ & _ & _ & evs2 & Htr2 & _ & Hops).
  rewrite Htr2 in Hin2. simpl in Hin2, Hops.
  apply elem_of_app in Hin2 as [Hin2|Hin2].
  2:{ destruct (Hops name Hin2) as (key & s & r' & Hs & Hrun & Hname & HE & _).
      pose proof (Test_records_frame _ _ _ _ key s HT Hs)
        as [Hb|[(_ & ->)|(r & st & Hr & Hu & ->)]].
      - unfold rn0 in Hb. simpl in Hb.
        apply lookup_singleton_Some in Hb as (_ & <-). done.
      - done.
      - right. exists file, r, st. simpl in *.
        injection Hrun as <-. split; [by left|]. done. }
  apply elem_of_app in Hin2 as [Hin2|Hin2].
  2:{ apply list_elem_of_singleton in Hin2. done. }
  rewrite Htr1 in Hin2. apply elem_of_app in Hin2 as [Hin2|Hin2].
  2:{ unfold no_Destroy in Hev1. rewrite Forall_forall in Hev1.
      by specialize (Hev1 _ Hin2). }
  unfold rn0 in Hin2. simpl in Hin2.
  apply elem_of_app in Hin2 as [Hin2|Hin2]; [by left|].
  apply list_elem_of_singleton in Hin2. done.
Qed.

(** X23: the suite destroys only what its run blocks applied.  Every destroy
    operation started by [TestSuiteRunner.Test] is for a run block of one of
    the files whose execution updated the state and left it non-empty. *)
Theorem TestSuiteRunner_Test_destroys_applied (files : list moduletest.File)
    (suite : TestSuiteRunner) suite' trace' suiteStatus' files' name :
  TestSuiteRunner_Test NewState Empty Merge arrive execute teardown
    transform_fails suite files
  = Some (suite', trace', suiteStatus', files') ->
  DestroyOperation name ∈ trace' ->
  exists file r st,
    file ∈ files
    /\ r ∈ moduletest.File_Runs file
    /\ moduletest.Run_Name r = name
    /\ updatedState (execute r st) = true
    /\ Empty (state (execute r st)) = false.
Proof.
  unfold TestSuiteRunner_Test. intros H Hin.
  destruct (TestSuiteRunner_Test_loop_destroys _ _ _ _ _ _ _ _ _ H Hin)
    as [Hnil|?]; [|done].
  by apply elem_of_nil in Hnil.
Qed.

End RecordedFacts.


(** ** The files and run blocks of the suite *)

Section CollectTestsFacts.

Variable zero : moduletest.Status.

Lemma collect_filter_lookup (Tests : gmap string TestFile)
    (Filter : list string) (files : gmap string moduletest.File)
    (name : string) :
  foldl (fun files name =>
           match Tests !! name with
           | None => files
           | Some file => <[name := collect_file zero name file]> files
           end) files Filter !! name
  = if decide (name ∈ Filter)
    then match Tests !! name with
         | Some file => Some (collect_file zero name file)
         | None => files !! name
         end
    else files !! name.
Proof.
  revert files. induction Filter as [|n Filter IH]; intros files; [done|].
  simpl. rewrite IH.
  destruct (decide (name = n)) as [->|Hne].
  - rewrite (decide_True (P := n ∈ n :: Filter)) by by left.
    destruct (Tests !! n) as [tf|] eqn:En.
    + rewrite lookup_insert_eq. by destruct (decide (n ∈ Filter)).
    + by destruct (decide (n ∈ Filter)).
  - assert (Hl : (match Tests !! n with
                  | Some file => <[n := collect_file zero n file]> files
                  | None => files
                  end) !! name = files !! name).
    { destruct (Tests !! n); [by rewrite lookup_insert_ne | done]. }
    rewrite Hl.
    destruct (decide (name ∈ Filter)) as [Hin|Hnin].
    + rewrite decide_True; [done | by right].
    + rewrite decide_False; [done|].
      intros [?|?]%elem_of_cons; done.
Qed.

Lemma collect_all_lookup (l : list (string * TestFile))
    (files : gmap string moduletest.File) (name : string) :
  NoDup (l.*1) ->
  foldl (fun files '(name, file) =>
           <[name := collect_file zero name file]> files) files l !! name
  = match (list_to_map l : gmap string TestFile) !! name with
    | Some file => Some (collect_file zero name file)
    | None => files !! name
    end.
Proof.
  revert files. induction l as [|[n tf] l IH]; intros files Hnd; [done|].
  apply NoDup_cons in Hnd as [Hn Hnd].
  simpl foldl. rewrite IH by done.
  change (list_to_map ((n, tf) :: l) : gmap string TestFile)
    with (<[n := tf]> (list_to_map l : gmap string TestFile)).
  destruct (decide (name = n)) as [->|Hne].
  - rewrite (not_elem_of_list_to_map_1 _ _ Hn).
    by rewrite !lookup_insert_eq.
  - by rewrite !lookup_insert_ne.
Qed.

Lemma collectTests_lookup (Filter : list string)
    (Tests : gmap string TestFile) (name : string) :
  collectTests zero Filter Tests !! name
  = if decide (Filter = [] \/ name ∈ Filter)
    then collect_file zero name <$> Tests !! name
    else None.
Proof.
  unfold collectTests. destruct Filter as [|n Filter].
  - change (0 <? length (@nil string)) with false. cbv iota.
    rewrite collect_all_lookup by apply NoDup_fst_map_to_list.
    rewrite list_to_map_to_list, lookup_empty.
    destruct (decide _) as [_|Hn]; [|destruct Hn; by left].
    by destruct (Tests !! name).
  - simpl length. change (0 <? S (length Filter)) with true. cbv iota.
    rewrite collect_filter_lookup, lookup_empty.
    destruct (decide (name ∈ n :: Filter)) as [Hin|Hnin].
    + destruct (decide _) as [_|Hn]; [|destruct Hn; by right].
      by destruct (Tests !! name).
    + destruct (decide _) as [[?|?]|_]; done.
Qed.

(** X24: [collectTests] builds one file for every test file of the
    configuration when there is no filter, and with a filter one for every
    name of the filter that is a test file of the configuration; names of
    the filter that are not are passed over, and a name given twice counts
    once. *)
Theorem collectTests_files (Filter : list string)
    (Tests : gmap string TestFile) (name : string) :
  collectTests zero Filter Tests !! name
  = if decide (Filter = [] \/ name ∈ Filter)
    then collect_file zero name <$> Tests !! name
    else None.
Proof. apply collectTests_lookup. Qed.

(** X25: the run blocks of a collected file are the run blocks of the test
    file, in order, each with its position as [Index] and its name. *)
Theorem collectTests_runs (Filter : list string)
    (Tests : gmap string TestFile) (name : string) (file : moduletest.File) :
  collectTests zero Filter Tests !! name = Some file ->
  exists config,
    Tests !! name = Some config
    /\ moduletest.File_Name file = name
    /\ moduletest.Run_Index <$> moduletest.File_Runs file
       = seq 0 (length (TestFile_Runs config))
    /\ moduletest.Run_Name <$> moduletest.File_Runs file
       = TestRun_Name <$> TestFile_Runs config.
Proof.
  rewrite collectTests_lookup.
  destruct (decide _); [|done].
  destruct (Tests !! name) as [config|]; [|done]. simpl.
  intros [= <-]. exists config. split; [done|]. split; [done|]. simpl.
  unfold collect_runs. rewrite !fmap_imap. split.
  - rewrite <- (list_fmap_id (seq 0 _)). apply (imap_seq_0 _ id).
  - apply imap_const.
Qed.

End CollectTestsFacts.


(** ** The steps of a run block *)

Lemma HasErrors_app (ds1 ds2 : list tfdiags.Diagnostic) :
  tfdiags.HasErrors (ds1 ++ ds2)
  = tfdiags.HasErrors ds1 || tfdiags.HasErrors ds2.
Proof. apply existsb_app. Qed.

Lemma HasErrors_elem (d : tfdiags.Diagnostic) (ds : list tfdiags.Diagnostic) :
  d ∈ ds -> tfdiags.is_Error d = true -> tfdiags.HasErrors ds = true.
Proof.
  intros Hin Hd. apply existsb_exists. exists d.
  split; [by apply list_elem_of_In | done].
Qed.

Lemma operations_app (c1 c2 : list Call) :
  operations (c1 ++ c2) = operations c1 ++ operations c2.
Proof. apply List.filter_app. Qed.

Lemma operations_events (evs : list Event) :
  operations (Call_Event <$> evs) = [].
Proof. induction evs as [|ev evs IH]; [done | exact IH]. Qed.

Lemma no_operation_events (evs : list Event) (c : Call) :
  c ∈ Call_Event <$> evs -> exists ev, c = Call_Event ev.
Proof. intros (ev & -> & _)%list_elem_of_fmap. by exists ev. Qed.

Section StepsFacts.

Context {State Plan : Type}.
Variable e : Engine State Plan.
Variable r : moduletest.Run.

(** What a call of [wait] that returns has done. *)
Lemma awaited_Done progress selects cancelled calls :
  awaited r progress selects = Done (cancelled, calls) ->
  exists evs,
    calls = Call_Event <$> evs /\ (ContextStop ∈ evs -> cancelled = true).
Proof.
  unfold awaited.
  destruct (wait _ _ _) as [c evs| |] eqn:Hw; [|done..].
  intros [= <- <-]. exists evs. split; [done|].
  apply wait_Returned in Hw as (_ & k1 & Hc).
  destruct c; [done|]. rewrite Hc. intros Hin.
  by apply ContextStop_not_tick in Hin.
Qed.

Lemma interrupted_reported (cancelled : bool) (evs : list Event)
    (ds1 ds2 : list tfdiags.Diagnostic) :
  (ContextStop ∈ evs -> cancelled = true) ->
  Call_Event ContextStop ∈ Call_Event <$> evs ->
  interrupted ∈ (if cancelled then ds1 ++ [interrupted] else ds1) ++ ds2.
Proof.
  intros Hc (ev & [= <-] & Hin)%list_elem_of_fmap. rewrite (Hc Hin).
  apply elem_of_app. left. apply elem_of_app. right. by left.
Qed.

Lemma validate_Done diags calls :
  validate e r = Done (diags, calls) ->
  (calls = [] /\ tfdiags.HasErrors diags = true)
  \/ exists evs (cancelled : bool),
       calls = TfValidate :: (Call_Event <$> evs)
       /\ (ContextStop ∈ evs -> cancelled = true)
       /\ diags = (if cancelled
                   then NewContext_validate e ++ [interrupted]
                   else NewContext_validate e) ++ Context_Validate e.
Proof.
  unfold validate.
  destruct (tfdiags.HasErrors (NewContext_validate e)) eqn:Ec.
  { intros [= <- <-]. by left. }
  destruct (awaited _ _ _) as [[c w]| |] eqn:Hw; [|done..]. simpl.
  intros [= <- <-]. apply awaited_Done in Hw as (evs & -> & Hc).
  right. by exists evs, c.
Qed.

Lemma plan_Done st p diags calls :
  plan e r st = Done (p, diags, calls) ->
  (calls = [] /\ p = None /\ tfdiags.HasErrors diags = true)
  \/ exists evs (cancelled : bool) ds,
       calls = TfPlan :: (Call_Event <$> evs)
       /\ (ContextStop ∈ evs -> cancelled = true)
       /\ diags = (if cancelled then ds ++ [interrupted] else ds)
                  ++ (Context_Plan e st).2
       /\ p = (Context_Plan e st).1.
Proof.
  unfold plan.
  destruct (tfdiags.HasErrors (GetTargets e ++ GetReplaces e)) eqn:Et.
  { intros [= <- <- <-]. by left. }
  destruct (tfdiags.HasErrors (NewContext_plan e)) eqn:Ec.
  { intros [= <- <- <-]. left. split; [done|]. split; [done|].
    by rewrite HasErrors_app, Ec, orb_true_r. }
  destruct (awaited _ _ _) as [[c w]| |] eqn:Hw; [|done..]. simpl.
  destruct (Context_Plan e st) as [p0 planDiags].
  intros [= <- <- <-]. apply awaited_Done in Hw as (evs & -> & Hc).
  right. by exists evs, c, ((GetTargets e ++ GetReplaces e) ++ NewContext_plan e).
Qed.

Lemma apply_Done p st progress st' diags calls :
  apply e r p st progress = Done (st', diags, calls) ->
  exists pl,
    p = Some pl
    /\ ((calls = [] /\ st' = st /\ tfdiags.HasErrors diags = true)
        \/ exists evs (cancelled : bool),
             calls = TfApply :: (Call_Event <$> evs)
             /\ (ContextStop ∈ evs -> cancelled = true)
             /\ diags = (if cancelled
                         then NewContext_apply e ++ [interrupted]
                         else NewContext_apply e)
                        ++ (Context_Apply e pl).2
             /\ st' = (Context_Apply e pl).1).
Proof.
  unfold apply. destruct p as [pl|]; [|done].
  intros H. exists pl. split; [done|]. revert H.
  destruct (tfdiags.HasErrors (NewContext_apply e)) eqn:Ec.
  { intros [= <- <- <-]. by left. }
  destruct (awaited _ _ _) as [[c w]| |] eqn:Hw; [|done..]. simpl.
  destruct (Context_Apply e pl) as [updated applyDiags].
  intros [= <- <- <-]. apply awaited_Done in Hw as (evs & -> & Hc).
  right. by exists evs, c.
Qed.

(** X26: an operation that was cancelled says so.  Whenever [validate],
    [plan] or [apply] returns after [wait] has called [ctx.Stop()], the
    diagnostics it returns hold the error [Test interrupted]. *)
Theorem cancelled_operation_reports (diags : list tfdiags.Diagnostic)
    (calls : list Call) :
  validate e r = Done (diags, calls)
  \/ (exists st p, plan e r st = Done (p, diags, calls))
  \/ (exists p st progress st',
        apply e r p st progress = Done (st', diags, calls)) ->
  Call_Event ContextStop ∈ calls ->
  interrupted ∈ diags /\ tfdiags.HasErrors diags = true.
Proof.
  intros H Hin.
  assert (Hint : interrupted ∈ diags).
  { destruct H as [H|[(st & p & H)|(p & st & progress & st' & H)]].
    - apply validate_Done in H as [(-> & _)|(evs & c & -> & Hc & ->)].
      + by apply elem_of_nil in Hin.
      + apply elem_of_cons in Hin as [?|Hin]; [done|].
        by apply interrupted_reported with evs.
    - apply plan_Done in H as [(-> & _)|(evs & c & ds & -> & Hc & -> & _)].
      + by apply elem_of_nil in Hin.
      + apply elem_of_cons in Hin as [?|Hin]; [done|].
        by apply interrupted_reported with evs.
    - apply apply_Done in H
        as (pl & _ & [(-> & _)|(evs & c & -> & Hc & -> & _)]).
      + by apply elem_of_nil in Hin.
      + apply elem_of_cons in Hin as [?|Hin]; [done|].
        by apply interrupted_reported with evs. }
  split; [done|]. by apply HasErrors_elem with interrupted.
Qed.

Lemma operations_cons (c : Call) (calls : list Call) :
  operations (c :: calls)
  = if match c with Call_Event _ => false | _ => true end
    then c :: operations calls else operations calls.
Proof. done. Qed.

Ltac operations_simpl :=
  repeat (rewrite operations_app || rewrite operations_events
          || rewrite operations_cons);
  simpl.

Ltac ran_solve :=
  intros [= <-]; simpl; operations_simpl;
  repeat match goal with |- _ /\ _ => split end;
  try done; try (by repeat constructor);
  rewrite ?elem_of_cons, ?elem_of_nil; intuition congruence.

Lemma run_steps_Done name diags st ran :
  run_steps e r name diags st = Done ran ->
  sublist (operations (Ran_calls ran))
    [TfValidate; TfPlan; TfApply; Schemas; Evaluate]
  /\ (TfPlan ∈ operations (Ran_calls ran) ->
      TfValidate ∈ operations (Ran_calls ran))
  /\ (TfApply ∈ operations (Ran_calls ran) ->
      TfPlan ∈ operations (Ran_calls ran))
  /\ (Evaluate ∈ operations (Ran_calls ran) ->
      TfPlan ∈ operations (Ran_calls ran))
  /\ (Evaluate ∉ operations (Ran_calls ran) ->
      Ran_Status ran = moduletest.Error)
  /\ (Ran_updated ran = false ->
      Ran_State ran = st /\ TfApply ∉ operations (Ran_calls ran))
  /\ (Ran_updated ran = true ->
      Command e = ApplyTestCommand /\ TfPlan ∈ operations (Ran_calls ran)).
Proof.
  unfold run_steps, errored, evaluated, verbose.
  set (starting := Call_Event _).
  destruct (tfdiags.HasErrors (diags ++ Config_Validate e)); [ran_solve|].
  destruct (tfdiags.HasErrors (TransformConfigForTest e)); [ran_solve|].
  destruct (validate e r) as [[validateDiags validated]| |] eqn:Hv;
    [|done..].
  simpl.
  apply validate_Done in Hv as [(-> & ->)|(evs1 & c1 & -> & _ & Hvd)];
    [ran_solve|].
  destruct (tfdiags.HasErrors validateDiags); [ran_solve|].
  destruct (tfdiags.HasErrors (GetReferences e)); [ran_solve|].
  destruct (tfdiags.HasErrors (GetVariables e)); [ran_solve|].
  destruct (plan e r st) as [[[p planDiags] planned]| |] eqn:Hp; [|done..].
  simpl.
  destruct (Command e) eqn:Ecmd.
  - destruct (tfdiags.HasErrors (ExplainExpectedFailures e planDiags)).
    { apply plan_Done in Hp as [(-> & _)|(evs2 & c2 & ds & -> & _)];
        ran_solve. }
    destruct (apply e r p st moduletest.Running)
      as [[[updated applyDiags] applied]| |] eqn:Ha; [|done..].
    simpl.
    apply apply_Done in Ha as (pl & -> & Ha).
    apply plan_Done in Hp as [(_ & [=] & _)|(evs2 & c2 & ds & -> & _)].
    destruct (tfdiags.HasErrors (ValidateExpectedFailures e applyDiags)).
    { destruct Ha as [(-> & _)|(evs3 & c3 & -> & _)]; ran_solve. }
    destruct (Verbose e);
      destruct (TestContext_Evaluate e _) as [status diags'];
      destruct Ha as [(-> & _)|(evs3 & c3 & -> & _)]; ran_solve.
  - destruct (tfdiags.HasErrors (ValidateExpectedFailures e planDiags)).
    { apply plan_Done in Hp as [(-> & _)|(evs2 & c2 & ds & -> & _)];
        ran_solve. }
    destruct p as [pl|]; [|done].
    apply plan_Done in Hp as [(_ & [=] & _)|(evs2 & c2 & ds & -> & _)].
    destruct (Verbose e);
      destruct (TestContext_Evaluate e _) as [status diags']; ran_solve.
Qed.

Lemma elem_of_operations (c : Call) (calls : list Call) :
  c ∈ operations calls
  <-> c ∈ calls /\ match c with Call_Event _ => False | _ => True end.
Proof.
  unfold operations. rewrite !list_elem_of_In, List.filter_In.
  destruct c; simpl; intuition congruence.
Qed.

(** X27: [run] hands the state back unless it applied.  When a run block
    returns with [updated] false, the state returned is the state it was
    given and no apply was started; and a run block whose command is [plan]
    always returns so. *)
Theorem run_steps_state (name : string) (diags : list tfdiags.Diagnostic)
    (st : State) (ran : Ran) :
  run_steps e r name diags st = Done ran ->
  (Ran_updated ran = false ->
   Ran_State ran = st /\ TfApply ∉ Ran_calls ran)
  /\ (Command e = PlanTestCommand -> Ran_updated ran = false).
Proof.
  intros H. apply run_steps_Done in H as (_ & _ & _ & _ & _ & Hf & Ht).
  split.
  - intros Hu. destruct (Hf Hu) as [Hst Hna]. split; [done|].
    intros Hin. apply Hna, elem_of_operations. done.
  - intros Hcmd. destruct (Ran_updated ran); [|done].
    destruct (Ht eq_refl) as [Hc _]. congruence.
Qed.


(** X29: [destroy] hands the state back unless it applied, applies only a
    destroy plan that was made without errors and without a cancellation,
    and reports a cancellation of either operation. *)
Theorem destroy_steps_guarded (st st' : State)
    (diags : list tfdiags.Diagnostic) (calls : list Call) :
  destroy_steps e r st = Done (st', diags, calls) ->
  (TfApply ∉ calls -> st' = st)
  /\ (TfApply ∈ calls ->
      tfdiags.HasErrors
        (GetVariables e ++ NewContext_plan e ++ (Context_Plan e st).2)
      = false
      /\ exists evs,
           wait (moduletest.Run_Name r) moduletest.TearDown (plan_selects e)
           = Returned false evs)
  /\ (Call_Event ContextStop ∈ calls ->
      interrupted ∈ diags /\ tfdiags.HasErrors diags = true).
Proof.
  unfold destroy_steps.
  destruct (tfdiags.HasErrors (GetVariables e)) eqn:Ev.
  { intros [= <- <- <-]. split; [done|].
    split; intros Hin; by apply elem_of_nil in Hin. }
  destruct (tfdiags.HasErrors (NewContext_plan e)) eqn:Ec.
  { intros [= <- <- <-]. split; [done|].
    split; intros Hin; by apply elem_of_nil in Hin. }
  destruct (awaited r moduletest.TearDown (plan_selects e))
    as [[c1 w1]| |] eqn:Hw; [|done..]. simpl.
  pose proof Hw as Hw'. apply awaited_Done in Hw' as (evs1 & -> & Hc1).
  destruct (Context_Plan e st) as [p planDiags] eqn:Hplan.
  set (planned := (if c1 then _ else _) ++ planDiags).
  assert (Hint1 : Call_Event ContextStop ∈ Call_Event <$> evs1 ->
                  interrupted ∈ planned).
  { by apply interrupted_reported. }
  destruct (tfdiags.HasErrors planned) eqn:Ep.
  { intros [= <- <- <-]. split; [done|]. split.
    - intros Hin. exfalso. simpl in Hin.
      apply elem_of_cons in Hin as [?|Hin]; [done|].
      apply elem_of_cons in Hin as [?|Hin]; [done|].
      by apply no_operation_events in Hin as [ev ?].
    - intros Hin. simpl in Hin.
      apply elem_of_cons in Hin as [?|Hin]; [done|].
      apply elem_of_cons in Hin as [?|Hin]; [done|].
      split; [by apply Hint1 | done]. }
  assert (Hclean : tfdiags.HasErrors
                     (GetVariables e ++ NewContext_plan e ++ planDiags)
                   = false
                   /\ c1 = false).
  { unfold planned in Ep. destruct c1.
    - rewrite !HasErrors_app in Ep. simpl in Ep.
      by rewrite !orb_true_r in Ep.
    - by rewrite <- app_assoc in Ep. }
  destruct Hclean as [Hclean ->].
  destruct (apply e r p st moduletest.TearDown)
    as [[[updated applyDiags] applied]| |] eqn:Ha; [|done..]. simpl.
  intros [= <- <- <-].
  assert (Hwait : exists evs,
            wait (moduletest.Run_Name r) moduletest.TearDown (plan_selects e)
            = Returned false evs).
  { unfold awaited in Hw. destruct (wait _ _ _) as [c evs| |]; [|done..].
    injection Hw as -> _. by exists evs. }
  assert (Hstop1 : Call_Event ContextStop ∉ Call_Event <$> evs1).
  { intros (ev & [= <-] & Hin)%list_elem_of_fmap. by specialize (Hc1 Hin). }
  pose proof Ha as Ha'.
  apply apply_Done in Ha' as (pl & -> & [(-> & -> & He)|(evs3 & c3 & -> & Hc3 & -> & ->)]).
  - split; [done|]. split.
    + intros _. done.
    + intros Hin. exfalso. rewrite app_nil_r in Hin. simpl in Hin.
      apply elem_of_cons in Hin as [?|Hin]; [done|].
      apply elem_of_cons in Hin as [?|Hin]; [done|]. done.
  - split.
    { intros Hn. exfalso. apply Hn. simpl. right. right.
      apply elem_of_app. right. by left. }
    split; [done|].
    intros Hin.
    assert (Hin3 : Call_Event ContextStop ∈ Call_Event <$> evs3).
    { simpl in Hin. apply elem_of_cons in Hin as [?|Hin]; [done|].
      apply elem_of_cons in Hin as [?|Hin]; [done|].
      apply elem_of_app in Hin as [Hin|Hin]; [done|].
      apply elem_of_cons in Hin as [?|Hin]; [done|]. done. }
    assert (Hint : interrupted
                   ∈ planned
                     ++ (if c3 then NewContext_apply e ++ [interrupted]
                         else NewContext_apply e) ++ (Context_Apply e pl).2).
    { apply elem_of_app. right. by apply interrupted_reported with evs3. }
    split; [done|]. by apply HasErrors_elem with interrupted.
Qed.

End StepsFacts.


(** ** Run blocks that only plan *)

Section PlanOnly.

Context {State Plan : Type}.
Variable NewState : State.
Variable Empty : State -> bool.
Variable Merge : moduletest.Status -> moduletest.Status -> moduletest.Status.
Variable arrive : moduletest.Run -> Interrupts.
Variable execute : moduletest.Run -> State -> Outcome (State := State).
Variable teardown : moduletest.Run -> State -> Destroyed (State := State).
Variable transform_fails : moduletest.Run -> bool.
Variable engine : moduletest.Run -> Engine State Plan.

(** X30: a suite that only plans destroys nothing.  When the command of every
    run block is [plan], and the run blocks execute as [run] has it, no
    state is ever recorded for a run block and [TestSuiteRunner.Test] starts
    no destroy operation. *)
Theorem plan_commands_destroy_nothing (files : list moduletest.File)
    (suite : TestSuiteRunner) suite' trace' suiteStatus' files' :
  (forall file r,
     file ∈ files -> r ∈ moduletest.File_Runs file ->
     Command (engine r) = PlanTestCommand) ->
  (forall file r st,
     file ∈ files -> r ∈ moduletest.File_Runs file ->
     exists name diags ran,
       run_steps (engine r) r name diags st = Done ran
       /\ updatedState (execute r st) = Ran_updated ran) ->
  TestSuiteRunner_Test NewState Empty Merge arrive execute teardown
    transform_fails suite files
  = Some (suite', trace', suiteStatus', files') ->
  forall name, DestroyOperation name ∉ trace'.
Proof.
  intros Hcmd Hrun HT name Hin. unfold TestSuiteRunner_Test in HT.
  destruct (TestSuiteRunner_Test_loop_destroys _ _ _ _ _ _ _ _ _ _ _ _ _ _ _ _
              HT Hin) as [Hnil|(file & r & st & Hf & Hr & _ & Hu & _)].
  { by apply elem_of_nil in Hnil. }
  destruct (Hrun file r st Hf Hr) as (nm & diags & ran & Hsteps & Hagree).
  apply run_steps_Done in Hsteps as (_ & _ & _ & _ & _ & _ & Ht).
  rewrite Hagree in Hu. destruct (Ht Hu) as [Hc _].
  rewrite (Hcmd file r Hf Hr) in Hc. done.
Qed.

End PlanOnly.


(** * The further properties at the worked inputs *)

Lemma refine_default_present_witness :
  (refine (getDefaultActionForIteration Examples.unchanged)
     [plans.NoOp; plans.Update] = plans.NoOp
   <-> Forall (fun a => a = plans.NoOp) [plans.NoOp; plans.Update])
  /\ (refine (getDefaultActionForIteration Examples.unchanged)
        [plans.NoOp; plans.Update] = plans.Update
      <-> ~ Forall (fun a => a = plans.NoOp) [plans.NoOp; plans.Update]).
Proof. apply (refine_default_present Examples.unchanged). reflexivity. Defined.

Lemma calculateChange_swap_sides_witness :
  calculateChange isBeforeSensitive isAfterSensitive
    (swap_sides Examples.created)
  = mirror (calculateChange isBeforeSensitive isAfterSensitive
              Examples.created).
Proof.
  apply (calculateChange_swap_sides isBeforeSensitive isAfterSensitive
           Examples.created); reflexivity.
Defined.

Lemma ValueFromJsonChange_actions_witness :
  exists c,
    ValueFromJsonChange Inputs.Unmarshal Inputs.Parse Inputs.removed = Some c
    /\ (jsonplan_Before Inputs.removed = None -> Before c = JNil)
    /\ (jsonplan_After Inputs.removed = None -> After c = JNil)
    /\ (calculateChange isBeforeSensitive isAfterSensitive c = plans.Create
        <-> Before c = JNil /\ After c <> JNil)
    /\ (calculateChange isBeforeSensitive isAfterSensitive c = plans.Delete
        <-> Before c <> JNil /\ After c = JNil).
Proof.
  destruct (ValueFromJsonChange Inputs.Unmarshal Inputs.Parse Inputs.removed)
    as [c|] eqn:H; [|vm_compute in H; discriminate].
  exists c. split; [reflexivity|].
  apply (ValueFromJsonChange_actions Inputs.Unmarshal Inputs.Parse
           isBeforeSensitive isAfterSensitive Inputs.removed c H).
Defined.

Lemma Test_returns_witness :
  exists runner' file',
    Test Examples.NewState moduletest.Merge Examples.no_arrival
      Examples.setup_fails (Examples.fresh_runner Examples.running)
      Examples.file
    = Some (runner', file')
    /\ is_Some (RelevantStates runner' !! MainStateIdentifier)
    /\ moduletest.File_Name file' = moduletest.File_Name Examples.file
    /\ length (moduletest.File_Runs file')
       = length (moduletest.File_Runs Examples.file).
Proof.
  apply (Test_returns Examples.NewState moduletest.Merge Examples.no_arrival
           Examples.setup_fails (Examples.fresh_runner Examples.running)
           Examples.file).
  vm_compute. eexists. reflexivity.
Defined.


Lemma Test_loop_at_most_once_witness :
  exists runner' fileStatus' runs' returned,
    Test_loop Examples.NewState moduletest.Merge Examples.no_arrival
      Examples.setup_fails (Examples.fresh_runner Examples.running)
      moduletest.Skip [Examples.setup; Examples.verify]
    = Some (runner', fileStatus', runs', returned)
    /\ exists evs,
         Trace runner' = Trace (Examples.fresh_runner Examples.running) ++ evs
         /\ sublist (List.filter is_Operation evs)
              (operations_of [Examples.setup; Examples.verify]).
Proof.
  destruct (Test_loop Examples.NewState moduletest.Merge Examples.no_arrival
              Examples.setup_fails (Examples.fresh_runner Examples.running)
              moduletest.Skip [Examples.setup; Examples.verify])
    as [[[[runner' fileStatus'] runs'] returned]|] eqn:H;
    [|vm_compute in H; discriminate].
  exists runner', fileStatus', runs', returned. split; [reflexivity|].
  apply (Test_loop_at_most_once Examples.NewState moduletest.Merge
           Examples.no_arrival Examples.setup_fails _ _ _ _ _ _ _ H).
Defined.

Lemma Test_loop_clean_witness :
  exists runner' fileStatus' runs' returned,
    Test_loop Examples.NewState moduletest.Merge Examples.no_arrival
      Inputs.all_apply (Examples.fresh_runner Examples.running)
      moduletest.Skip [Examples.setup; Examples.verify]
    = Some (runner', fileStatus', runs', returned)
    /\ returned = false
    /\ moduletest.Skip <> moduletest.Error
    /\ exists evs,
         Trace runner' = Trace (Examples.fresh_runner Examples.running) ++ evs
         /\ List.filter is_Operation evs
            = operations_of [Examples.setup; Examples.verify].
Proof.
  destruct (Test_loop Examples.NewState moduletest.Merge Examples.no_arrival
              Inputs.all_apply (Examples.fresh_runner Examples.running)
              moduletest.Skip [Examples.setup; Examples.verify])
    as [[[[runner' fileStatus'] runs'] returned]|] eqn:H;
    [|vm_compute in H; discriminate].
  exists runner', fileStatus', runs', returned. split; [reflexivity|].
  pose proof H as H'. vm_compute in H'. injection H' as Hr Hf _ _.
  apply (Test_loop_clean Examples.NewState moduletest.Merge
           Examples.no_arrival Inputs.all_apply _ _ _ _ _ _ _ H).
  - by rewrite <- Hr.
  - by rewrite <- Hr.
  - by rewrite <- Hf.
Defined.

Lemma cleanup_frame_witness :
  exists runner' file',
    cleanup Examples.Empty Examples.teardown Examples.transform_fails
      Inputs.applied_runner Examples.file
    = Some (runner', file')
    /\ moduletest.File_Name file' = moduletest.File_Name Examples.file
    /\ moduletest.File_Runs file' = moduletest.File_Runs Examples.file
    /\ (moduletest.File_Status file' = moduletest.File_Status Examples.file
        \/ moduletest.File_Status file' = moduletest.Error)
    /\ RelevantStates runner' = RelevantStates Inputs.applied_runner
    /\ (Stopped (Suite Inputs.applied_runner) = true ->
        Stopped (Suite runner') = true)
    /\ (Cancelled (Suite Inputs.applied_runner) = true ->
        Cancelled (Suite runner') = true)
    /\ exists evs,
         Trace runner' = Trace Inputs.applied_runner ++ evs
         /\ no_Operation evs.
Proof.
  destruct (cleanup Examples.Empty Examples.teardown Examples.transform_fails
              Inputs.applied_runner Examples.file)
    as [[runner' file']|] eqn:H; [|vm_compute in H; discriminate].
  exists runner', file'. split; [reflexivity|].
  apply (cleanup_frame Examples.Empty Examples.teardown
           Examples.transform_fails _ _ _ _ H).
Defined.

Lemma cleanup_destroys_recorded_witness :
  exists key s r,
    RelevantStates Inputs.applied_runner !! key = Some s
    /\ TestFileState_Run s = Some r
    /\ moduletest.Run_Name r = "verify"%string
    /\ Examples.Empty (TestFileState_State s) = false
    /\ Examples.transform_fails r = false.
Proof.
  destruct (cleanup Examples.Empty Examples.teardown Examples.transform_fails
              Inputs.applied_runner Examples.file)
    as [[runner' file']|] eqn:H; [|vm_compute in H; discriminate].
  pose proof H as H'. vm_compute in H'. injection H' as Hr _.
  apply (cleanup_destroys_recorded Examples.Empty Examples.teardown
           Examples.transform_fails Inputs.applied_runner Examples.file
           runner' file'
           [ViewRun "verify" moduletest.TearDown;
            DestroyOperation "verify";
            ViewDestroySummary (Some "verify"%string)]
           "verify"%string H).
  - by rewrite <- Hr.
  - right. left.
Defined.

Lemma cleanup_states_later_first_witness :
  exists (runner' : TestFileRunner (State := nat)) evs n order,
    Trace runner' = Trace (Examples.fresh_runner Examples.running) ++ evs
    /\ order ≡ₚ Inputs.module_states
    /\ Sorted later_first order
    /\ List.filter is_module_summary evs
       = (fun x => ViewDestroySummary (Some (moduletest.Run_Name x.1)))
           <$> take n order
    /\ (Cancelled (Suite runner') = false ->
        n = length Inputs.module_states).
Proof.
  destruct (cleanup_states Examples.Empty Examples.teardown
              Examples.transform_fails
              (Examples.fresh_runner Examples.running) moduletest.Pass
              (sort_later_first Inputs.module_states))
    as [runner' fileStatus'] eqn:H.
  exists runner'.
  apply (cleanup_states_later_first Examples.Empty Examples.teardown
           Examples.transform_fails _ _ _ _ _ H).
Defined.

Lemma wait_ignores_stop_witness :
  wait "setup" moduletest.Running
    (without_stop [After2s; StoppedCtxDone; After2s; RunningCtxDone])
  = wait "setup" moduletest.Running
      [After2s; StoppedCtxDone; After2s; RunningCtxDone].
Proof.
  apply (wait_ignores_stop "setup" moduletest.Running
           [After2s; StoppedCtxDone; After2s; RunningCtxDone]).
  discriminate.
Defined.

Lemma wait_returns_when_done_witness :
  wait "setup" moduletest.Running
    ([After2s; CancelledCtxDone; After2s]
     ++ RunningCtxDone :: [StoppedCtxDone])
  = Returned true
      [ViewRun "setup" moduletest.Running; ViewFatalInterruptSummary;
       ContextStop; ViewRun "setup" moduletest.Running].
Proof.
  apply (wait_returns_when_done "setup" moduletest.Running
           [After2s; CancelledCtxDone; After2s] [StoppedCtxDone]).
  reflexivity.
Defined.

Lemma FilterVariablesToConfig_filtered_witness :
  (FilterVariablesToConfig Inputs.has_Sensitive Inputs.unmarked
     Inputs.Sensitive Inputs.Name Inputs.declared Inputs.values).1
    !! "region"%string
  = (_ ← Inputs.declared !! "region"%string;
     passed_on Inputs.has_Sensitive Inputs.unmarked
       <$> (list_to_map Inputs.values : gmap string (string * bool))
             !! "region"%string).
Proof.
  apply (FilterVariablesToConfig_filtered Inputs.has_Sensitive
           Inputs.unmarked Inputs.Sensitive Inputs.Name Inputs.declared
           Inputs.values "region"%string).
  compute_done.
Defined.

Lemma FilterVariablesToConfig_after_Add_witness :
  exists m' undo,
    AddVariablesToConfig Inputs.newVariable Inputs.values Inputs.config
    = Some (m', undo)
    /\ (forall name value,
          (name, value) ∈ Inputs.values ->
          (FilterVariablesToConfig Inputs.has_Sensitive Inputs.unmarked
             Inputs.Sensitive Inputs.Name (Variables m') Inputs.values).1
            !! name
          = Some (passed_on Inputs.has_Sensitive Inputs.unmarked value))
    /\ FilterVariablesToConfig Inputs.has_Sensitive Inputs.unmarked
         Inputs.Sensitive Inputs.Name (Variables (undo m')) Inputs.values
       = FilterVariablesToConfig Inputs.has_Sensitive Inputs.unmarked
           Inputs.Sensitive Inputs.Name (Variables Inputs.config)
           Inputs.values.
Proof.
  destruct (AddVariablesToConfig Inputs.newVariable Inputs.values
              Inputs.config) as [[m' undo]|] eqn:H;
    [|vm_compute in H; discriminate].
  exists m', undo. split; [reflexivity|].
  apply (FilterVariablesToConfig_after_Add Inputs.has_Sensitive
           Inputs.unmarked Inputs.Sensitive Inputs.Name Inputs.newVariable
           Inputs.values Inputs.config m' undo).
  - intros l [= <-]. vm_compute. eexists. reflexivity.
  - eexists. reflexivity.
  - compute_done.
  - exact H.
Defined.

Lemma initVariables_file_overrides_witness :
  initVariables Inputs.unparsedTestVariableValue Inputs.GlobalVariables
    Inputs.FileVariables !! "region"%string
  = match (list_to_map Inputs.FileVariables : gmap string nat)
            !! "region"%string with
    | Some expr => Some (Inputs.unparsedTestVariableValue expr)
    | None =>
        (list_to_map Inputs.GlobalVariables : gmap string string)
          !! "region"%string
    end.
Proof.
  apply (initVariables_file_overrides Inputs.unparsedTestVariableValue
           Inputs.GlobalVariables Inputs.FileVariables "region"%string);
    compute_done.
Defined.

Lemma gatherProviders_first_call_witness :
  foldl (fun configProviders '(key, config) =>
           gatherProviders key config configProviders)
    ∅
    ([("modules/other"%string, Inputs.other_module)]
     ++ (MainStateIdentifier, Inputs.root_module)
        :: [(MainStateIdentifier, Inputs.other_module)])
    !! MainStateIdentifier
  = Some (providers_of Inputs.root_module).
Proof.
  apply (gatherProviders_first_call
           [("modules/other"%string, Inputs.other_module)]
           [(MainStateIdentifier, Inputs.other_module)]
           MainStateIdentifier Inputs.root_module ∅).
  - reflexivity.
  - compute_done.
Defined.

Lemma Test_records_updates_witness :
  exists runner' file' s,
    Test Examples.NewState moduletest.Merge Examples.no_arrival
      Inputs.all_apply (Examples.fresh_runner Examples.running) Examples.file
    = Some (runner', file')
    /\ RelevantStates runner' !! MainStateIdentifier = Some s
    /\ recorded Examples.NewState Inputs.all_apply
         (moduletest.File_Runs Examples.file)
         (RelevantStates (Examples.fresh_runner Examples.running)
            !! MainStateIdentifier) s.
Proof.
  destruct (Test Examples.NewState moduletest.Merge Examples.no_arrival
              Inputs.all_apply (Examples.fresh_runner Examples.running)
              Examples.file) as [[runner' file']|] eqn:H;
    [|vm_compute in H; discriminate].
  pose proof H as H'. vm_compute in H'. injection H' as Hr _.
  destruct (RelevantStates runner' !! MainStateIdentifier) as [s|] eqn:Hs;
    [|rewrite <- Hr in Hs; vm_compute in Hs; discriminate].
  exists runner', file', s. split; [reflexivity|]. split; [exact Hs|].
  apply (Test_records_updates Examples.NewState moduletest.Merge
           Examples.no_arrival Inputs.all_apply _ _ _ _ _ _ H Hs).
Defined.

Lemma TestSuiteRunner_Test_destroys_applied_witness :
  exists file r st,
    file ∈ [Examples.file]
    /\ r ∈ moduletest.File_Runs file
    /\ moduletest.Run_Name r = "verify"%string
    /\ updatedState (Inputs.all_apply r st) = true
    /\ Examples.Empty (state (Inputs.all_apply r st)) = false.
Proof.
  destruct (TestSuiteRunner_Test Examples.NewState Examples.Empty
              moduletest.Merge Examples.no_arrival Inputs.all_apply
              Examples.teardown Examples.transform_fails Examples.running
              [Examples.file])
    as [[[[suite' trace'] suiteStatus'] files']|] eqn:H;
    [|vm_compute in H; discriminate].
  pose proof H as H'. vm_compute in H'. injection H' as _ Ht _ _.
  apply (TestSuiteRunner_Test_destroys_applied Examples.NewState
           Examples.Empty moduletest.Merge Examples.no_arrival
           Inputs.all_apply Examples.teardown Examples.transform_fails
           _ _ _ _ _ _ "verify"%string H).
  rewrite <- Ht. repeat first [by left | right].
Defined.

Lemma collectTests_runs_witness :
  exists config,
    Inputs.Tests !! "main.tftest.hcl"%string = Some config
    /\ moduletest.File_Name Examples.file = "main.tftest.hcl"%string
    /\ moduletest.Run_Index <$> moduletest.File_Runs Examples.file
       = seq 0 (length (TestFile_Runs config))
    /\ moduletest.Run_Name <$> moduletest.File_Runs Examples.file
       = TestRun_Name <$> TestFile_Runs config.
Proof.
  apply (collectTests_runs moduletest.Pending [] Inputs.Tests
           "main.tftest.hcl"%string Examples.file).
  vm_compute. reflexivity.
Defined.

Lemma cancelled_operation_reports_witness :
  interrupted ∈ [interrupted]
  /\ tfdiags.HasErrors [interrupted] = true.
Proof.
  apply (cancelled_operation_reports Inputs.interrupted_apply Examples.setup
           [interrupted]
           [TfApply; Call_Event ViewFatalInterruptSummary;
            Call_Event ContextStop]).
  - right. right. exists (Some 1), 0, moduletest.Running, 1.
    vm_compute. reflexivity.
  - right. right. left.
Defined.

Lemma run_steps_state_witness :
  exists ran,
    run_steps (Inputs.planning Examples.setup) Examples.setup
      "main.tftest.hcl/setup" [] 0
    = Done ran
    /\ (Ran_updated ran = false ->
        Ran_State ran = 0 /\ TfApply ∉ Ran_calls ran)
    /\ (Command (Inputs.planning Examples.setup) = PlanTestCommand ->
        Ran_updated ran = false).
Proof.
  destruct (run_steps (Inputs.planning Examples.setup) Examples.setup
              "main.tftest.hcl/setup" [] 0) as [ran| |] eqn:H;
    [|vm_compute in H; discriminate..].
  exists ran. split; [reflexivity|].
  apply (run_steps_state (Inputs.planning Examples.setup) Examples.setup
           "main.tftest.hcl/setup" [] 0 ran H).
Defined.


Lemma destroy_steps_guarded_witness :
  exists st' diags calls,
    destroy_steps Inputs.applying Examples.verify 2 = Done (st', diags, calls)
    /\ (TfApply ∉ calls -> st' = 2)
    /\ (TfApply ∈ calls ->
        tfdiags.HasErrors
          (GetVariables Inputs.applying ++ NewContext_plan Inputs.applying
           ++ (Context_Plan Inputs.applying 2).2)
        = false
        /\ exists evs,
             wait (moduletest.Run_Name Examples.verify) moduletest.TearDown
               (plan_selects Inputs.applying)
             = Returned false evs)
    /\ (Call_Event ContextStop ∈ calls ->
        interrupted ∈ diags /\ tfdiags.HasErrors diags = true).
Proof.
  destruct (destroy_steps Inputs.applying Examples.verify 2)
    as [[[st' diags] calls]| |] eqn:H; [|vm_compute in H; discriminate..].
  exists st', diags, calls. split; [reflexivity|].
  apply (destroy_steps_guarded Inputs.applying Examples.verify 2 _ _ _ H).
Defined.

Lemma plan_commands_destroy_nothing_witness :
  exists suite' trace' suiteStatus' files',
    TestSuiteRunner_Test Examples.NewState Examples.Empty moduletest.Merge
      Examples.no_arrival Inputs.all_plan Examples.teardown
      Examples.transform_fails Examples.running [Examples.file]
    = Some (suite', trace', suiteStatus', files')
    /\ forall name, DestroyOperation name ∉ trace'.
Proof.
  destruct (TestSuiteRunner_Test Examples.NewState Examples.Empty
              moduletest.Merge Examples.no_arrival Inputs.all_plan
              Examples.teardown Examples.transform_fails Examples.running
              [Examples.file])
    as [[[[suite' trace'] suiteStatus'] files']|] eqn:H;
    [|vm_compute in H; discriminate].
  exists suite', trace', suiteStatus', files'. split; [reflexivity|].
  apply (plan_commands_destroy_nothing Examples.NewState Examples.Empty
           moduletest.Merge Examples.no_arrival Inputs.all_plan
           Examples.teardown Examples.transform_fails Inputs.planning
           [Examples.file] Examples.running suite' trace' suiteStatus'
           files').
  - intros file r _ _. reflexivity.
  - intros file r st _ _.
    exists "main.tftest.hcl"%string, [], 
      {| Ran_Status := moduletest.Pass; Ran_Diagnostics := [];
         Ran_State := st; Ran_updated := false;
         Ran_calls :=
           [Call_Event (ViewRun (moduletest.Run_Name r) moduletest.Starting);
            TfValidate; TfPlan; Schemas; Evaluate] |}.
    split; reflexivity.
  - exact H.
Defined.
